(** * pipelinewise-target-snowflake: [target_snowflake/db_sync.py]

    A shallow embedding of the schema flattening / type mapping engine, the
    table reconciler and the managed-ingestion retry and polling loops of
    [db_sync.py], with the constructor of [DbSync], the names it gives to
    tables, pipes and stage keys, the table definition and the CSV line,
    followed by the properties established about them.

    Conventions of the embedding.
    - Python [str] values are Rocq [string]s.  Case conversion ([upper],
      [lower]) is the ASCII one; the strings of interest (JSON schema
      keywords, column names, SQL text) are ASCII.
    - JSON documents (schemas, records, configuration) are values of [json];
      a Python [dict] is an insertion-ordered association list with unique
      keys.  JSON numbers are restricted to integers.
    - A Python exception is a value of [exn]; a computation that may raise
      returns a [result].
    - Integers are unbounded ([Z]).
    - A call to the outside world (a statement sent to the warehouse, a
      read of the catalog, a request to the ingestion service, a wait) is
      recorded as an action, and returns.  The runs described are those
      in which these calls return; in the source a call that raises (a
      refused statement, a failed request, a wait too long for
      [time.sleep]) ends the method at that point with its exception. *)

From Stdlib Require Import String Ascii List ZArith Lia Bool Arith Permutation Sorted DecimalString.
Import ListNotations.
Open Scope string_scope.
Set Warnings "-register-all".

(* ================================================================= *)
(** * Part I. The model *)
(* ================================================================= *)

(* ----------------------------------------------------------------- *)
(** ** Python values, exceptions and built-ins *)

Inductive json : Type :=
| JNull
| JBool (b : bool)
| JNum (n : Z)
| JStr (s : string)
| JArr (l : list json)
| JObj (kvs : list (string * json)).

(** A Python [dict] with string keys. *)
Definition dict := list (string * json).

Inductive exn : Type :=
| ValueError (msg : string)
| KeyError (key : string)
| TypeError
| IndexError
| AttributeError (attr : string)
| SystemExit (code : Z).

Inductive result (A : Type) : Type :=
| Ok (a : A)
| Raise (e : exn).
Arguments Ok {A} a.
Arguments Raise {A} e.

Definition bind {A B : Type} (m : result A) (k : A -> result B) : result B :=
  match m with
  | Ok a => k a
  | Raise e => Raise e
  end.

Notation "x <- m ;; k" := (bind m (fun x => k))
  (at level 61, m at next level, right associativity).

(** The double quote character (code 34). *)
Definition dquote : ascii := "034"%char.
(** The line feed character (code 10). *)
Definition newline : ascii := "010"%char.
Definition underscore : ascii := "_"%char.

Definition is_ascii_lower (c : ascii) : bool :=
  let n := nat_of_ascii c in ((97 <=? n) && (n <=? 122))%nat.
Definition is_ascii_upper (c : ascii) : bool :=
  let n := nat_of_ascii c in ((65 <=? n) && (n <=? 90))%nat.
Definition upper_char (c : ascii) : ascii :=
  if is_ascii_lower c then ascii_of_nat (nat_of_ascii c - 32) else c.
Definition lower_char (c : ascii) : ascii :=
  if is_ascii_upper c then ascii_of_nat (nat_of_ascii c + 32) else c.

Fixpoint str_map (f : ascii -> ascii) (s : string) : string :=
  match s with
  | EmptyString => EmptyString
  | String c s' => String (f c) (str_map f s')
  end.

Fixpoint str_filter (f : ascii -> bool) (s : string) : string :=
  match s with
  | EmptyString => EmptyString
  | String c s' => if f c then String c (str_filter f s') else str_filter f s'
  end.

(** [s.upper()], [s.lower()] *)
Definition py_upper (s : string) : string := str_map upper_char s.
Definition py_lower (s : string) : string := str_map lower_char s.

(** [sep.join(l)] *)
Definition py_join (sep : string) (l : list string) : string := String.concat sep l.

(** [needle in hay] for two strings: substring test. *)
Fixpoint py_contains (needle hay : string) : bool :=
  prefix needle hay ||
  match hay with
  | EmptyString => false
  | String _ hay' => py_contains needle hay'
  end.

(** [s.replace(old, new)] for a non-empty [old]: the occurrences of [old]
    are found left to right and do not overlap.  [skip] counts the
    characters of a matched occurrence still to be dropped. *)
Fixpoint replace_from (old new : string) (skip : nat) (s : string) : string :=
  match s with
  | EmptyString => EmptyString
  | String c s' =>
      match skip with
      | S k => replace_from old new k s'
      | O =>
          if prefix old s
          then new ++ replace_from old new (String.length old - 1) s'
          else String c (replace_from old new 0 s')
      end
  end.
Definition py_replace (old new s : string) : string := replace_from old new 0 s.

(** [s.split(sep)] for a non-empty [sep]; [cur] is the segment being read. *)
Fixpoint split_from (sep : string) (skip : nat) (cur : string) (s : string) : list string :=
  match s with
  | EmptyString => [cur]
  | String c s' =>
      match skip with
      | S k => split_from sep k cur s'
      | O =>
          if prefix sep s
          then cur :: split_from sep (String.length sep - 1) EmptyString s'
          else split_from sep 0 (cur ++ String c EmptyString) s'
      end
  end.
(** An empty separator raises [ValueError: empty separator]. *)
Definition py_split (s sep : string) : result (list string) :=
  match sep with
  | EmptyString => Raise (ValueError "empty separator")
  | _ => Ok (split_from sep 0 EmptyString s)
  end.

(** Truth value of a JSON value, as [bool(x)] gives it. *)
Definition truthy (j : json) : bool :=
  match j with
  | JNull => false
  | JBool b => b
  | JNum n => negb (n =? 0)%Z
  | JStr s => negb (s =? "")
  | JArr l => match l with [] => false | _ => true end
  | JObj kvs => match kvs with [] => false | _ => true end
  end.

(** [d.get(k)]: [None] stands for Python's [None] default. *)
Fixpoint dict_get {V : Type} (k : string) (d : list (string * V)) : option V :=
  match d with
  | [] => None
  | (k', v) :: d' => if k' =? k then Some v else dict_get k d'
  end.

(** [d[k] = v]: an existing key keeps its position. *)
Fixpoint dict_set {V : Type} (k : string) (v : V) (d : list (string * V)) : list (string * V) :=
  match d with
  | [] => [(k, v)]
  | (k', v') :: d' => if k' =? k then (k', v) :: d' else (k', v') :: dict_set k v d'
  end.

(** [dict(items)]: a later item with a key already present replaces the value. *)
Definition dict_of_items {V : Type} (items : list (string * V)) : list (string * V) :=
  fold_left (fun d kv => dict_set (fst kv) (snd kv) d) items [].

(** [k in d] *)
Definition dict_has {V : Type} (k : string) (d : list (string * V)) : bool :=
  match dict_get k d with Some _ => true | None => false end.

(** [d[k]] *)
Definition dict_item (k : string) (d : dict) : result json :=
  match dict_get k d with Some v => Ok v | None => Raise (KeyError k) end.

(** [bool(d.get(k, None))] *)
Definition get_truthy (k : string) (d : dict) : bool :=
  match dict_get k d with Some v => truthy v | None => false end.

(** [x == s] for a string literal [s]. *)
Definition json_is_str (s : string) (x : json) : bool :=
  match x with JStr s' => s' =? s | _ => false end.

(** [s in x] for a string literal [s]: substring test on a string,
    membership in a list, key test on a dict; other values are not
    containers. *)
Definition py_in (s : string) (x : json) : result bool :=
  match x with
  | JStr hay => Ok (py_contains s hay)
  | JArr l => Ok (existsb (json_is_str s) l)
  | JObj kvs => Ok (dict_has s kvs)
  | _ => Raise TypeError
  end.

(** Short-circuit [a or b] and [a and b] over tests that may raise. *)
Definition or_else (a b : result bool) : result bool :=
  x <- a ;; if x then Ok true else b.
Definition and_then (a b : result bool) : result bool :=
  x <- a ;; if x then b else Ok false.

(* ----------------------------------------------------------------- *)
(** ** [validate_config] *)

Definition s3_required_config_keys : list string :=
  ["account"; "dbname"; "user"; "password"; "warehouse"; "s3_bucket"; "stage"; "file_format"].

Definition snowflake_required_config_keys : list string :=
  ["account"; "dbname"; "user"; "password"; "warehouse"; "file_format"].

Definition only_one_staging_key_error : string :=
  "Only one of 's3_bucket' or 'stage' keys defined in config. " ++
  "Use both of them if you want to use an external stage when loading data into snowflake " ++
  "or don't use any of them if you want ot use table stages.".

Definition missing_key_error (k : string) : string :=
  "Required key is missing from config: [" ++ k ++ "]".

Definition no_target_schema_error : string :=
  "Neither 'default_target_schema' (string) nor 'schema_mapping' (object) keys set in config.".

Definition validate_config (config : dict) : list string :=
  let errors : list string := [] in
  let '(required_config_keys, errors) :=
    (* Use external stages if both s3_bucket and stage defined *)
    if get_truthy "s3_bucket" config && get_truthy "stage" config
    then (s3_required_config_keys, errors)
    (* Use table stage if none s3_bucket and stage defined *)
    else if negb (get_truthy "s3_bucket" config) && negb (get_truthy "stage" config)
    then (snowflake_required_config_keys, errors)
    else ([], (errors ++ [only_one_staging_key_error])%list) in
  (* Check if mandatory keys exist *)
  let errors :=
    fold_left (fun errors k =>
                 if negb (get_truthy k config)
                 then (errors ++ [missing_key_error k])%list else errors)
              required_config_keys errors in
  (* Check target schema config *)
  let config_default_target_schema := get_truthy "default_target_schema" config in
  let config_schema_mapping := get_truthy "schema_mapping" config in
  if negb config_default_target_schema && negb config_schema_mapping
  then (errors ++ [no_target_schema_error])%list
  else errors.

(* ----------------------------------------------------------------- *)
(** ** [column_type], [column_trans], [safe_column_name], [column_clause] *)

(** [property_format == s], where [property_format] is [None] when the
    descriptor has no format. *)
Definition format_is (s : string) (property_format : option json) : bool :=
  match property_format with
  | Some x => json_is_str s x
  | None => false
  end.

Definition column_type (schema_property : dict) : result string :=
  property_type <- dict_item "type" schema_property ;;
  let property_format := dict_get "format" schema_property in
  c <- or_else (py_in "object" property_type) (py_in "array" property_type) ;;
  if c then Ok "variant"
  else if format_is "date-time" property_format then Ok "timestamp_ntz"
  else if format_is "time" property_format then Ok "time"
  else if format_is "binary" property_format then Ok "binary"
  else
    c <- py_in "number" property_type ;;
    if c then Ok "float"
    else
      c <- and_then (py_in "integer" property_type) (py_in "string" property_type) ;;
      if c then Ok "text"
      else
        c <- py_in "integer" property_type ;;
        if c then Ok "number"
        else
          c <- py_in "boolean" property_type ;;
          if c then Ok "boolean" else Ok "text".

Definition column_trans (schema_property : dict) : result string :=
  property_type <- dict_item "type" schema_property ;;
  c <- or_else (py_in "object" property_type) (py_in "array" property_type) ;;
  if c then Ok "parse_json"
  else if format_is "binary" (dict_get "format" schema_property) then Ok "to_binary"
  else Ok "".

Definition safe_column_name (name : string) : string :=
  py_upper (String dquote name ++ String dquote "").

Definition column_clause (name : string) (schema_property : dict) : result string :=
  ty <- column_type schema_property ;;
  Ok (safe_column_name name ++ " " ++ ty).

(* ----------------------------------------------------------------- *)
(** ** [flatten_key] *)

(** [inflection.camelize(string)] (inflection 0.3.1, the version pinned in
    [setup.py]) is [re.sub(r"(?:^|_)(.)", lambda m: m.group(1).upper(), string)]:
    the first character, and every character that follows an underscore,
    is upper-cased and that underscore dropped; [.] does not match a line
    feed. *)
Fixpoint camelize_rest (s : string) : string :=
  match s with
  | EmptyString => EmptyString
  | String c rest =>
      if Ascii.eqb c underscore then
        match rest with
        | EmptyString => String c EmptyString
        | String d rest' =>
            if Ascii.eqb d newline then String c (camelize_rest rest)
            else String (upper_char d) (camelize_rest rest')
        end
      else String c (camelize_rest rest)
  end.

Definition camelize (s : string) : string :=
  match s with
  | EmptyString => EmptyString
  | String c rest =>
      if Ascii.eqb c newline then String c (camelize_rest rest)
      else String (upper_char c) (camelize_rest rest)
  end.

(** The body of the [while] loop: the replacement for one path segment,
    [re.sub(r'[a-z]', '', inflection.camelize(seg))] or [seg[0:3]],
    lower-cased. *)
Definition reduce_segment (seg : string) : string :=
  let reduced_key := str_filter (fun c => negb (is_ascii_lower c)) (camelize seg) in
  py_lower (if (1 <? String.length reduced_key)%nat then reduced_key
            else substring 0 3 seg).

(** The [while] loop.  [inflected_key] is [done ++ todo] and
    [reducer_index] is [length done]. *)
Fixpoint flatten_key_loop (sep : string) (done todo : list string) : list string :=
  if (255 <=? String.length (py_join sep (done ++ todo)%list))%nat then
    match todo with
    | [] => done
    | seg :: todo' => flatten_key_loop sep (done ++ [reduce_segment seg])%list todo'
    end
  else (done ++ todo)%list.

Definition flatten_key (k : string) (parent_key : list string) (sep : string) : string :=
  let full_key := (parent_key ++ [k])%list in
  py_join sep (flatten_key_loop sep [] full_key).

(* ----------------------------------------------------------------- *)
(** ** [flatten_schema] *)

Abbreviation item := (string * json)%type.

(** [sorted(items, key=lambda item: item[0])]: a stable sort on the key,
    strings compared character by character. *)
Fixpoint insert_item (x : item) (l : list item) : list item :=
  match l with
  | [] => [x]
  | y :: l' => if String.leb (fst x) (fst y) then x :: l else y :: insert_item x l'
  end.
Definition sorted_by_key (items : list item) : list item :=
  fold_right insert_item [] items.

(** [itertools.groupby(l, key=lambda item: item[0])]: the maximal runs of
    consecutive items with equal keys, each with its key. *)
Fixpoint groupby (l : list item) : list (string * list item) :=
  match l with
  | [] => []
  | x :: l' =>
      match groupby l' with
      | (k, g) :: gs =>
          if fst x =? k then (k, x :: g) :: gs else (fst x, [x]) :: (k, g) :: gs
      | [] => [(fst x, [x])]
      end
  end.

Definition duplicate_column_error (k : string) : exn :=
  ValueError ("Duplicate column name produced in schema: " ++ k).

(** The loop over the groups: the first group with more than one item raises. *)
Fixpoint check_groups (gs : list (string * list item)) : result unit :=
  match gs with
  | [] => Ok tt
  | (k, g) :: gs' =>
      if (1 <? List.length g)%nat then Raise (duplicate_column_error k)
      else check_groups gs'
  end.

(** [x.items()], [x.keys()], [x.values()]: only a dict has these methods. *)
Definition as_dict (method : string) (x : json) : result dict :=
  match x with
  | JObj kvs => Ok kvs
  | _ => Raise (AttributeError method)
  end.

(** [x[0]] *)
Definition subscript_zero (x : json) : result json :=
  match x with
  | JArr (a :: _) => Ok a
  | JArr [] => Raise IndexError
  | JStr (String c _) => Ok (JStr (String c EmptyString))
  | JStr EmptyString => Raise IndexError
  | JObj _ => Raise (KeyError "0")
  | _ => Raise TypeError
  end.

(** [x[k]] for a string [k] *)
Definition subscript_key (k : string) (x : json) : result json :=
  match x with
  | JObj kvs => dict_item k kvs
  | _ => Raise TypeError
  end.

(** [x['type'] = ['null', t]] on a dict [x].  In the source the assignment
    changes the schema that was passed in; here the changed descriptor is
    returned and the schema is left as it was (the schema is flattened
    once). *)
Definition set_nullable_type (t : string) (x : json) : json :=
  match x with
  | JObj kvs => JObj (dict_set "type" (JArr [JStr "null"; JStr t]) kvs)
  | _ => x
  end.

(** The [else] branch of the loop body: a property descriptor [v] without
    a ['type'] key.  [first_alternative] is [list(v.values())[0][0]]. *)
Definition flatten_untyped (new_key : string) (v : dict) : result (list item) :=
  match v with
  | [] => Ok []
  | (_, first_value) :: _ =>
      first_alternative <- subscript_zero first_value ;;
      ty <- subscript_key "type" first_alternative ;;
      if json_is_str "string" ty then
        Ok [(new_key, set_nullable_type "string" first_alternative)]
      else if json_is_str "array" ty then
        Ok [(new_key, set_nullable_type "array" first_alternative)]
      else if json_is_str "object" ty then
        Ok [(new_key, set_nullable_type "object" first_alternative)]
      else Ok []
  end.

(** The type of [flatten_schema], and of its recursive call. *)
Definition flattener := dict -> list string -> string -> Z -> Z -> result dict.

(** One round of the [for k, v in d['properties'].items()] loop: what it
    appends to [items].  [self] is the function called recursively. *)
Definition flatten_property (self : flattener)
    (parent_key : list string) (sep : string) (level max_level : Z)
    (kv : string * json) : result (list item) :=
  let '(k, v) := kv in
  let new_key := flatten_key k parent_key sep in
  v_dict <- as_dict "keys" v ;;
  if dict_has "type" v_dict then
    ty <- dict_item "type" v_dict ;;
    descend <- and_then (py_in "object" ty)
                 (Ok (dict_has "properties" v_dict && (level <? max_level)%Z)) ;;
    if descend
    then self v_dict (parent_key ++ [k])%list sep (level + 1)%Z max_level
    else Ok [(new_key, v)]
  else flatten_untyped new_key v_dict.

(** The whole loop: [items] after the last round. *)
Fixpoint flatten_properties (self : flattener)
    (parent_key : list string) (sep : string) (level max_level : Z)
    (properties : dict) : result (list item) :=
  match properties with
  | [] => Ok []
  | kv :: properties' =>
      here <- flatten_property self parent_key sep level max_level kv ;;
      rest <- flatten_properties self parent_key sep level max_level properties' ;;
      Ok (here ++ rest)%list
  end.

(** The body of [flatten_schema], its recursive call being [self]. *)
Definition flatten_schema_body (self : flattener) : flattener :=
  fun d parent_key sep level max_level =>
    match dict_get "properties" d with
    | None => Ok []
    | Some properties =>
        properties <- as_dict "items" properties ;;
        items <- flatten_properties self parent_key sep level max_level properties ;;
        let sorted_items := sorted_by_key items in
        _ <- check_groups (groupby sorted_items) ;;
        Ok (dict_of_items sorted_items)
    end.

(** The recursion descends only while [level < max_level], one level at a
    time: [max_level - level] nested calls are all it can make. *)
Fixpoint flatten_schema_depth (depth : nat) : flattener :=
  flatten_schema_body
    (match depth with
     | S depth' => flatten_schema_depth depth'
     | O => fun _ _ _ _ _ => Ok []
     end).

Definition flatten_schema : flattener :=
  fun d parent_key sep level max_level =>
    flatten_schema_depth (Z.to_nat (max_level - level)) d parent_key sep level max_level.

(** The columns the properties of a schema flatten to, in the order the
    properties are visited, before any sorting or check: the same descent
    as [flatten_schema], a nested object contributing the columns of its
    own properties. *)
Definition flattened_columns_body (self : flattener) : flattener :=
  fun d parent_key sep level max_level =>
    match dict_get "properties" d with
    | None => Ok []
    | Some properties =>
        properties <- as_dict "items" properties ;;
        flatten_properties self parent_key sep level max_level properties
    end.

Fixpoint flattened_columns_depth (depth : nat) : flattener :=
  flattened_columns_body
    (match depth with
     | S depth' => flattened_columns_depth depth'
     | O => fun _ _ _ _ _ => Ok []
     end).

Definition flattened_columns : flattener :=
  fun d parent_key sep level max_level =>
    flattened_columns_depth (Z.to_nat (max_level - level)) d parent_key sep level max_level.

(* ----------------------------------------------------------------- *)
(** ** [json.dumps], [_should_json_dump_value], [flatten_record] *)

Definition backslash : ascii := "092"%char.

Definition hex_digit (n : nat) : ascii :=
  nth n (list_ascii_of_string "0123456789abcdef") "0"%char.

(** [json.dumps] with its default [ensure_ascii=True]: quote and backslash
    are escaped, and so is every character outside the printable range. *)
Definition escape_char (c : ascii) : string :=
  let n := nat_of_ascii c in
  if Ascii.eqb c dquote then String backslash (String dquote "")
  else if Ascii.eqb c backslash then String backslash (String backslash "")
  else if (n =? 8)%nat then String backslash "b"
  else if (n =? 9)%nat then String backslash "t"
  else if (n =? 10)%nat then String backslash "n"
  else if (n =? 12)%nat then String backslash "f"
  else if (n =? 13)%nat then String backslash "r"
  else if ((n <? 32) || (126 <? n))%nat then
    String backslash
      ("u00" ++ String (hex_digit (n / 16)) (String (hex_digit (n mod 16)) ""))
  else String c "".

Fixpoint escape_string (s : string) : string :=
  match s with
  | EmptyString => EmptyString
  | String c s' => escape_char c ++ escape_string s'
  end.

Definition json_quote (s : string) : string :=
  String dquote (escape_string s ++ String dquote "").

Definition Z_to_string (z : Z) : string := NilZero.string_of_int (Z.to_int z).

Fixpoint json_dumps (j : json) : string :=
  match j with
  | JNull => "null"
  | JBool true => "true"
  | JBool false => "false"
  | JNum n => Z_to_string n
  | JStr s => json_quote s
  | JArr l => "[" ++ py_join ", " (map json_dumps l) ++ "]"
  | JObj kvs =>
      "{" ++ py_join ", " (map (fun kv => json_quote (fst kv) ++ ": " ++ json_dumps (snd kv)) kvs)
          ++ "}"
  end.

(** [isinstance(value, (dict, list))] *)
Definition is_dict_or_list (value : json) : bool :=
  match value with
  | JArr _ | JObj _ => true
  | _ => false
  end.

Definition hashable (x : json) : bool := negb (is_dict_or_list x).

Definition null_object_array : list string := ["null"; "object"; "array"].

(** [set(x) == {'null', 'object', 'array'}]: [set] takes the elements of a
    list (which must be hashable), the keys of a dict, the characters of a
    string. *)
Definition set_is_null_object_array (x : json) : result bool :=
  match x with
  | JArr l =>
      if forallb hashable l then
        Ok (forallb (fun e => existsb (fun s => json_is_str s e) null_object_array) l
            && forallb (fun s => existsb (json_is_str s) l) null_object_array)
      else Raise TypeError
  | JObj kvs =>
      Ok (forallb (fun kv => existsb (String.eqb (fst kv)) null_object_array) kvs
          && forallb (fun s => dict_has s kvs) null_object_array)
  | JStr _ => Ok false
  | _ => Raise TypeError
  end.

Definition _should_json_dump_value (key : string) (value : json)
    (flatten_schema : option dict) : result bool :=
  if is_dict_or_list value then Ok true
  else
    match flatten_schema with
    | None => Ok false
    | Some flatten_schema =>
        if truthy (JObj flatten_schema) then
          match dict_get key flatten_schema with
          | None => Ok false
          | Some property =>
              and_then (py_in "type" property)
                (ty <- subscript_key "type" property ;; set_is_null_object_array ty)
          end
        else Ok false
    end.

(** The type of [flatten_record], and of its recursive call. *)
Definition record_flattener :=
  dict -> option dict -> list string -> string -> Z -> Z -> result dict.

(** One round of the [for k, v in d.items()] loop. *)
Definition flatten_record_item (self : record_flattener) (flatten_schema : option dict)
    (parent_key : list string) (sep : string) (level max_level : Z)
    (kv : string * json) : result (list item) :=
  let '(k, v) := kv in
  let new_key := flatten_key k parent_key sep in
  let leaf :=
    dump <- _should_json_dump_value k v flatten_schema ;;
    Ok [(new_key, if dump then JStr (json_dumps v) else v)] in
  match v with
  | JObj v_dict =>
      if (level <? max_level)%Z
      then self v_dict flatten_schema (parent_key ++ [k])%list sep (level + 1)%Z max_level
      else leaf
  | _ => leaf
  end.

Fixpoint flatten_record_items (self : record_flattener) (flatten_schema : option dict)
    (parent_key : list string) (sep : string) (level max_level : Z)
    (d : dict) : result (list item) :=
  match d with
  | [] => Ok []
  | kv :: d' =>
      here <- flatten_record_item self flatten_schema parent_key sep level max_level kv ;;
      rest <- flatten_record_items self flatten_schema parent_key sep level max_level d' ;;
      Ok (here ++ rest)%list
  end.

Definition flatten_record_body (self : record_flattener) : record_flattener :=
  fun d flatten_schema parent_key sep level max_level =>
    items <- flatten_record_items self flatten_schema parent_key sep level max_level d ;;
    Ok (dict_of_items items).

Fixpoint flatten_record_depth (depth : nat) : record_flattener :=
  flatten_record_body
    (match depth with
     | S depth' => flatten_record_depth depth'
     | O => fun _ _ _ _ _ _ => Ok []
     end).

Definition flatten_record : record_flattener :=
  fun d flatten_schema parent_key sep level max_level =>
    flatten_record_depth (Z.to_nat (max_level - level))
      d flatten_schema parent_key sep level max_level.

(* ----------------------------------------------------------------- *)
(** ** [stream_name_to_dict], [create_query_tag] *)

Record stream_dict : Type := {
  catalog_name : option string;
  schema_name : option string;
  table_name : string
}.

Definition stream_name_to_dict (stream_name separator : string) : result stream_dict :=
  let catalog_name : option string := None in
  let schema_name : option string := None in
  let table_name := stream_name in
  s <- py_split stream_name separator ;;
  let '(schema_name, table_name) :=
    if (List.length s =? 2)%nat
    then (Some (nth 0 s ""), nth 1 s "")
    else (schema_name, table_name) in
  let '(catalog_name, schema_name, table_name) :=
    if (2 <? List.length s)%nat
    then (Some (nth 0 s ""), Some (nth 1 s ""), py_join "_" (skipn 2 s))
    else (catalog_name, schema_name, table_name) in
  Ok {| catalog_name := catalog_name;
        schema_name := schema_name;
        table_name := table_name |}.

(** [x or default] for an optional string [x] *)
Definition str_or (x : option string) (default : string) : string :=
  match x with
  | Some s => if s =? "" then default else s
  | None => default
  end.

Definition create_query_tag (query_tag_pattern schema table : option string)
  : option string :=
  match query_tag_pattern with
  | None => None
  | Some pattern =>
      if pattern =? "" then None
      else
        let query_tag := pattern in
        (* replace tokens *)
        Some (fold_left
                (fun query_tag kv =>
                   let '(k, v) := kv in
                   if py_contains k query_tag then py_replace k v query_tag
                   else query_tag)
                [("{schema}", str_or schema "unknown-schema");
                 ("{table}", str_or table "unknown-table")]
                query_tag)
  end.

(* ----------------------------------------------------------------- *)
(** ** More built-ins, and [primary_column_names] *)

(** [c in s] for a character [c] *)
Fixpoint has_char (c : ascii) (s : string) : bool :=
  match s with
  | EmptyString => false
  | String x s' => Ascii.eqb x c || has_char c s'
  end.

(** The ASCII characters [str.strip] removes: tab to carriage return,
    the four separators 28 to 31, and the space. *)
Definition is_space (c : ascii) : bool :=
  let n := nat_of_ascii c in
  (((9 <=? n) && (n <=? 13)) || ((28 <=? n) && (n <=? 32)))%nat.

Fixpoint py_lstrip (s : string) : string :=
  match s with
  | EmptyString => EmptyString
  | String c s' => if is_space c then py_lstrip s' else s
  end.

Fixpoint py_rstrip (s : string) : string :=
  match s with
  | EmptyString => EmptyString
  | String c s' =>
      let r := py_rstrip s' in
      if is_space c && (r =? "") then EmptyString else String c r
  end.

(** [s.strip()] *)
Definition py_strip (s : string) : string := py_rstrip (py_lstrip s).

(** [json.dumps(x, ensure_ascii=False)]: only the quote, the backslash and
    the control characters below the space are escaped. *)
Definition escape_char_unicode (c : ascii) : string :=
  let n := nat_of_ascii c in
  if Ascii.eqb c dquote then String backslash (String dquote "")
  else if Ascii.eqb c backslash then String backslash (String backslash "")
  else if (n =? 8)%nat then String backslash "b"
  else if (n =? 9)%nat then String backslash "t"
  else if (n =? 10)%nat then String backslash "n"
  else if (n =? 12)%nat then String backslash "f"
  else if (n =? 13)%nat then String backslash "r"
  else if (n <? 32)%nat then
    String backslash
      ("u00" ++ String (hex_digit (n / 16)) (String (hex_digit (n mod 16)) ""))
  else String c "".

Fixpoint escape_string_unicode (s : string) : string :=
  match s with
  | EmptyString => EmptyString
  | String c s' => escape_char_unicode c ++ escape_string_unicode s'
  end.

Definition json_quote_unicode (s : string) : string :=
  String dquote (escape_string_unicode s ++ String dquote "").

Fixpoint json_dumps_unicode (j : json) : string :=
  match j with
  | JNull => "null"
  | JBool true => "true"
  | JBool false => "false"
  | JNum n => Z_to_string n
  | JStr s => json_quote_unicode s
  | JArr l => "[" ++ py_join ", " (map json_dumps_unicode l) ++ "]"
  | JObj kvs =>
      "{" ++ py_join ", "
               (map (fun kv => json_quote_unicode (fst kv) ++ ": " ++
                               json_dumps_unicode (snd kv)) kvs)
          ++ "}"
  end.

(** [x == 0]: zero, and [False], which Python counts as zero. *)
Definition equals_zero (x : json) : bool :=
  match x with
  | JNum n => (n =? 0)%Z
  | JBool b => negb b
  | _ => false
  end.

(** [primary_column_names], on [stream_schema_message['key_properties']] *)
Definition primary_column_names (key_properties : list string) : list string :=
  map safe_column_name key_properties.

(** [stream_name_to_dict(stream_name, separator)['schema_name']] *)
Definition stream_schema_name (stream_name separator : string) : result (option string) :=
  stream_dict <- stream_name_to_dict stream_name separator ;;
  Ok (schema_name stream_dict).

(* ----------------------------------------------------------------- *)
(** ** The class [DbSync]: the table reconciler and the ingestion loops *)

Module DbSync.

(** What a method does to the outside world, in order.  Each of these
    calls returns here; what the methods do is described up to the first
    call that would raise. *)
Inductive action : Type :=
| Query (sql : string)                           (* self.query(sql) *)
| GetTableColumns (table_schemas : list string)  (* self.get_table_columns(table_schemas=..) *)
| IngestFiles                                    (* ingest_manager.ingest_files(..) *)
| GetHistory                                     (* ingest_manager.get_history() *)
| Sleep (seconds : Z).                           (* time.sleep(seconds) *)

(** A method: the actions it performed, and how it ended. *)
Definition M (A : Type) : Type := (list action * result A)%type.

Definition ret {A : Type} (a : A) : M A := ([], Ok a).
Definition lift {A : Type} (r : result A) : M A := ([], r).
Definition perform (a : action) : M unit := ([a], Ok tt).
Definition bindM {A B : Type} (m : M A) (k : A -> M B) : M B :=
  match m with
  | (t1, Ok a) => let '(t2, r) := k a in ((t1 ++ t2)%list, r)
  | (t1, Raise e) => (t1, Raise e)
  end.

Notation "x <-- m ;; k" := (bindM m (fun x => k))
  (at level 61, m at next level, right associativity).

Fixpoint for_each {A : Type} (f : A -> M unit) (l : list A) : M unit :=
  match l with
  | [] => ret tt
  | a :: l' => _ <-- f a ;; for_each f l'
  end.

(** A list comprehension whose element expression may raise. *)
Fixpoint comprehension {A B : Type} (f : A -> result (option B)) (l : list A)
  : result (list B) :=
  match l with
  | [] => Ok []
  | a :: l' =>
      here <- f a ;;
      rest <- comprehension f l' ;;
      Ok (match here with Some b => b :: rest | None => rest end)
  end.

(** A row of the catalog, as [get_table_columns] returns it. *)
Record column : Type := {
  SCHEMA_NAME : string;
  TABLE_NAME : string;
  COLUMN_NAME : string;
  DATA_TYPE : string
}.

(** The fields of [self] the reconciler reads.  The values of a flattened
    schema are property descriptors (dicts). *)
Record t : Type := {
  stream : string;                       (* stream_schema_message['stream'] *)
  schema_name : string;
  flatten_schema : list (string * dict);
  table_cache : list column              (* None and [] are both falsy *)
}.

Definition set_table_cache (self : t) (cache : list column) : t :=
  {| stream := stream self;
     schema_name := schema_name self;
     flatten_schema := flatten_schema self;
     table_cache := cache |}.

Definition nonempty {A : Type} (l : list A) : bool :=
  match l with [] => false | _ => true end.

(** [str.format] of an optional string: [None] prints as its name. *)
Definition format_opt (x : option string) : string :=
  match x with Some s => s | None => "None" end.

Definition opt_string_eqb (a : string) (b : option string) : bool :=
  match b with Some s => a =? s | None => false end.

Section Environment.

(** The rows the warehouse returns to [get_table_columns]. *)
Variable catalog : list string -> list column.
(** [time.strftime("%Y%m%d_%H%M")] at the [n]-th call of [version_column]. *)
Variable strftime : nat -> string.

Definition get_table_columns (self : t) (table_schemas : list string) : M (list column) :=
  _ <-- perform (GetTableColumns table_schemas) ;;
  ret (catalog table_schemas).

Definition table_name (self : t) (stream_name : string)
    (is_temporary without_schema : bool) : result (option string) :=
  if stream_name =? "" then Ok None
  else
    stream_dict <- stream_name_to_dict stream_name "-" ;;
    let table_name := table_name stream_dict in
    let sf_table_name := py_lower (py_replace "-" "_" (py_replace "." "_" table_name)) in
    let sf_table_name :=
      if is_temporary then sf_table_name ++ "_temp" else sf_table_name in
    if without_schema
    then Ok (Some (String dquote (py_upper sf_table_name) ++ String dquote ""))
    else Ok (Some (schema_name self ++ "." ++
                   String dquote (py_upper sf_table_name) ++ String dquote "")).

Definition version_column_sql (table : option string) (column_name stamp : string) : string :=
  "ALTER TABLE " ++ format_opt table ++ " RENAME COLUMN " ++ column_name ++ " TO " ++
  String dquote (py_replace (String dquote "") "" column_name ++ "_" ++ stamp) ++
  String dquote "".

Definition add_column_sql (table : option string) (column : string) : string :=
  "ALTER TABLE " ++ format_opt table ++ " ADD COLUMN " ++ column.

(** [n] is the number of earlier calls, for the clock. *)
Definition version_column (self : t) (n : nat) (column_name stream : string) : M unit :=
  table <-- lift (table_name self stream false false) ;;
  perform (Query (version_column_sql table column_name (strftime n))).

Definition add_column (self : t) (column stream : string) : M unit :=
  table <-- lift (table_name self stream false false) ;;
  perform (Query (add_column_sql table column)).

(** [columns_dict = {column['COLUMN_NAME'].upper(): column for column in columns}] *)
Definition columns_dict_of (columns : list column) : list (string * column) :=
  dict_of_items (map (fun column => (py_upper (COLUMN_NAME column), column)) columns).

(** The condition and element of the [columns_to_add] comprehension. *)
Definition to_add (columns_dict : list (string * column)) (entry : string * dict)
  : result (option string) :=
  let '(name, properties_schema) := entry in
  if negb (dict_has (py_upper name) columns_dict) then
    clause <- column_clause name properties_schema ;;
    Ok (Some clause)
  else Ok None.

(** The condition and element of the [columns_to_replace] comprehension. *)
Definition to_replace (columns_dict : list (string * column)) (entry : string * dict)
  : result (option (string * string)) :=
  let '(name, properties_schema) := entry in
  match dict_get (py_upper name) columns_dict with
  | None => Ok None
  | Some live =>
      ty <- column_type properties_schema ;;
      if negb (py_upper (DATA_TYPE live) =? py_upper ty) then
        (* Don't alter table if TIMESTAMP_NTZ detected as the new required column type *)
        ty' <- column_type properties_schema ;;
        if negb (py_upper ty' =? "TIMESTAMP_NTZ") then
          clause <- column_clause name properties_schema ;;
          Ok (Some (safe_column_name name, clause))
        else Ok None
      else Ok None
  end.

(** The loop over [columns_to_replace]; [n] counts the rounds done. *)
Fixpoint replace_columns (self : t) (stream : string) (n : nat)
    (columns_to_replace : list (string * string)) : M unit :=
  match columns_to_replace with
  | [] => ret tt
  | (column_name, column) :: rest =>
      _ <-- version_column self n column_name stream ;;
      _ <-- add_column self column stream ;;
      replace_columns self stream (S n) rest
  end.

Definition update_columns (self : t) : M t :=
  let stream := stream self in
  table_name <-- lift (table_name self stream false true) ;;
  all_table_columns <--
    (if nonempty (table_cache self) then ret (table_cache self)
     else get_table_columns self [schema_name self]) ;;
  (* Find the specific table *)
  let columns :=
    filter (fun x => (SCHEMA_NAME x =? py_upper (schema_name self)) &&
                     opt_string_eqb
                       (String dquote (py_upper (TABLE_NAME x)) ++ String dquote "")
                       table_name)
           all_table_columns in
  let columns_dict := columns_dict_of columns in
  columns_to_add <-- lift (comprehension (to_add columns_dict) (flatten_schema self)) ;;
  _ <-- for_each (fun column => add_column self column stream) columns_to_add ;;
  columns_to_replace <--
    lift (comprehension (to_replace columns_dict) (flatten_schema self)) ;;
  _ <-- replace_columns self stream 0 columns_to_replace ;;
  (* Refresh table cache if required *)
  if nonempty (table_cache self) &&
     ((0 <? List.length columns_to_add)%nat || nonempty columns_to_replace)
  then
    cache <-- get_table_columns self [schema_name self] ;;
    ret (set_table_cache self cache)
  else ret self.

End Environment.

(** *** [load_via_snowpipe]: the submission and polling loops *)

(** The generator [_increment_value], as its suspended frame. *)
Record generator : Type := {
  exponentially : bool;
  previous : Z;
  current : Z
}.

Definition _increment_value (exponentially : bool) : generator :=
  {| exponentially := exponentially; previous := 0; current := 1 |}.

(** [next(g)]: the value yielded, and the frame after the two assignments
    that follow the [yield]. *)
Definition next (g : generator) : Z * generator :=
  let value :=
    if exponentially g then (2 ^ (current g + previous g))%Z
    else (current g + previous g + 30)%Z in
  let current' := (current g + previous g)%Z in
  let previous' := (current' - previous g)%Z in
  (value, {| exponentially := exponentially g;
             previous := previous';
             current := current' |}).

(** The methods of [self.logger], a [logging.Logger]: a call of any other
    attribute raises [AttributeError]. *)
Definition logger_methods : list string :=
  ["debug"; "info"; "warning"; "warn"; "error"; "exception"; "critical"; "fatal"; "log"].

Definition logger (method : string) : result unit :=
  if existsb (String.eqb method) logger_methods then Ok tt
  else Raise (AttributeError method).

(** [retries = self.connection_config.get('max_retry', 5)] *)
Definition configured_retries (connection_config : dict) : json :=
  match dict_get "max_retry" connection_config with
  | Some x => x
  | None => JNum 5
  end.

(** [retries -= 1] *)
Definition decrement (retries : json) : result json :=
  match retries with
  | JNum n => Ok (JNum (n - 1))
  | JBool b => Ok (JNum (Z.b2z b - 1))
  | _ => Raise TypeError
  end.

(** A loop that talks to the ingestion service: the actions performed and
    how the loop ended, [None] while it is still running when the
    scripted responses of the service end. *)
Definition run : Type := (list action * option (result unit))%type.

Definition logging (method : string) (k : run) : run :=
  match logger method with
  | Ok _ => k
  | Raise e => ([], Some (Raise e))
  end.

Definition after (a : action) (k : run) : run :=
  let '(trace, r) := k in (a :: trace, r).

(** The first [while True] loop.  [responses] scripts the service: [true]
    when [ingest_files] returns, [false] when it raises [HTTPError]. *)
Fixpoint submit_loop (responses : list bool) (retries : json) (wait_time : generator)
  : run :=
  match responses with
  | [] => ([], None)
  | accepted :: responses' =>
      logging "debug" (
      after IngestFiles (
      if accepted then
        logging "info" ([], Some (Ok tt))            (* break *)
      else
        (* HTTP error, wait and retry, exit if still fails *)
        logging "error" (
        let '(seconds, wait_time) := next wait_time in
        after (Sleep seconds) (
        match decrement retries with
        | Raise e => ([], Some (Raise e))
        | Ok retries =>
            if negb (truthy retries) then
              logging "critcal" ([], Some (Raise (SystemExit 1)))
            else submit_loop responses' retries wait_time
        end))))
  end.

(** The second [while True] loop.  [histories] scripts the service: the
    length of [history_resp['files']] at each call, the history being
    one that has the fields the loop logs (['pipe'], ['completeResult'],
    and for its first file ['rowsInserted'] and ['rowsParsed']). *)
Fixpoint poll_loop (drop_pipe_sql : string) (histories : list nat) (wait_time : generator)
  : run :=
  match histories with
  | [] => ([], None)
  | files :: histories' =>
      after GetHistory (
      if (0 <? files)%nat then
        logging "info" (after (Query drop_pipe_sql) ([], Some (Ok tt)))   (* break *)
      else
        logging "debug" (
        let '(seconds, wait_time) := next wait_time in
        after (Sleep seconds) (poll_loop drop_pipe_sql histories' wait_time)))
  end.

Definition _generate_pipe_name (dbname schema_table_name : string) : string :=
  let stripped_db_name := py_replace (String dquote "") "" dbname in
  let stripped_table_name := py_replace (String dquote "") "" schema_table_name in
  stripped_db_name ++ "." ++ stripped_table_name ++ "_s3_pipe".

(** [load_via_snowpipe] from the submission of the staged file on: the
    creation of the pipe, the loading of the private key and the
    construction of the ingest manager come before and are not part of
    this model. *)
Definition load_via_snowpipe (connection_config : dict) (pipe_name : string)
    (responses : list bool) (histories : list nat) : run :=
  let drop_pipe_sql := "drop pipe if exists " ++ pipe_name ++ ";" in
  (* ingest files using snowpipe *)
  let retries := configured_retries connection_config in
  let wait_time := _increment_value true in
  match submit_loop responses retries wait_time with
  | (trace, Some (Ok _)) =>
      (* Needs to wait for a while to perform transfer, delete pipe after transfer *)
      let wait_time := _increment_value false in
      let '(trace', r) := poll_loop drop_pipe_sql histories wait_time in
      ((trace ++ trace')%list, r)
  | stopped => stopped
  end.

(** *** [record_to_csv_line], [_generate_s3_key_prefix], [create_table_query] *)

(** [self.flatten_schema] as the dict it is. *)
Definition schema_as_dict (self : t) : dict :=
  map (fun entry => (fst entry, JObj (snd entry))) (flatten_schema self).

(** One element of the list comprehension of [record_to_csv_line]. *)
Definition csv_field (flatten : dict) (name : string) : string :=
  match dict_get name flatten with
  | Some value =>
      if equals_zero value || truthy value then json_dumps_unicode value else ""
  | None => ""
  end.

Definition record_to_csv_line (self : t) (data_flattening_max_level : Z) (record : dict)
  : result string :=
  flatten <- flatten_record record (Some (schema_as_dict self)) [] "__" 0%Z
               data_flattening_max_level ;;
  Ok (py_join "," (map (fun entry => csv_field flatten (fst entry)) (flatten_schema self))).

(** [self.connection_config.get('s3_key_prefix', '').replace('/', '')] *)
Definition s3_key_prefix_of (connection_config : dict) : result string :=
  match dict_get "s3_key_prefix" connection_config with
  | None => Ok (py_replace "/" "" "")
  | Some (JStr s) => Ok (py_replace "/" "" s)
  | Some _ => Raise (AttributeError "replace")
  end.

Definition _generate_s3_key_prefix (connection_config : dict) (self : t)
    (stream : string) (use_snowpipe : bool) : result string :=
  s3_key_prefix <- s3_key_prefix_of connection_config ;;
  table <- table_name self stream false false ;;
  schema_table_name <-
    match table with
    | Some table =>
        Ok (py_replace "." "__" (py_replace (String dquote "") "" (py_lower table)))
    | None => Raise (AttributeError "lower")
    end ;;
  let path_arr := [s3_key_prefix ++ "/"] in
  let path_arr :=
    if use_snowpipe then (path_arr ++ [(schema_table_name ++ "/")%string])%list
    else path_arr in
  Ok (py_join "" path_arr).

Definition create_table_query (self : t) (key_properties : list string)
    (is_temporary : bool) : result string :=
  columns <- comprehension
               (fun entry =>
                  clause <- column_clause (fst entry) (snd entry) ;; Ok (Some clause))
               (flatten_schema self) ;;
  let primary_key :=
    if nonempty key_properties
    then ["PRIMARY KEY (" ++ py_join ", " (primary_column_names key_properties) ++ ")"]
    else [] in
  table <- table_name self (stream self) is_temporary false ;;
  Ok ("CREATE " ++ (if is_temporary then "TEMP " else "") ++ "TABLE IF NOT EXISTS " ++
      format_opt table ++ " (" ++ py_join ", " (columns ++ primary_key)%list ++ ") " ++
      (if is_temporary then "data_retention_time_in_days = 0 "
       else "data_retention_time_in_days = 1 ")).

(** *** [__init__]: validation, the stage, the target schema, the grantees *)

(** How [__init__] ends. *)
Inductive init_result : Type :=
| Initialised (schema_name grantees : option json)
| Exits (code : Z)                      (* sys.exit(code) *)
| RaisesException (message : string)    (* raise Exception(message) *)
| RaisesError (e : exn).

(** [bool(x)] for a value that may be [None] *)
Definition truthy_opt (x : option json) : bool :=
  match x with Some v => truthy v | None => false end.

(** [key in mapping], the key being a string or [None] *)
Definition mapping_has (key : option string) (mapping : json) : result bool :=
  match mapping with
  | JObj kvs => Ok (match key with Some k => dict_has k kvs | None => false end)
  | JArr l =>
      Ok (existsb (fun x => match key with
                            | Some k => json_is_str k x
                            | None => match x with JNull => true | _ => false end
                            end) l)
  | JStr s => match key with Some k => Ok (py_contains k s) | None => Raise TypeError end
  | _ => Raise TypeError
  end.

(** [mapping[key]] *)
Definition mapping_entry (key : option string) (mapping : json) : result json :=
  match mapping, key with
  | JObj kvs, Some k => dict_item k kvs
  | JObj _, None => Raise (KeyError "None")
  | _, _ => Raise TypeError
  end.

(** [entry.get(k)] *)
Definition entry_get (k : string) (entry : json) : result (option json) :=
  match entry with
  | JObj kvs => Ok (dict_get k kvs)
  | _ => Raise (AttributeError "get")
  end.

(** [config_schema_mapping and stream_schema_name in config_schema_mapping] *)
Definition in_schema_mapping (config_schema_mapping : json)
    (stream_schema_name : option string) : result bool :=
  if truthy config_schema_mapping
  then mapping_has stream_schema_name config_schema_mapping
  else Ok false.

(** The test on the named stage: [true] when there is no stage or the
    stage has a schema. *)
Definition stage_has_schema (connection_config : dict) : result bool :=
  match dict_get "stage" connection_config with
  | Some stage =>
      if truthy stage then
        match stage with
        | JStr s =>
            schema <- stream_schema_name s "." ;;
            Ok (match schema with Some x => negb (x =? "") | None => false end)
        | _ => Raise (AttributeError "split")
        end
      else Ok true
  | None => Ok true
  end.

(** [self.connection_config.get('default_target_schema', '').strip()] *)
Definition default_target_schema (connection_config : dict) : result string :=
  match dict_get "default_target_schema" connection_config with
  | None => Ok (py_strip "")
  | Some (JStr s) => Ok (py_strip s)
  | Some _ => Raise (AttributeError "strip")
  end.

Definition undefined_target_schema (stream_name : string) : string :=
  "Target schema name not defined in config. " ++
  "Neither 'default_target_schema' (string) nor 'schema_mapping' (object) defines " ++
  "target schema for " ++ stream_name ++ " stream.".

(** The target schema of a stream, [None] when none is found. *)
Definition target_schema (connection_config : dict) (stream_name : string)
  : result (option json) :=
  config_default_target_schema <- default_target_schema connection_config ;;
  let config_schema_mapping :=
    match dict_get "schema_mapping" connection_config with
    | Some m => m
    | None => JObj []
    end in
  stream_schema_name <- stream_schema_name stream_name "-" ;;
  mapped <- in_schema_mapping config_schema_mapping stream_schema_name ;;
  if mapped then
    entry <- mapping_entry stream_schema_name config_schema_mapping ;;
    entry_get "target_schema" entry
  else if negb (config_default_target_schema =? "")
  then Ok (Some (JStr config_default_target_schema))
  else Ok None.

(** The grantees of a stream. *)
Definition grantees_of (connection_config : dict) (stream_name : string)
  : result (option json) :=
  let grantees := dict_get "default_target_schema_select_permissions" connection_config in
  let config_schema_mapping :=
    match dict_get "schema_mapping" connection_config with
    | Some m => m
    | None => JObj []
    end in
  stream_schema_name <- stream_schema_name stream_name "-" ;;
  mapped <- in_schema_mapping config_schema_mapping stream_schema_name ;;
  if mapped then
    entry <- mapping_entry stream_schema_name config_schema_mapping ;;
    found <- entry_get "target_schema_select_permissions" entry ;;
    Ok (match found with Some g => Some g | None => grantees end)
  else Ok grantees.

(** [__init__] up to the grantees; [stream_schema_message] is given by its
    stream name, [None] when there is no message.  Flattening the schema
    and choosing the upload client follow and are not part of this
    model. *)
Definition __init__ (connection_config : dict) (stream_schema_message : option string)
  : init_result :=
  (* Exit if config has errors *)
  if nonempty (validate_config connection_config) then Exits 1
  else
    match stage_has_schema connection_config with
    | Raise e => RaisesError e
    | Ok false => Exits 1
    | Ok true =>
        match stream_schema_message with
        | None => Initialised None None
        | Some stream_name =>
            match target_schema connection_config stream_name with
            | Raise e => RaisesError e
            | Ok schema_name =>
                if negb (truthy_opt schema_name)
                then RaisesException (undefined_target_schema stream_name)
                else
                  match grantees_of connection_config stream_name with
                  | Raise e => RaisesError e
                  | Ok grantees => Initialised schema_name grantees
                  end
            end
        end
    end.

End DbSync.

(* ----------------------------------------------------------------- *)
(** ** Vocabulary of the statements *)

(** *** The ingestion loops *)

(** The generator after [n] values have been taken from it. *)
Fixpoint advance (n : nat) (g : DbSync.generator) : DbSync.generator :=
  match n with
  | O => g
  | S n' => snd (DbSync.next (advance n' g))
  end.

(** The [n]-th value (from 0) that [_increment_value(exponentially)] yields. *)
Definition nth_wait (exponentially : bool) (n : nat) : Z :=
  fst (DbSync.next (advance n (DbSync._increment_value exponentially))).

(** The waits of a run, in order. *)
Fixpoint sleeps (trace : list DbSync.action) : list Z :=
  match trace with
  | [] => []
  | DbSync.Sleep seconds :: trace' => seconds :: sleeps trace'
  | _ :: trace' => sleeps trace'
  end.

(** The number of submission attempts of a run. *)
Fixpoint attempts (trace : list DbSync.action) : nat :=
  match trace with
  | [] => O
  | DbSync.IngestFiles :: trace' => S (attempts trace')
  | _ :: trace' => attempts trace'
  end.

(** *** The configuration *)

(** Every key of [keys] has a truthy value in [config]. *)
Definition all_truthy (keys : list string) (config : dict) : bool :=
  forallb (fun k => get_truthy k config) keys.

(** A configuration that sets both staging keys and every other key that
    [validate_config] looks at. *)
Definition external_stage_config : dict :=
  [("account", JStr "acme"); ("dbname", JStr "analytics"); ("user", JStr "loader");
   ("password", JStr "secret"); ("warehouse", JStr "wh");
   ("s3_bucket", JStr "bucket"); ("stage", JStr "public.stage");
   ("file_format", JStr "public.csv"); ("default_target_schema", JStr "sales")].

(** *** The query tag *)

(** The query tag read as one pass over the pattern: each ['{schema}']
    and ['{table}'] token of the pattern is replaced, and the text put in
    is not looked at again. *)
Fixpoint substitute_tokens_from (schema table : string) (skip : nat) (s : string)
  : string :=
  match s with
  | EmptyString => EmptyString
  | String c s' =>
      match skip with
      | S k => substitute_tokens_from schema table k s'
      | O =>
          if prefix "{schema}" s
          then schema ++ substitute_tokens_from schema table 7 s'
          else if prefix "{table}" s
          then table ++ substitute_tokens_from schema table 6 s'
          else String c (substitute_tokens_from schema table 0 s')
      end
  end.
Definition substitute_tokens (schema table pattern : string) : string :=
  substitute_tokens_from schema table 0 pattern.

(** *** The type mapper *)

(** A JSON value on which [in] is defined. *)
Definition is_container (x : json) : bool :=
  match x with
  | JStr _ | JArr _ | JObj _ => true
  | _ => false
  end.

(** [s in ty], for a type on which [in] is defined. *)
Definition type_includes (s : string) (ty : json) : bool :=
  match py_in s ty with
  | Ok b => b
  | Raise _ => false
  end.

(** The decision table of the type mapper, as the specification lists it:
    each rule is a condition on the type and the format of a property,
    and the column type it gives. *)
Definition decision_table : list ((json -> option json -> bool) * string) :=
  [ (fun ty _ => type_includes "object" ty || type_includes "array" ty, "variant");
    (fun _ fmt => format_is "date-time" fmt, "timestamp_ntz");
    (fun _ fmt => format_is "time" fmt, "time");
    (fun _ fmt => format_is "binary" fmt, "binary");
    (fun ty _ => type_includes "number" ty, "float");
    (fun ty _ => type_includes "integer" ty && type_includes "string" ty, "text");
    (fun ty _ => type_includes "integer" ty, "number");
    (fun ty _ => type_includes "boolean" ty, "boolean") ].

(** First matching rule wins; otherwise text. *)
Definition first_matching_rule (ty : json) (fmt : option json) : string :=
  match find (fun rule => fst rule ty fmt) decision_table with
  | Some rule => snd rule
  | None => "text"
  end.

(** *** Flattening *)

(** [c * n] *)
Fixpoint repeat_char (c : ascii) (n : nat) : string :=
  match n with
  | O => EmptyString
  | S n' => String c (repeat_char c n')
  end.

(** The entry of the flattened schema under [key] declares a type that,
    read as a set, is exactly [{'null', 'object', 'array'}]. *)
Definition declares_null_object_array (flatten_schema : option dict) (key : string)
  : bool :=
  match flatten_schema with
  | Some flatten_schema =>
      match dict_get key flatten_schema with
      | Some (JObj property) =>
          match dict_get "type" property with
          | Some ty =>
              match set_is_null_object_array ty with
              | Ok b => b
              | Raise _ => false
              end
          | None => false
          end
      | _ => false
      end
  | None => false
  end.

(** A property descriptor whose type can be read as a set: a dict whose
    type, if it has one, is a string, a list of scalars or a dict. *)
Definition readable_property (property : json) : bool :=
  match property with
  | JObj property =>
      match dict_get "type" property with
      | Some (JArr l) => forallb hashable l
      | Some (JStr _) | Some (JObj _) => true
      | Some _ => false
      | None => true
      end
  | _ => false
  end.

Definition readable_schema (flatten_schema : option dict) : bool :=
  match flatten_schema with
  | Some flatten_schema => forallb (fun kv => readable_property (snd kv)) flatten_schema
  | None => true
  end.

(** The order of the column names. *)
Definition key_le (x y : item) : Prop := String.leb (fst x) (fst y) = true.

(** The key [k] names at least two of the columns. *)
Definition names_two (k : string) (columns : list item) : Prop :=
  (2 <= count_occ string_dec (map fst columns) k)%nat.

(** A traversal that checks for collisions, against the columns the
    schema flattens to: it raised for a key that names two of them, or it
    collected them all, in some order. *)
Definition collides_or_collects (r : result (list item)) (columns : list item) : Prop :=
  (exists k, r = Raise (duplicate_column_error k) /\ names_two k columns) \/
  (exists items, r = Ok items /\ Permutation items columns).

(** The result of [flatten_schema], against the columns the schema
    flattens to: a collision is raised, naming a colliding key; without a
    collision the result holds every column, sorted by name. *)
Definition flatten_agrees (r : result dict) (columns : list item) : Prop :=
  (~ NoDup (map fst columns) ->
   exists k, r = Raise (duplicate_column_error k) /\ names_two k columns) /\
  (NoDup (map fst columns) ->
   exists mapping, r = Ok mapping /\ Permutation mapping columns /\
                   StronglySorted key_le mapping).

(** *** The columns of a schema, as the specification describes them *)

(** A union is a property descriptor without a type; its first
    alternative is the first element of the list under its first key. *)
Definition union_alternative (descriptor : dict) : option dict :=
  match descriptor with
  | (_, JArr (JObj alternative :: _)) :: _ => Some alternative
  | _ => None
  end.

(** The types a union is normalised for. *)
Definition nullable_types : list string := ["string"; "array"; "object"].

(** The column of a union: its first alternative with the type made
    nullable, when that type is string, array or object; a union whose
    first alternative has another type gets no column. *)
Definition union_column (name : string) (descriptor : dict) : list item :=
  match union_alternative descriptor with
  | Some alternative =>
      match dict_get "type" alternative with
      | Some (JStr t) =>
          if existsb (String.eqb t) nullable_types
          then [(name, JObj (dict_set "type" (JArr [JStr "null"; JStr t]) alternative))]
          else []
      | _ => []
      end
  | None => []
  end.

(** The columns of the properties of a schema, [depth] levels of nesting
    being flattened: a property typed as an object with nested properties
    gives, while the depth allows, the columns of its nested properties;
    any other typed property is a leaf column under its flattened path; a
    union gives the column of its first alternative. *)
Fixpoint schema_columns (depth : nat) (parent_key : list string) (sep : string)
    (properties : dict) : list item :=
  flat_map
    (fun kv =>
       match snd kv with
       | JObj descriptor =>
           match dict_get "type" descriptor with
           | Some ty =>
               match depth, dict_get "properties" descriptor with
               | S depth', Some (JObj nested) =>
                   if type_includes "object" ty
                   then schema_columns depth' (parent_key ++ [fst kv])%list sep nested
                   else [(flatten_key (fst kv) parent_key sep, snd kv)]
               | _, _ => [(flatten_key (fst kv) parent_key sep, snd kv)]
               end
           | None => union_column (flatten_key (fst kv) parent_key sep) descriptor
           end
       | _ => []
       end)
    properties.

(** A union that can be normalised: empty, or listing its alternatives
    first, the first of them a dict with a type. *)
Definition well_formed_union (descriptor : dict) : bool :=
  match descriptor with
  | [] => true
  | _ =>
      match union_alternative descriptor with
      | Some alternative => dict_has "type" alternative
      | None => false
      end
  end.

(** Well-formed properties: every descriptor is a dict; its type, if it
    declares one, is a string, a list or a dict, and where the property
    is flattened its nested properties are a dict of well-formed
    properties; a descriptor without a type is a union that can be
    normalised. *)
Fixpoint well_formed_properties (depth : nat) (properties : dict) : bool :=
  forallb
    (fun kv =>
       match snd kv with
       | JObj descriptor =>
           match dict_get "type" descriptor with
           | Some ty =>
               is_container ty &&
               (if type_includes "object" ty && dict_has "properties" descriptor
                then match depth with
                     | S depth' =>
                         match dict_get "properties" descriptor with
                         | Some (JObj nested) => well_formed_properties depth' nested
                         | _ => false
                         end
                     | O => true
                     end
                else true)
           | None => well_formed_union descriptor
           end
       | _ => false
       end)
    properties.

(** *** The reconciler *)

(** The name [update_columns] and its helpers give the table of the
    stream ([None] for an empty stream name). *)
Definition the_table (self : DbSync.t) (without_schema : bool) : option string :=
  match DbSync.table_name self (DbSync.stream self) false without_schema with
  | Ok t => t
  | Raise _ => None
  end.

(** The columns of the stream's table, in the cache or, without a cache,
    in the live catalog. *)
Definition live_columns (catalog : list string -> list DbSync.column) (self : DbSync.t)
  : list DbSync.column :=
  filter (fun x =>
            (DbSync.SCHEMA_NAME x =? py_upper (DbSync.schema_name self)) &&
            DbSync.opt_string_eqb
              (String dquote (py_upper (DbSync.TABLE_NAME x)) ++ String dquote "")
              (the_table self true))
         (if DbSync.nonempty (DbSync.table_cache self) then DbSync.table_cache self
          else catalog [DbSync.schema_name self]).

(** The column of that table with the given name, compared in upper case. *)
Definition live_column (catalog : list string -> list DbSync.column) (self : DbSync.t)
    (name : string) : option DbSync.column :=
  dict_get (py_upper name) (DbSync.columns_dict_of (live_columns catalog self)).


(** A text between double quotes, and a text without the occurrences of
    a character. *)
Definition quoted (s : string) : string := String dquote (s ++ String dquote "").

Definition without_char (c : ascii) (s : string) : string :=
  str_filter (fun x => negb (Ascii.eqb x c)) s.

(** The statements of the reconciler, as the warehouse receives them.
    The first renames the column [name] of the stream's table, written in
    upper case between quotes, to that name without quotes, followed by
    an underscore and the stamp; the second adds to the table a column
    [name], written the same way, of type [ty]. *)
Definition rename_statement (self : DbSync.t) (name stamp : string) : DbSync.action :=
  DbSync.Query
    ("ALTER TABLE " ++ DbSync.format_opt (the_table self false) ++
     " RENAME COLUMN " ++ quoted (py_upper name) ++
     " TO " ++ quoted (without_char dquote (py_upper name) ++ "_" ++ stamp)).

Definition add_statement (self : DbSync.t) (name ty : string) : DbSync.action :=
  DbSync.Query
    ("ALTER TABLE " ++ DbSync.format_opt (the_table self false) ++
     " ADD COLUMN " ++ quoted (py_upper name) ++ " " ++ ty).

(** The statements of the loop over [columns_to_replace], from round [n]. *)
Fixpoint replace_trace (strftime : nat -> string) (self : DbSync.t) (n : nat)
    (pairs : list (string * string)) : list DbSync.action :=
  match pairs with
  | [] => []
  | (column_name, column) :: rest =>
      DbSync.Query
        (DbSync.version_column_sql (the_table self false) column_name (strftime n)) ::
      DbSync.Query (DbSync.add_column_sql (the_table self false) column) ::
      replace_trace strftime self (S n) rest
  end.

(** The column types [column_type] can give. *)
Definition column_types : list string :=
  ["variant"; "timestamp_ntz"; "time"; "binary"; "float"; "text"; "number"; "boolean"].

(** *** Sample inputs *)

(** A schema with a property [a__b] beside an object [a] that has a
    property [b]: with one level of flattening both give the column
    [a__b]. *)
Definition colliding_schema : dict :=
  [("properties",
    JObj [("a__b", JObj [("type", JArr [JStr "integer"])]);
          ("a", JObj [("type", JArr [JStr "object"]);
                      ("properties",
                       JObj [("b", JObj [("type", JArr [JStr "string"])])])])])].

Definition colliding_columns : list item :=
  [("a__b", JObj [("type", JArr [JStr "integer"])]);
   ("a__b", JObj [("type", JArr [JStr "string"])])].

(** A stream [sales-orders] whose table has [ID] as text and [CREATED_AT]
    as a timestamp with time zone, and no [NOTE]. *)
Definition orders_sync : DbSync.t :=
  {| DbSync.stream := "sales-orders";
     DbSync.schema_name := "sales";
     DbSync.flatten_schema :=
       [("created_at", [("type", JArr [JStr "string"]); ("format", JStr "date-time")]);
        ("id", [("type", JArr [JStr "integer"])]);
        ("note", [("type", JArr [JStr "null"; JStr "string"])])];
     DbSync.table_cache :=
       [ {| DbSync.SCHEMA_NAME := "SALES"; DbSync.TABLE_NAME := "ORDERS";
            DbSync.COLUMN_NAME := "ID"; DbSync.DATA_TYPE := "TEXT" |};
         {| DbSync.SCHEMA_NAME := "SALES"; DbSync.TABLE_NAME := "ORDERS";
            DbSync.COLUMN_NAME := "CREATED_AT"; DbSync.DATA_TYPE := "TIMESTAMP_TZ" |} ] |}.

Definition no_catalog : list string -> list DbSync.column := fun _ => [].
Definition noon (n : nat) : string := "20240102_1200".

(** The schema and the record of the stream [app-events]. *)
Definition app_events_schema : dict :=
  [("properties",
    JObj [("id", JObj [("type", JArr [JStr "integer"])]);
          ("payload",
           JObj [("type", JArr [JStr "object"]);
                 ("properties",
                  JObj [("x", JObj [("type", JArr [JStr "string"])])])])])].

Definition app_events_record : dict :=
  [("id", JNum 7); ("payload", JObj [("x", JStr "a")])].

(** *** The flattened schema as a table layout *)

(** A column descriptor the type mapper accepts: a dict for which
    [column_type] gives one of the column types and [column_trans] a
    transform. *)
Definition typed_column (v : json) : Prop :=
  exists (property : dict) (ty trans : string),
    v = JObj property /\
    column_type property = Ok ty /\ In ty column_types /\
    column_trans property = Ok trans.

(** A value that is neither a dict nor a list. *)
Definition scalar_value (kv : item) : Prop := is_dict_or_list (snd kv) = false.

(** A record has nothing to load under [name]: no value, [None] or the
    empty string. *)
Definition nothing_to_load (name : string) (flatten : dict) : Prop :=
  dict_get name flatten = None \/
  dict_get name flatten = Some JNull \/
  dict_get name flatten = Some (JStr "").

(** *** Sample configurations *)

(** A table-stage configuration whose default target schema is blank. *)
Definition blank_schema_config : dict :=
  [("account", JStr "acme"); ("dbname", JStr "analytics"); ("user", JStr "loader");
   ("password", JStr "secret"); ("warehouse", JStr "wh"); ("file_format", JStr "csv");
   ("default_target_schema", JStr "  ")].

(** An external-stage configuration with a default target schema, a
    mapping for the tap [sales] that names no target schema, and a stage
    given with its schema. *)
Definition mapped_config (stage : string) (entry : dict) : dict :=
  [("account", JStr "acme"); ("dbname", JStr "analytics"); ("user", JStr "loader");
   ("password", JStr "secret"); ("warehouse", JStr "wh"); ("file_format", JStr "csv");
   ("s3_bucket", JStr "bucket"); ("stage", JStr stage);
   ("default_target_schema", JStr "landing");
   ("schema_mapping", JObj [("sales", JObj entry)])].

(** *** The reconciler and the table *)

(** The column of a schema entry is in the table with the type the entry
    maps to, or the entry maps to a timestamp: nothing to change. *)
Definition column_matches (catalog : list string -> list DbSync.column) (self : DbSync.t)
    (entry : string * dict) : Prop :=
  exists ty live,
    column_type (snd entry) = Ok ty /\
    live_column catalog self (fst entry) = Some live /\
    (py_upper (DbSync.DATA_TYPE live) = py_upper ty \/ ty = "timestamp_ntz").

(** The column clauses of a flattened schema, in its order. *)
Definition column_clauses (flatten_schema : list (string * dict)) : list string :=
  flat_map (fun entry =>
              match column_clause (fst entry) (snd entry) with
              | Ok clause => [clause]
              | Raise _ => []
              end) flatten_schema.

(** The look at the catalog that opens [update_columns] when there is no
    cache, and the one that refreshes the cache after a change. *)
Definition fetch_columns (self : DbSync.t) : list DbSync.action :=
  if DbSync.nonempty (DbSync.table_cache self) then []
  else [DbSync.GetTableColumns [DbSync.schema_name self]].

Definition refresh_cache (self : DbSync.t) (changed : bool) : list DbSync.action :=
  if DbSync.nonempty (DbSync.table_cache self) && changed
  then [DbSync.GetTableColumns [DbSync.schema_name self]]
  else [].

(** A stream [sales-orders] whose table has the one column of its schema,
    with the type the schema maps to. *)
Definition settled_sync : DbSync.t :=
  {| DbSync.stream := "sales-orders";
     DbSync.schema_name := "sales";
     DbSync.flatten_schema := [("id", [("type", JArr [JStr "integer"])])];
     DbSync.table_cache :=
       [ {| DbSync.SCHEMA_NAME := "SALES"; DbSync.TABLE_NAME := "ORDERS";
            DbSync.COLUMN_NAME := "ID"; DbSync.DATA_TYPE := "NUMBER" |} ] |}.

(** The same stream before its table has any column. *)
Definition fresh_sync : DbSync.t :=
  {| DbSync.stream := "sales-orders";
     DbSync.schema_name := "sales";
     DbSync.flatten_schema :=
       [("id", [("type", JArr [JStr "integer"])]);
        ("note", [("type", JArr [JStr "null"; JStr "string"])])];
     DbSync.table_cache := [] |}.

(** The flattened schema as [self.flatten_schema] holds it: each column
    with its descriptor. *)
Definition descriptors (mapping : dict) : list (string * dict) :=
  flat_map (fun kv => match snd kv with
                      | JObj property => [(fst kv, property)]
                      | _ => []
                      end) mapping.

(* ================================================================= *)
(** * Part II. Properties *)
(* ================================================================= *)

(* ----------------------------------------------------------------- *)
(** ** The backoff generator and the two ingestion loops *)

Section Backoff.

Import DbSync.

Lemma next_frame (g : generator) :
  snd (next g) =
  {| exponentially := exponentially g;
     previous := current g;
     current := (current g + previous g)%Z |}.
Proof.
  unfold next; simpl. f_equal. lia.
Qed.

Lemma advance_shift (n : nat) (g : generator) :
  advance n (snd (next g)) = snd (next (advance n g)).
Proof.
  induction n as [|n IH]; cbn [advance]; [reflexivity|]. now rewrite IH.
Qed.

Lemma advance_exponentially (n : nat) (g : generator) :
  exponentially (advance n g) = exponentially g.
Proof.
  induction n as [|n IH]; cbn [advance]; [reflexivity|].
  rewrite next_frame. exact IH.
Qed.

(** The frame holds two consecutive terms of a Fibonacci sequence. *)
Lemma advance_frame (n : nat) (g : generator) :
  previous (advance (S n) g) = current (advance n g) /\
  current (advance (S n) g) = (current (advance n g) + previous (advance n g))%Z.
Proof.
  cbn [advance]. rewrite next_frame. split; reflexivity.
Qed.

Lemma advance_positive (b : bool) (n : nat) :
  (0 <= previous (advance n (_increment_value b)) /\
   1 <= current (advance n (_increment_value b)))%Z.
Proof.
  induction n as [|n [IHp IHc]].
  - simpl. lia.
  - destruct (advance_frame n (_increment_value b)) as [Hp Hc].
    rewrite Hp, Hc. lia.
Qed.

Lemma nth_wait_linear_mode (n : nat) :
  nth_wait false n =
  (current (advance n (_increment_value false)) +
   previous (advance n (_increment_value false)) + 30)%Z.
Proof.
  unfold nth_wait, next.
  rewrite advance_exponentially. reflexivity.
Qed.

Lemma poll_loop_empty (drop_pipe_sql : string) (histories : list nat) (g : generator) :
  poll_loop drop_pipe_sql (O :: histories) g =
  after GetHistory
    (after (Sleep (fst (next g))) (poll_loop drop_pipe_sql histories (snd (next g)))).
Proof.
  cbn [poll_loop Nat.ltb Nat.leb].
  change (logger "debug") with (@Ok unit tt) || unfold logging.
  change (logger "debug") with (@Ok unit tt). cbv iota.
  destruct (next g) as [seconds g']. reflexivity.
Qed.

Lemma sleeps_after_sleep (seconds : Z) (r : run) :
  sleeps (fst (after (Sleep seconds) r)) = seconds :: sleeps (fst r).
Proof. destruct r as [trace o]. reflexivity. Qed.

Lemma sleeps_after_get_history (r : run) :
  sleeps (fst (after GetHistory r)) = sleeps (fst r).
Proof. destruct r as [trace o]. reflexivity. Qed.

(** The waits of the polling loop are the values of the generator, one
    per empty history. *)
Lemma poll_loop_sleeps (drop_pipe_sql : string) (k files : nat)
    (rest : list nat) (g : generator) :
  sleeps (fst (poll_loop drop_pipe_sql (repeat O k ++ S files :: rest)%list g)) =
  map (fun i => fst (next (advance i g))) (seq 0 k).
Proof.
  revert g. induction k as [|k IH]; intro g.
  - reflexivity.
  - cbn [repeat app]. rewrite poll_loop_empty.
    rewrite sleeps_after_get_history, sleeps_after_sleep, IH.
    cbn [seq map advance]. f_equal.
    rewrite <- seq_shift, map_map.
    apply map_ext. intro i. cbn [advance].
    now rewrite advance_shift.
Qed.

Lemma submit_loop_failure (responses : list bool) (n : Z) (g : generator) :
  submit_loop (false :: responses) (JNum n) g =
  after IngestFiles
    (after (Sleep (fst (next g)))
       (if (n - 1 =? 0)%Z then ([], Some (Raise (AttributeError "critcal")))
        else submit_loop responses (JNum (n - 1)) (snd (next g)))).
Proof.
  cbn [submit_loop decrement truthy].
  unfold logging.
  change (logger "debug") with (@Ok unit tt).
  change (logger "error") with (@Ok unit tt).
  change (logger "critcal") with (@Raise unit (AttributeError "critcal")).
  cbv iota. destruct (next g) as [seconds g']. cbn [fst snd].
  destruct (n - 1 =? 0)%Z; reflexivity.
Qed.

Lemma submit_loop_success (responses : list bool) (retries : json) (g : generator) :
  submit_loop (true :: responses) retries g = ([IngestFiles], Some (Ok tt)).
Proof. reflexivity. Qed.

Lemma attempts_after_ingest (r : run) :
  attempts (fst (after IngestFiles r)) = S (attempts (fst r)).
Proof. destruct r as [trace o]. reflexivity. Qed.

Lemma attempts_after_sleep (seconds : Z) (r : run) :
  attempts (fst (after (Sleep seconds) r)) = attempts (fst r).
Proof. destruct r as [trace o]. reflexivity. Qed.

Lemma snd_after (a : action) (r : run) : snd (after a r) = snd r.
Proof. destruct r as [trace o]. reflexivity. Qed.

(** With a positive limit and a service that rejects every submission, the
    loop makes as many attempts as the limit says and then reaches the
    call of [self.logger.critcal], which raises. *)
Lemma submit_all_rejected (n : nat) (rest : list bool) (g : generator) :
  attempts (fst (submit_loop (repeat false (S n) ++ rest)%list (JNum (Z.of_nat (S n))) g))
  = S n /\
  snd (submit_loop (repeat false (S n) ++ rest)%list (JNum (Z.of_nat (S n))) g)
  = Some (Raise (AttributeError "critcal")).
Proof.
  revert g. induction n as [|n IH]; intro g.
  - cbn [repeat app]. rewrite submit_loop_failure.
    rewrite attempts_after_ingest, attempts_after_sleep, !snd_after.
    split; reflexivity.
  - change (repeat false (S (S n)) ++ rest)%list
      with (false :: (repeat false (S n) ++ rest))%list.
    rewrite submit_loop_failure.
    rewrite attempts_after_ingest, attempts_after_sleep, !snd_after.
    replace (Z.of_nat (S (S n)) - 1)%Z with (Z.of_nat (S n)) by lia.
    destruct (Z.eqb_spec (Z.of_nat (S n)) 0) as [E|_]; [lia|].
    destruct (IH (snd (next g))) as [Ha Hs]. rewrite Ha, Hs. split; reflexivity.
Qed.

(** With a limit of zero or less the counter never meets zero: the loop
    is still running after any number of rejected submissions. *)
Lemma submit_never_stops (z : Z) (n : nat) (g : generator) :
  (z <= 0)%Z ->
  attempts (fst (submit_loop (repeat false n) (JNum z) g)) = n /\
  snd (submit_loop (repeat false n) (JNum z) g) = None.
Proof.
  revert z g. induction n as [|n IH]; intros z g Hz.
  - split; reflexivity.
  - cbn [repeat]. rewrite submit_loop_failure.
    rewrite attempts_after_ingest, attempts_after_sleep, !snd_after.
    destruct (Z.eqb_spec (z - 1) 0) as [E|_]; [lia|].
    destruct (IH (z - 1)%Z (snd (next g))) as [Ha Hs]; [lia|].
    rewrite Ha, Hs. split; reflexivity.
Qed.

(** X1: a submission that is accepted ends the loop at once: after [k]
    rejections within the limit, the next, accepted, submission is the
    last attempt, whatever the service would answer later. *)
Theorem submit_accepted_stops (k : nat) (z : Z) (rest : list bool) (g : generator) :
  (Z.of_nat k < z \/ z <= 0)%Z ->
  attempts (fst (submit_loop (repeat false k ++ true :: rest)%list (JNum z) g)) = S k /\
  snd (submit_loop (repeat false k ++ true :: rest)%list (JNum z) g) = Some (Ok tt).
Proof.
  revert z g. induction k as [|k IH]; intros z g Hz.
  - cbn [repeat app]. rewrite submit_loop_success. split; reflexivity.
  - cbn [repeat app]. rewrite submit_loop_failure.
    rewrite attempts_after_ingest, attempts_after_sleep, !snd_after.
    destruct (Z.eqb_spec (z - 1) 0) as [E|_]; [lia|].
    destruct (IH (z - 1)%Z (snd (next g))) as [Ha Hs]; [lia|].
    rewrite Ha, Hs. split; reflexivity.
Qed.

Lemma advance_mode (n : nat) :
  previous (advance n (_increment_value true)) =
  previous (advance n (_increment_value false)) /\
  current (advance n (_increment_value true)) =
  current (advance n (_increment_value false)).
Proof.
  induction n as [|n [IHp IHc]]; [split; reflexivity|].
  destruct (advance_frame n (_increment_value true)) as [Hp Hc].
  destruct (advance_frame n (_increment_value false)) as [Hp' Hc'].
  rewrite Hp, Hc, Hp', Hc', IHp, IHc. split; reflexivity.
Qed.

End Backoff.

(** C7, as stated: the waits of the polling loop would grow by one fixed
    increment.  They do not: the first increments are 1, 1 and 2. *)
Lemma poll_waits_have_no_fixed_increment :
  ~ (exists increment : Z,
       forall n : nat, nth_wait false (S n) = (nth_wait false n + increment)%Z).
Proof.
  intros [increment H].
  pose proof (H 0%nat) as H0. pose proof (H 2%nat) as H2.
  change (nth_wait false 0) with 31%Z in H0.
  change (nth_wait false 1) with 32%Z in H0.
  change (nth_wait false 2) with 33%Z in H2.
  change (nth_wait false 3) with 35%Z in H2.
  lia.
Qed.

(** C7, amended: the polling loop sleeps for the successive values of the
    generator, which start at 31 and 32 seconds and grow strictly; the
    increment is not fixed but is itself growing: each increment is the
    wait of two polls earlier less 30 seconds (1, 1, 2, 3, 5, ...). *)
Theorem poll_waits_grow_by_fibonacci_increments :
  (forall (drop_pipe_sql : string) (k files : nat) (rest : list nat),
      sleeps (fst (DbSync.poll_loop drop_pipe_sql (repeat O k ++ S files :: rest)%list
                     (DbSync._increment_value false)))
      = map (nth_wait false) (seq 0 k)) /\
  nth_wait false 0 = 31%Z /\
  nth_wait false 1 = 32%Z /\
  (forall n : nat,
      (nth_wait false n < nth_wait false (S n))%Z /\
      (nth_wait false (S (S n)) - nth_wait false (S n) = nth_wait false n - 30)%Z).
Proof.
  split; [|split; [reflexivity|split; [reflexivity|]]].
  - intros. apply poll_loop_sleeps.
  - intro n. rewrite !nth_wait_linear_mode.
    destruct (advance_frame (S n) (DbSync._increment_value false)) as [Hp2 Hc2].
    destruct (advance_frame n (DbSync._increment_value false)) as [Hp1 Hc1].
    destruct (advance_positive false n) as [Hp Hc].
    rewrite Hp2, Hc2, Hp1, Hc1. lia.
Qed.

(** C5: the submission loop at the end of its retries.  With a positive
    limit and every submission rejected, the loop makes exactly that many
    attempts, but then ends with the [AttributeError] of the misspelt
    [self.logger.critcal], before [sys.exit(1)] is reached; with a limit
    of zero the loop is still running after any number of rejections. *)
Theorem submit_exhaustion_never_reaches_exit :
  (forall (n : nat) (rest : list bool) (g : DbSync.generator),
      attempts (fst (DbSync.submit_loop (repeat false (S n) ++ rest)%list
                       (JNum (Z.of_nat (S n))) g)) = S n /\
      snd (DbSync.submit_loop (repeat false (S n) ++ rest)%list
             (JNum (Z.of_nat (S n))) g)
      = Some (Raise (AttributeError "critcal"))) /\
  snd (DbSync.load_via_snowpipe [] "db.s.t_s3_pipe" (repeat false 5) [])
  = Some (Raise (AttributeError "critcal")) /\
  (forall (n : nat) (g : DbSync.generator),
      attempts (fst (DbSync.submit_loop (repeat false n) (JNum 0) g)) = n /\
      snd (DbSync.submit_loop (repeat false n) (JNum 0) g) = None).
Proof.
  split; [|split].
  - intros. apply submit_all_rejected.
  - reflexivity.
  - intros. apply submit_never_stops. lia.
Qed.

(* ----------------------------------------------------------------- *)
(** ** [validate_config] *)

Section ValidateConfig.

Variable config : dict.

Let missing (keys : list string) : list string :=
  map missing_key_error (filter (fun k => negb (get_truthy k config)) keys).

Lemma missing_keys_loop (keys : list string) (errors : list string) :
  fold_left (fun errors k =>
               if negb (get_truthy k config)
               then (errors ++ [missing_key_error k])%list else errors)
            keys errors
  = (errors ++ missing keys)%list.
Proof.
  revert errors. induction keys as [|k keys IH]; intro errors; cbn [fold_left].
  - unfold missing. cbn. now rewrite app_nil_r.
  - rewrite IH. unfold missing. cbn [filter].
    destruct (negb (get_truthy k config)); cbn [map].
    + now rewrite <- app_assoc.
    + reflexivity.
Qed.

Lemma missing_nil (keys : list string) :
  missing keys = [] <-> all_truthy keys config = true.
Proof.
  unfold missing, all_truthy. induction keys as [|k keys IH]; cbn [filter forallb map].
  - split; reflexivity.
  - destruct (get_truthy k config); cbn [negb andb map].
    + exact IH.
    + split; discriminate.
Qed.

(** The three groups of messages [validate_config] returns. *)
Lemma validate_config_messages :
  validate_config config =
  ((if get_truthy "s3_bucket" config && get_truthy "stage" config
    then missing s3_required_config_keys
    else if negb (get_truthy "s3_bucket" config) && negb (get_truthy "stage" config)
    then missing snowflake_required_config_keys
    else [only_one_staging_key_error]) ++
   (if negb (get_truthy "default_target_schema" config) &&
       negb (get_truthy "schema_mapping" config)
    then [no_target_schema_error] else []))%list.
Proof.
  unfold validate_config.
  destruct (get_truthy "s3_bucket" config && get_truthy "stage" config);
    [|destruct (negb (get_truthy "s3_bucket" config) && negb (get_truthy "stage" config))];
    rewrite missing_keys_loop; cbn [app];
    destruct (negb (get_truthy "default_target_schema" config) &&
              negb (get_truthy "schema_mapping" config));
    cbn [missing filter map app]; rewrite ?app_nil_r; reflexivity.
Qed.

End ValidateConfig.

(** C6, as stated: a configuration that sets both ['s3_bucket'] and
    ['stage'] would be reported.  It is not: both keys together select the
    external stage, and this configuration has no error. *)
Lemma both_staging_keys_are_accepted :
  get_truthy "s3_bucket" external_stage_config = true /\
  get_truthy "stage" external_stage_config = true /\
  validate_config external_stage_config = [].
Proof. repeat split. Qed.

(** C6, amended: [validate_config] reports the staging error for every
    configuration that sets exactly one of ['s3_bucket'] and ['stage'];
    and it reports no error at all exactly for the configurations that
    name a target schema and configure one mode completely: both keys
    with all keys of the external stage, or neither key with all keys of
    the table stage. *)
Theorem validate_config_staging_modes (config : dict) :
  (xorb (get_truthy "s3_bucket" config) (get_truthy "stage" config) = true ->
   In only_one_staging_key_error (validate_config config)) /\
  (validate_config config = [] <->
   ((get_truthy "s3_bucket" config = true /\ get_truthy "stage" config = true /\
     all_truthy s3_required_config_keys config = true) \/
    (get_truthy "s3_bucket" config = false /\ get_truthy "stage" config = false /\
     all_truthy snowflake_required_config_keys config = true)) /\
   (get_truthy "default_target_schema" config = true \/
    get_truthy "schema_mapping" config = true)).
Proof.
  rewrite validate_config_messages.
  destruct (get_truthy "s3_bucket" config) eqn:Es3;
  destruct (get_truthy "stage" config) eqn:Estage; cbn [xorb andb negb].
  - split; [discriminate|].
    split.
    + intro H. apply app_eq_nil in H. destruct H as [Hm Hs].
      apply missing_nil in Hm.
      split; [left; auto|].
      destruct (get_truthy "default_target_schema" config),
               (get_truthy "schema_mapping" config); cbn in Hs; try discriminate; auto.
    + intros [[(_ & _ & Hall)|(Hf & _)] Hs]; [|discriminate].
      apply missing_nil in Hall. rewrite Hall. cbn [app].
      destruct Hs as [-> | ->]; cbn; [reflexivity|].
      now rewrite andb_false_r.
  - split; [intros _; apply in_or_app; left; left; reflexivity|].
    split; [discriminate|].
    intros [[(_ & Hf & _)|(Hf & _)] _]; discriminate.
  - split; [intros _; apply in_or_app; left; left; reflexivity|].
    split; [discriminate|].
    intros [[(Hf & _)|(_ & Hf & _)] _]; discriminate.
  - split; [discriminate|].
    split.
    + intro H. apply app_eq_nil in H. destruct H as [Hm Hs].
      apply missing_nil in Hm.
      split; [right; auto|].
      destruct (get_truthy "default_target_schema" config),
               (get_truthy "schema_mapping" config); cbn in Hs; try discriminate; auto.
    + intros [[(Hf & _)|(_ & _ & Hall)] Hs]; [discriminate|].
      apply missing_nil in Hall. rewrite Hall. cbn [app].
      destruct Hs as [-> | ->]; cbn; [reflexivity|].
      now rewrite andb_false_r.
Qed.

(** A configuration with the bucket alone is reported. *)
Lemma validate_config_staging_modes_witness :
  In only_one_staging_key_error (validate_config [("s3_bucket", JStr "bucket")]).
Proof.
  apply (proj1 (validate_config_staging_modes [("s3_bucket", JStr "bucket")])).
  reflexivity.
Defined.

(* ----------------------------------------------------------------- *)
(** ** Strings: append, prefix, split, join, replace *)

Lemma str_app_nil_r (s : string) : s ++ "" = s.
Proof. induction s as [|c s IH]; cbn; [reflexivity|now rewrite IH]. Qed.

Lemma str_app_assoc (a b c : string) : (a ++ b) ++ c = a ++ (b ++ c).
Proof. induction a as [|x a IH]; cbn; [reflexivity|now rewrite IH]. Qed.

Lemma str_length_app (a b : string) :
  String.length (a ++ b) = (String.length a + String.length b)%nat.
Proof. induction a as [|x a IH]; cbn; [reflexivity|now rewrite IH]. Qed.

Lemma str_app_inv_head (a b c : string) : a ++ b = a ++ c -> b = c.
Proof.
  induction a as [|x a IH]; cbn; intro H; [exact H|].
  injection H as H. auto.
Qed.

Lemma prefix_nil (s : string) : prefix "" s = true.
Proof. destruct s; reflexivity. Qed.

Lemma prefix_app (a s : string) : prefix a s = true -> exists r, s = a ++ r.
Proof.
  revert s. induction a as [|x a IH]; intros s H.
  - exists s. reflexivity.
  - destruct s as [|y s]; cbn in H; [discriminate|].
    destruct (ascii_dec x y) as [->|]; [|discriminate].
    destruct (IH s H) as [r ->]. exists r. reflexivity.
Qed.

Lemma split_from_skip (sep x cur s : string) :
  split_from sep (String.length x) cur (x ++ s) = split_from sep 0 cur s.
Proof.
  induction x as [|c x IH]; cbn; [reflexivity|exact IH].
Qed.

Lemma split_from_nonempty (sep : string) (skip : nat) (cur s : string) :
  split_from sep skip cur s <> [].
Proof.
  revert skip cur. induction s as [|c s IH]; intros skip cur; cbn [split_from].
  - discriminate.
  - destruct skip as [|k]; [|apply IH].
    destruct (prefix sep (String c s)); [discriminate|apply IH].
Qed.

Lemma concat_cons (sep x : string) (l : list string) :
  l <> [] -> String.concat sep (x :: l) = x ++ sep ++ String.concat sep l.
Proof. destruct l; [congruence|reflexivity]. Qed.

(** Joining the segments of a split with the separator gives the string back. *)
Lemma join_split_from (sep : string) (n : nat) :
  sep <> "" ->
  forall cur s : string,
    (String.length s <= n)%nat ->
    py_join sep (split_from sep 0 cur s) = cur ++ s.
Proof.
  intro Hsep. unfold py_join.
  induction n as [|n IH]; intros cur s Hlen.
  - destruct s; [|cbn in Hlen; lia]. cbn. now rewrite str_app_nil_r.
  - destruct s as [|c s]; [cbn; now rewrite str_app_nil_r|].
    cbn [split_from].
    destruct (prefix sep (String c s)) eqn:Hp.
    + destruct (prefix_app _ _ Hp) as [r Hr].
      destruct sep as [|c' sep']; [congruence|].
      cbn in Hr. injection Hr as -> ->.
      cbn [String.length]. rewrite Nat.sub_succ, Nat.sub_0_r, split_from_skip.
      rewrite concat_cons by apply split_from_nonempty.
      rewrite IH.
      * cbn. reflexivity.
      * cbn in Hlen. rewrite str_length_app in Hlen. lia.
    + rewrite IH by (cbn in Hlen; lia).
      rewrite str_app_assoc. reflexivity.
Qed.

Lemma py_split_join (s sep : string) :
  sep <> "" ->
  exists segments, py_split s sep = Ok segments /\ segments <> [] /\
                   py_join sep segments = s.
Proof.
  intro Hsep. exists (split_from sep 0 "" s). repeat split.
  - unfold py_split. destruct sep; [congruence|reflexivity].
  - apply split_from_nonempty.
  - now rewrite (join_split_from sep (String.length s)).
Qed.

(* ----------------------------------------------------------------- *)
(** ** [stream_name_to_dict] *)

(** C9: the segments of the stream name, split at the separator, decide
    the result: one segment is the table name alone; two are schema and
    table; with more, the first is the catalog, the second the schema and
    the others, joined by underscores, the table.  The segments are those
    of the stream name: joined by the separator they give it back.  In
    particular ["sales-orders"] split at ["-"] is schema [sales], table
    [orders]. *)
Theorem stream_name_to_dict_by_segments :
  (forall stream_name separator : string,
      separator <> "" ->
      exists segments,
        py_split stream_name separator = Ok segments /\
        py_join separator segments = stream_name /\
        match segments with
        | [] => False
        | [table] =>
            table = stream_name /\
            stream_name_to_dict stream_name separator =
            Ok {| catalog_name := None; schema_name := None; table_name := table |}
        | [schema; table] =>
            stream_name_to_dict stream_name separator =
            Ok {| catalog_name := None; schema_name := Some schema; table_name := table |}
        | catalog :: schema :: rest =>
            stream_name_to_dict stream_name separator =
            Ok {| catalog_name := Some catalog; schema_name := Some schema;
                  table_name := py_join "_" rest |}
        end) /\
  stream_name_to_dict "sales-orders" "-" =
  Ok {| catalog_name := None; schema_name := Some "sales"; table_name := "orders" |}.
Proof.
  split; [|reflexivity].
  intros stream_name separator Hsep.
  destruct (py_split_join stream_name separator Hsep) as (segments & Hsplit & Hne & Hjoin).
  exists segments. split; [exact Hsplit|]. split; [exact Hjoin|].
  unfold stream_name_to_dict. rewrite Hsplit. cbn [bind].
  destruct segments as [|a [|b [|c rest]]]; [congruence| | |].
  - cbn in Hjoin. split; [exact Hjoin|]. cbn. now rewrite Hjoin.
  - cbn. reflexivity.
  - cbn. reflexivity.
Qed.

(** A stream name of four segments. *)
Lemma stream_name_to_dict_by_segments_witness :
  exists segments,
    py_split "raw-sales-order-lines" "-" = Ok segments /\
    py_join "-" segments = "raw-sales-order-lines" /\
    match segments with
    | [] => False
    | [table] =>
        table = "raw-sales-order-lines" /\
        stream_name_to_dict "raw-sales-order-lines" "-" =
        Ok {| catalog_name := None; schema_name := None; table_name := table |}
    | [schema; table] =>
        stream_name_to_dict "raw-sales-order-lines" "-" =
        Ok {| catalog_name := None; schema_name := Some schema; table_name := table |}
    | catalog :: schema :: rest =>
        stream_name_to_dict "raw-sales-order-lines" "-" =
        Ok {| catalog_name := Some catalog; schema_name := Some schema;
              table_name := py_join "_" rest |}
    end.
Proof.
  apply (proj1 stream_name_to_dict_by_segments "raw-sales-order-lines" "-").
  discriminate.
Defined.

(* ----------------------------------------------------------------- *)
(** ** [create_query_tag] *)

Lemma py_contains_false (needle hay : string) (c : ascii) :
  py_contains needle (String c hay) = false ->
  prefix needle (String c hay) = false /\ py_contains needle hay = false.
Proof.
  cbn [py_contains]. intro H. apply orb_false_iff in H. exact H.
Qed.

(** Replacing a token that does not occur changes nothing. *)
Lemma py_replace_absent (old new s : string) :
  py_contains old s = false -> py_replace old new s = s.
Proof.
  unfold py_replace. induction s as [|c s IH]; intro H; [reflexivity|].
  destruct (py_contains_false _ _ _ H) as [Hp Hc].
  cbn [replace_from]. rewrite Hp. now rewrite IH.
Qed.

(** C10, as stated: every ['{schema}'] and ['{table}'] token of the
    pattern would be replaced and all other text left unchanged, which is
    [substitute_tokens].  The two replacements are made one after the
    other, so a ['{table}'] token brought in by the schema name is
    replaced as well. *)
Lemma create_query_tag_rewrites_the_schema_name :
  create_query_tag (Some "{schema}.{table}") (Some "{table}") (Some "orders")
  = Some "orders.orders" /\
  substitute_tokens "{table}" "orders" "{schema}.{table}" = "{table}.orders" /\
  create_query_tag (Some "{schema}.{table}") (Some "{table}") (Some "orders")
  <> Some (substitute_tokens (str_or (Some "{table}") "unknown-schema")
                             (str_or (Some "orders") "unknown-table")
                             "{schema}.{table}").
Proof. repeat split. discriminate. Qed.

(** C10, amended: [create_query_tag] returns [None] when the pattern is
    missing or empty; otherwise it returns the pattern with every
    ['{schema}'] token replaced by the schema name (['unknown-schema']
    when none is given) and then every ['{table}'] token of the resulting
    text, those the schema name brought in included, replaced by the table
    name (['unknown-table'] when none is given); a pattern without tokens
    is returned as it is. *)
Theorem create_query_tag_replaces_in_sequence
    (query_tag_pattern schema table : option string) :
  (query_tag_pattern = None \/ query_tag_pattern = Some "" ->
   create_query_tag query_tag_pattern schema table = None) /\
  (forall pattern : string,
      query_tag_pattern = Some pattern -> pattern <> "" ->
      create_query_tag query_tag_pattern schema table =
      Some (py_replace "{table}" (str_or table "unknown-table")
              (py_replace "{schema}" (str_or schema "unknown-schema") pattern)) /\
      (py_contains "{schema}" pattern = false ->
       py_contains "{table}" pattern = false ->
       create_query_tag query_tag_pattern schema table = Some pattern)).
Proof.
  split.
  - intros [-> | ->]; reflexivity.
  - intros pattern -> Hne.
    assert (E : create_query_tag (Some pattern) schema table =
                Some (py_replace "{table}" (str_or table "unknown-table")
                        (py_replace "{schema}" (str_or schema "unknown-schema") pattern))).
    { unfold create_query_tag.
      destruct (String.eqb_spec pattern "") as [E|_]; [congruence|].
      cbn [fold_left]. f_equal.
      destruct (py_contains "{schema}" pattern) eqn:Hs.
      - destruct (py_contains "{table}" _) eqn:Ht; [reflexivity|].
        now rewrite (py_replace_absent "{table}").
      - rewrite (py_replace_absent "{schema}") by exact Hs.
        destruct (py_contains "{table}" pattern) eqn:Ht; [reflexivity|].
        now rewrite (py_replace_absent "{table}"). }
    split; [exact E|].
    intros Hs Ht. rewrite E.
    rewrite (py_replace_absent "{schema}") by exact Hs.
    now rewrite (py_replace_absent "{table}").
Qed.

(** The pattern of the docstring, with a schema and without a table. *)
Lemma create_query_tag_replaces_in_sequence_witness :
  create_query_tag (Some "Loading data into {schema}.{table}") (Some "sales") None =
  Some (py_replace "{table}" (str_or None "unknown-table")
          (py_replace "{schema}" (str_or (Some "sales") "unknown-schema")
             "Loading data into {schema}.{table}")).
Proof.
  apply (proj2 (create_query_tag_replaces_in_sequence
                  (Some "Loading data into {schema}.{table}") (Some "sales") None)
               "Loading data into {schema}.{table}").
  - reflexivity.
  - discriminate.
Defined.

(* ----------------------------------------------------------------- *)
(** ** [column_type] and [column_trans] *)

(** Closes a goal made of equations between results that are decided by
    their constructors. *)
Ltac decided :=
  repeat split; intros; try reflexivity; try discriminate; try congruence.

Lemma py_in_container (s : string) (ty : json) :
  is_container ty = true -> py_in s ty = Ok (type_includes s ty).
Proof. destruct ty; cbn; try discriminate; reflexivity. Qed.

(** A format is one string: it cannot equal two different ones. *)
Lemma format_is_exclusive (a b : string) (fmt : option json) :
  format_is a fmt = true -> a <> b -> format_is b fmt = false.
Proof.
  destruct fmt as [[| | |f| |]|]; cbn; try discriminate.
  intros Ha Hab. apply String.eqb_eq in Ha. subst f.
  now apply String.eqb_neq.
Qed.

Lemma dict_item_get {k : string} {d : dict} {v : json} :
  dict_get k d = Some v -> dict_item k d = Ok v.
Proof. unfold dict_item. now intros ->. Qed.

(** C4, as stated: [column_trans] would return the binary-decode
    transform exactly for format binary.  An object or array type comes
    first: with format binary it still gets the structured-parse
    transform. *)
Lemma column_trans_of_structured_binary :
  format_is "binary"
    (dict_get "format" [("type", JArr [JStr "object"]); ("format", JStr "binary")])
  = true /\
  column_trans [("type", JArr [JStr "object"]); ("format", JStr "binary")]
  = Ok "parse_json" /\
  column_trans [("type", JArr [JStr "object"]); ("format", JStr "binary")]
  <> Ok "to_binary".
Proof. repeat split. discriminate. Qed.

(** C4, amended: on a property descriptor whose type is a string or a list
    (or a dict), [column_type] is the first matching rule of the decision
    table, and [column_trans] is the structured-parse transform exactly
    for the object/array types (the descriptors mapped to variant), the
    binary-decode transform exactly for format binary on a type without
    object and array (the descriptors mapped to binary), and no transform
    otherwise. *)
Theorem column_type_is_first_matching_rule (schema_property : dict) (ty : json) :
  dict_get "type" schema_property = Some ty ->
  is_container ty = true ->
  column_type schema_property =
  Ok (first_matching_rule ty (dict_get "format" schema_property)) /\
  column_trans schema_property =
  Ok (if type_includes "object" ty || type_includes "array" ty then "parse_json"
      else if format_is "binary" (dict_get "format" schema_property) then "to_binary"
      else "") /\
  (column_trans schema_property = Ok "parse_json" <->
   type_includes "object" ty || type_includes "array" ty = true) /\
  (column_trans schema_property = Ok "parse_json" <->
   column_type schema_property = Ok "variant") /\
  (column_trans schema_property = Ok "to_binary" <->
   column_type schema_property = Ok "binary").
Proof.
  intros Hty Hc.
  unfold column_type, column_trans, first_matching_rule, decision_table,
    or_else, and_then.
  rewrite (dict_item_get Hty). cbn [bind find fst snd].
  rewrite !(py_in_container _ _ Hc). cbn [bind].
  destruct (type_includes "object" ty), (type_includes "array" ty);
    cbn [bind orb andb]; try solve [decided].
  destruct (format_is "date-time" (dict_get "format" schema_property)) eqn:Hdt;
    [rewrite (format_is_exclusive "date-time" "binary" _ Hdt) by discriminate;
     decided|].
  destruct (format_is "time" (dict_get "format" schema_property)) eqn:Ht;
    [rewrite (format_is_exclusive "time" "binary" _ Ht) by discriminate;
     decided|].
  destruct (format_is "binary" (dict_get "format" schema_property)); [decided|].
  destruct (type_includes "number" ty), (type_includes "integer" ty),
    (type_includes "string" ty), (type_includes "boolean" ty);
    cbn [bind andb]; decided.
Qed.

(** A nullable date-time string. *)
Lemma column_type_is_first_matching_rule_witness :
  column_type [("type", JArr [JStr "null"; JStr "string"]); ("format", JStr "date-time")]
  = Ok "timestamp_ntz".
Proof.
  apply (proj1 (column_type_is_first_matching_rule
                  [("type", JArr [JStr "null"; JStr "string"]);
                   ("format", JStr "date-time")]
                  (JArr [JStr "null"; JStr "string"]) eq_refl eq_refl)).
Defined.

(* ----------------------------------------------------------------- *)
(** ** [flatten_key] *)

Lemma str_map_length (f : ascii -> ascii) (s : string) :
  String.length (str_map f s) = String.length s.
Proof. induction s as [|c s IH]; cbn; [reflexivity|now rewrite IH]. Qed.

Lemma str_filter_length (f : ascii -> bool) (s : string) :
  (String.length (str_filter f s) <= String.length s)%nat.
Proof.
  induction s as [|c s IH]; cbn; [lia|].
  destruct (f c); cbn; lia.
Qed.

Lemma camelize_rest_cons (c : ascii) (rest : string) :
  camelize_rest (String c rest) =
  if Ascii.eqb c underscore then
    match rest with
    | EmptyString => String c EmptyString
    | String d rest' =>
        if Ascii.eqb d newline then String c (camelize_rest rest)
        else String (upper_char d) (camelize_rest rest')
    end
  else String c (camelize_rest rest).
Proof. reflexivity. Qed.

Lemma camelize_rest_length (n : nat) :
  forall s : string,
    (String.length s <= n)%nat ->
    (String.length (camelize_rest s) <= String.length s)%nat.
Proof.
  induction n as [|n IH]; intros s Hn.
  - destruct s; [cbn; lia|cbn in Hn; lia].
  - destruct s as [|c s]; [cbn; lia|].
    cbn [String.length] in Hn. rewrite camelize_rest_cons.
    destruct (Ascii.eqb c underscore).
    + destruct s as [|d s]; [cbn; lia|].
      cbn [String.length] in Hn.
      destruct (Ascii.eqb d newline).
      * assert (H := IH (String d s)). cbn [String.length] in H |- *. lia.
      * assert (H := IH s). cbn [String.length]. lia.
    + assert (H := IH s). cbn [String.length]. lia.
Qed.

Lemma camelize_length (s : string) :
  (String.length (camelize s) <= String.length s)%nat.
Proof.
  destruct s as [|c s]; [cbn; lia|].
  pose proof (camelize_rest_length (String.length s) s (le_n _)).
  unfold camelize. destruct (Ascii.eqb c newline); cbn [String.length]; lia.
Qed.

Lemma substring_length (n : nat) (s : string) :
  (String.length (substring 0 n s) <= String.length s)%nat.
Proof.
  revert s. induction n as [|n IH]; intros [|c s]; cbn; try lia.
  specialize (IH s). lia.
Qed.

(** Compressing a segment never makes it longer. *)
Lemma reduce_segment_length (seg : string) :
  (String.length (reduce_segment seg) <= String.length seg)%nat.
Proof.
  unfold reduce_segment, py_lower. rewrite str_map_length.
  destruct (1 <? _)%nat.
  - etransitivity; [apply str_filter_length|apply camelize_length].
  - apply substring_length.
Qed.

Lemma join_length_le (sep : string) (l l' : list string) :
  Forall2 (fun a b => (String.length a <= String.length b)%nat) l l' ->
  (String.length (py_join sep l) <= String.length (py_join sep l'))%nat.
Proof.
  unfold py_join. induction 1 as [|a b l l' Hab Hl IH]; [cbn; lia|].
  destruct Hl as [|a' b' l l' Hab' Hl].
  - cbn. exact Hab.
  - rewrite (concat_cons sep a), (concat_cons sep b) by discriminate.
    rewrite !str_length_app. lia.
Qed.

Lemma Forall2_reduce (l : list string) :
  Forall2 (fun a b => (String.length a <= String.length b)%nat)
          (map reduce_segment l) l.
Proof.
  induction l as [|a l IH]; cbn; constructor;
    [apply reduce_segment_length|exact IH].
Qed.

Lemma Forall2_le_refl (l : list string) :
  Forall2 (fun a b => (String.length a <= String.length b)%nat) l l.
Proof. induction l; constructor; [lia|assumption]. Qed.

(** What the [while] loop returns: the first [j] segments still to do have
    been compressed, and the loop stopped either below the limit or with
    no segment left. *)
Lemma flatten_key_loop_result (sep : string) (todo done : list string) :
  exists j : nat,
    flatten_key_loop sep done todo =
    (done ++ map reduce_segment (firstn j todo) ++ skipn j todo)%list /\
    ((String.length (py_join sep (flatten_key_loop sep done todo)) < 255)%nat \/
     j = List.length todo).
Proof.
  revert done. induction todo as [|seg todo IH]; intro done.
  - exists 0%nat. cbn [flatten_key_loop firstn skipn map app List.length].
    rewrite app_nil_r.
    destruct (255 <=? _)%nat; auto.
  - cbn [flatten_key_loop].
    destruct (255 <=? String.length (py_join sep (done ++ seg :: todo)%list))%nat eqn:E.
    + destruct (IH (done ++ [reduce_segment seg])%list) as (j & Hj & Hstop).
      exists (S j). split.
      * rewrite Hj. cbn [firstn skipn map]. rewrite <- app_assoc. reflexivity.
      * destruct Hstop as [Hlt | ->]; [left; exact Hlt|right; reflexivity].
    + exists 0%nat. cbn [firstn skipn map app]. split; [reflexivity|].
      left. apply Nat.leb_gt in E. exact E.
Qed.

(** A short name is returned as it is. *)
Lemma flatten_key_short (k : string) (parent_key : list string) (sep : string) :
  (String.length (py_join sep (parent_key ++ [k])%list) < 255)%nat ->
  flatten_key k parent_key sep = py_join sep (parent_key ++ [k])%list.
Proof.
  unfold flatten_key. intro Hlt.
  destruct (parent_key ++ [k])%list as [|seg todo] eqn:E.
  - cbn [flatten_key_loop app]. destruct (255 <=? _)%nat; reflexivity.
  - cbn [flatten_key_loop app].
    apply Nat.leb_gt in Hlt. rewrite Hlt. reflexivity.
Qed.

(** C2, as stated: every column name would have at most 255 characters.
    A key of 256 capital letters has nothing the compression could strip:
    it comes back in lower case, as long as it was. *)
Lemma flatten_key_can_exceed_255 :
  ~ (String.length (flatten_key (repeat_char "A" 256) [] "__") <= 255)%nat.
Proof.
  assert (E : String.length (flatten_key (repeat_char "A" 256) [] "__") = 256%nat)
    by (vm_compute; reflexivity).
  rewrite E. lia.
Qed.

(** C2, amended: a name whose plain join is shorter than 255 characters is
    returned unchanged; otherwise the name returned is shorter than 255
    characters unless every segment of the path has been compressed and
    the join is still that long; and the name returned is never longer
    than the plain join. *)
Theorem flatten_key_is_best_effort (k : string) (parent_key : list string) (sep : string) :
  ((String.length (py_join sep (parent_key ++ [k])%list) < 255)%nat ->
   flatten_key k parent_key sep = py_join sep (parent_key ++ [k])%list) /\
  ((String.length (flatten_key k parent_key sep) < 255)%nat \/
   flatten_key k parent_key sep =
   py_join sep (map reduce_segment (parent_key ++ [k])%list)) /\
  (String.length (flatten_key k parent_key sep) <=
   String.length (py_join sep (parent_key ++ [k])%list))%nat.
Proof.
  split; [apply flatten_key_short|]. unfold flatten_key. split.
  - destruct (flatten_key_loop_result sep (parent_key ++ [k])%list []) as (j & Hj & Hstop).
    destruct Hstop as [Hlt | ->]; [left; exact Hlt|right].
    rewrite Hj, firstn_all, skipn_all. cbn [app]. now rewrite app_nil_r.
  - destruct (flatten_key_loop_result sep (parent_key ++ [k])%list []) as (j & Hj & _).
    rewrite Hj. cbn [app]. apply join_length_le.
    rewrite <- (firstn_skipn j (parent_key ++ [k])%list) at 3.
    apply Forall2_app; [apply Forall2_reduce|apply Forall2_le_refl].
Qed.

(** A short nested key. *)
Lemma flatten_key_is_best_effort_witness :
  flatten_key "x" ["payload"] "__" = py_join "__" (["payload"] ++ ["x"])%list.
Proof.
  apply (proj1 (flatten_key_is_best_effort "x" ["payload"] "__")).
  vm_compute. lia.
Defined.

(* ----------------------------------------------------------------- *)
(** ** [flatten_record] *)

Lemma dict_get_forallb {V : Type} (Q : V -> bool) (k : string)
    (d : list (string * V)) (v : V) :
  forallb (fun kv => Q (snd kv)) d = true -> dict_get k d = Some v -> Q v = true.
Proof.
  induction d as [|[k' v'] d IH]; cbn [forallb dict_get snd]; [discriminate|].
  intros H Hget. apply andb_true_iff in H. destruct H as [Hv Hd].
  destruct (k' =? k); [injection Hget as <-; exact Hv|auto].
Qed.

Lemma dict_set_absent {V : Type} (k : string) (v : V) (d : list (string * V)) :
  ~ In k (map fst d) -> dict_set k v d = (d ++ [(k, v)])%list.
Proof.
  induction d as [|[k' v'] d IH]; cbn [dict_set map fst In app]; intro H.
  - reflexivity.
  - destruct (String.eqb_spec k' k) as [->|_]; [tauto|].
    rewrite IH by tauto. reflexivity.
Qed.

Lemma dict_of_items_from {V : Type} (items acc : list (string * V)) :
  NoDup (map fst (acc ++ items)%list) ->
  fold_left (fun d kv => dict_set (fst kv) (snd kv) d) items acc = (acc ++ items)%list.
Proof.
  revert acc. induction items as [|[k v] items IH]; intros acc Hnd; cbn [fold_left].
  - now rewrite app_nil_r.
  - cbn [fst snd].
    assert (Hk : ~ In k (map fst acc)).
    { rewrite map_app in Hnd. cbn [map fst] in Hnd.
      apply NoDup_remove_2 in Hnd. intro Hin. apply Hnd.
      apply in_or_app. left. exact Hin. }
    rewrite (dict_set_absent k v acc Hk).
    rewrite IH; rewrite <- app_assoc; [reflexivity|exact Hnd].
Qed.

(** [dict(items)] keeps a list of items with distinct keys as it is. *)
Lemma dict_of_items_nodup {V : Type} (items : list (string * V)) :
  NoDup (map fst items) -> dict_of_items items = items.
Proof. intro H. unfold dict_of_items. now rewrite dict_of_items_from. Qed.

(** What [_should_json_dump_value] answers on a readable schema. *)
Lemma should_json_dump_value_spec (key : string) (value : json)
    (flatten_schema : option dict) :
  readable_schema flatten_schema = true ->
  _should_json_dump_value key value flatten_schema =
  Ok (is_dict_or_list value || declares_null_object_array flatten_schema key).
Proof.
  intro Hr. unfold _should_json_dump_value, declares_null_object_array.
  destruct (is_dict_or_list value); [reflexivity|]. cbn [orb].
  destruct flatten_schema as [fs|]; [|reflexivity].
  destruct fs as [|entry fs']; [reflexivity|].
  cbn [truthy].
  destruct (dict_get key (entry :: fs')) as [property|] eqn:Hget; [|reflexivity].
  pose proof (dict_get_forallb readable_property key _ property Hr Hget) as Hp.
  destruct property as [| | | | |property]; try discriminate Hp.
  cbn [readable_property] in Hp.
  cbn [py_in subscript_key]. unfold and_then, dict_has, dict_item.
  destruct (dict_get "type" property) as [ty|]; [|reflexivity].
  cbn [bind].
  destruct ty as [| | | |l|tkvs]; try discriminate Hp; cbn [set_is_null_object_array].
  - reflexivity.
  - rewrite Hp. reflexivity.
  - reflexivity.
Qed.

(** The loop of [flatten_record] when nothing is descended into and the
    keys are short: each value is serialized or kept, under its own key. *)
Lemma flatten_record_items_flat (self : record_flattener)
    (flatten_schema : option dict) (sep : string) (level max_level : Z) (d : dict) :
  (level <? max_level)%Z = false ->
  readable_schema flatten_schema = true ->
  Forall (fun kv => (String.length (fst kv) < 255)%nat) d ->
  flatten_record_items self flatten_schema [] sep level max_level d =
  Ok (map (fun kv =>
             (fst kv,
              if is_dict_or_list (snd kv) ||
                 declares_null_object_array flatten_schema (fst kv)
              then JStr (json_dumps (snd kv)) else snd kv)) d).
Proof.
  intros Hlevel Hr. induction 1 as [|[k v] d Hk Hd IH]; [reflexivity|].
  cbn [flatten_record_items flatten_record_item fst snd map].
  rewrite Hlevel, IH.
  rewrite (flatten_key_short k [] sep) by exact Hk.
  rewrite should_json_dump_value_spec by exact Hr.
  cbn [app py_join String.concat bind].
  destruct v; reflexivity.
Qed.

Lemma flatten_record_items_ext (self1 self2 : record_flattener)
    (flatten_schema : option dict) (parent_key : list string) (sep : string)
    (level max_level : Z) (d : dict) :
  ((level < max_level)%Z ->
   forall v pk, self1 v flatten_schema pk sep (level + 1)%Z max_level =
                self2 v flatten_schema pk sep (level + 1)%Z max_level) ->
  flatten_record_items self1 flatten_schema parent_key sep level max_level d =
  flatten_record_items self2 flatten_schema parent_key sep level max_level d.
Proof.
  intro Hself. induction d as [|[k v] d IH]; [reflexivity|].
  cbn [flatten_record_items]. rewrite IH. f_equal.
  unfold flatten_record_item.
  destruct v; try reflexivity.
  destruct (Z.ltb_spec level max_level) as [Hlt|_]; [|reflexivity].
  now apply Hself.
Qed.

(** [flatten_record] satisfies the recursive equation of the source. *)
Lemma flatten_record_unfold (d : dict) (flatten_schema : option dict)
    (parent_key : list string) (sep : string) (level max_level : Z) :
  flatten_record d flatten_schema parent_key sep level max_level =
  flatten_record_body flatten_record d flatten_schema parent_key sep level max_level.
Proof.
  unfold flatten_record at 1.
  destruct (Z.to_nat (max_level - level)) as [|n] eqn:En;
    cbn [flatten_record_depth]; unfold flatten_record_body;
    f_equal; apply flatten_record_items_ext; intros Hlt v pk.
  - lia.
  - unfold flatten_record. f_equal. lia.
Qed.

(** C8, as stated: a value would be serialized whenever the inferred type
    of its column is a structured one.  The column of a property of type
    object is a variant, yet a scalar under it is kept as it is: only
    the type set [{'null', 'object', 'array'}] makes a scalar serialized. *)
Lemma flatten_record_keeps_scalar_of_variant_column :
  column_type [("type", JArr [JStr "null"; JStr "object"])] = Ok "variant" /\
  flatten_record [("payload", JStr "x")]
    (Some [("payload", JObj [("type", JArr [JStr "null"; JStr "object"])])])
    [] "__" 0%Z 0%Z
  = Ok [("payload", JStr "x")] /\
  JStr "x" <> JStr (json_dumps (JStr "x")).
Proof. repeat split. discriminate. Qed.

(** C8, amended: where [flatten_record] does not descend (the level has
    reached [max_level]) and the keys of the record are its column names
    (distinct, shorter than 255 characters), a value is serialized to its
    JSON text exactly when it is a dict or a list, or when the flattened
    schema has an entry under the value's key whose declared type, read as
    a set, is exactly [{'null', 'object', 'array'}]; every other value is
    kept unchanged. *)
Theorem flatten_record_serializes_by_declared_type
    (d : dict) (flatten_schema : option dict) (sep : string) (level max_level : Z) :
  (max_level <= level)%Z ->
  readable_schema flatten_schema = true ->
  NoDup (map fst d) ->
  Forall (fun kv => (String.length (fst kv) < 255)%nat) d ->
  flatten_record d flatten_schema [] sep level max_level =
  Ok (map (fun kv =>
             (fst kv,
              if is_dict_or_list (snd kv) ||
                 declares_null_object_array flatten_schema (fst kv)
              then JStr (json_dumps (snd kv)) else snd kv)) d).
Proof.
  intros Hlevel Hr Hnd Hshort.
  unfold flatten_record.
  replace (Z.to_nat (max_level - level)) with 0%nat by lia.
  cbn [flatten_record_depth]. unfold flatten_record_body.
  rewrite flatten_record_items_flat; try assumption.
  - cbn [bind]. rewrite dict_of_items_nodup; [reflexivity|].
    rewrite map_map. cbn [fst]. exact Hnd.
  - apply Z.ltb_ge. exact Hlevel.
Qed.

(** A record with a scalar, a list and a scalar under a column declared
    as null, object or array. *)
Lemma flatten_record_serializes_by_declared_type_witness :
  flatten_record
    [("id", JNum 7); ("tags", JArr [JStr "a"]); ("extra", JStr "x")]
    (Some [("extra", JObj [("type", JArr [JStr "null"; JStr "object"; JStr "array"])]);
           ("id", JObj [("type", JArr [JStr "integer"])]);
           ("tags", JObj [("type", JArr [JStr "array"])])])
    [] "__" 0%Z 0%Z
  = Ok [("id", JNum 7);
        ("tags", JStr (json_dumps (JArr [JStr "a"])));
        ("extra", JStr (json_dumps (JStr "x")))].
Proof.
  apply (flatten_record_serializes_by_declared_type
           [("id", JNum 7); ("tags", JArr [JStr "a"]); ("extra", JStr "x")]
           (Some [("extra", JObj [("type", JArr [JStr "null"; JStr "object"; JStr "array"])]);
                  ("id", JObj [("type", JArr [JStr "integer"])]);
                  ("tags", JObj [("type", JArr [JStr "array"])])])
           "__" 0%Z 0%Z).
  - lia.
  - reflexivity.
  - repeat constructor; cbn; intuition discriminate.
  - repeat constructor; cbn; lia.
Defined.

(* ----------------------------------------------------------------- *)
(** ** Sorting by key and grouping *)

Lemma ascii_compare_N (a b : ascii) :
  Ascii.compare a b = N.compare (N_of_ascii a) (N_of_ascii b).
Proof. reflexivity. Qed.

Lemma string_compare_cons (a b : ascii) (s t : string) :
  String.compare (String a s) (String b t) =
  match Ascii.compare a b with
  | Eq => String.compare s t
  | other => other
  end.
Proof. reflexivity. Qed.

Lemma string_leb_trans (a b c : string) :
  String.leb a b = true -> String.leb b c = true -> String.leb a c = true.
Proof.
  unfold String.leb. revert b c.
  induction a as [|x a IH]; intros b c.
  { intros _ _. destruct c; reflexivity. }
  destruct b as [|y b]; [cbn; discriminate|].
  destruct c as [|z c]; [intros _; cbn; discriminate|].
  rewrite !string_compare_cons, !ascii_compare_N.
  destruct (N.compare_spec (N_of_ascii x) (N_of_ascii y)) as [Exy|Lxy|Gxy];
  destruct (N.compare_spec (N_of_ascii y) (N_of_ascii z)) as [Eyz|Lyz|Gyz];
    try discriminate; intros Hab Hbc.
  - rewrite Exy, Eyz, N.compare_refl. apply (IH b c Hab Hbc).
  - rewrite Exy. apply N.compare_lt_iff in Lyz. now rewrite Lyz.
  - rewrite <- Eyz. apply N.compare_lt_iff in Lxy. now rewrite Lxy.
  - assert (L : (N_of_ascii x < N_of_ascii z)%N) by lia.
    apply N.compare_lt_iff in L. now rewrite L.
Qed.

Lemma string_leb_antisym (a b : string) :
  String.leb a b = true -> String.leb b a = true -> a = b.
Proof.
  unfold String.leb. intros Hab Hba.
  apply String.compare_eq_iff.
  rewrite String.compare_antisym in Hba.
  destruct (String.compare a b); cbn in *; congruence.
Qed.

Lemma insert_item_perm (x : item) (l : list item) :
  Permutation (insert_item x l) (x :: l).
Proof.
  induction l as [|y l IH]; cbn [insert_item]; [reflexivity|].
  destruct (String.leb (fst x) (fst y)); [reflexivity|].
  rewrite IH. apply perm_swap.
Qed.

Lemma sorted_by_key_perm (l : list item) : Permutation (sorted_by_key l) l.
Proof.
  induction l as [|x l IH]; cbn; [reflexivity|].
  rewrite insert_item_perm. now constructor.
Qed.

Lemma insert_item_sorted (x : item) (l : list item) :
  StronglySorted key_le l -> StronglySorted key_le (insert_item x l).
Proof.
  induction 1 as [|y l Hl IH Hy]; cbn [insert_item].
  - constructor; constructor.
  - destruct (String.leb (fst x) (fst y)) eqn:E.
    + constructor; [constructor; assumption|].
      constructor; [exact E|].
      eapply Forall_impl; [|exact Hy].
      intros z Hz. unfold key_le in *. eapply string_leb_trans; eassumption.
    + constructor; [exact IH|].
      rewrite insert_item_perm. constructor; [|exact Hy].
      unfold key_le.
      destruct (String.leb_total (fst x) (fst y)) as [H|H]; [congruence|exact H].
Qed.

Lemma sorted_by_key_sorted (l : list item) : StronglySorted key_le (sorted_by_key l).
Proof.
  induction l as [|x l IH]; cbn; [constructor|].
  now apply insert_item_sorted.
Qed.

(** The first group starts with the first item. *)
Lemma groupby_head (x : item) (l : list item) :
  exists g gs, groupby (x :: l) = (fst x, x :: g) :: gs.
Proof.
  cbn [groupby]. destruct (groupby l) as [|[k g] gs].
  - exists [], []. reflexivity.
  - destruct (String.eqb_spec (fst x) k) as [<-|_].
    + exists g, gs. reflexivity.
    + exists [], ((k, g) :: gs). reflexivity.
Qed.

(** An error of the check names a key that two items share. *)
Lemma check_groups_raise (l : list item) (e : exn) :
  check_groups (groupby l) = Raise e ->
  exists k, e = duplicate_column_error k /\
            (2 <= count_occ string_dec (map fst l) k)%nat.
Proof.
  induction l as [|x l IH]; [discriminate|].
  destruct l as [|y l'].
  - cbn. discriminate.
  - destruct (groupby_head y l') as (g & gs & Hg).
    cbn [groupby] in *. rewrite Hg in *.
    destruct (String.eqb_spec (fst x) (fst y)) as [E|NE].
    + cbn [check_groups List.length Nat.ltb Nat.leb].
      intro H. injection H as <-. exists (fst y). split; [reflexivity|].
      cbn [map count_occ]. rewrite E.
      destruct (string_dec (fst y) (fst y)); [lia|congruence].
    + cbn [check_groups List.length Nat.ltb Nat.leb].
      intro H. destruct (IH H) as (k & -> & Hk).
      exists k. split; [reflexivity|].
      change (map fst (x :: y :: l')) with (fst x :: map fst (y :: l')).
      cbn [count_occ]. destruct (string_dec (fst x) k); lia.
Qed.

(** On a sorted list the check passes only if no key occurs twice. *)
Lemma check_groups_ok (l : list item) :
  StronglySorted key_le l ->
  check_groups (groupby l) = Ok tt -> NoDup (map fst l).
Proof.
  induction 1 as [|x l Hl IH Hx]; [constructor|].
  destruct l as [|y l'].
  - intros _. cbn. constructor; [tauto|constructor].
  - destruct (groupby_head y l') as (g & gs & Hg).
    cbn [groupby] in *. rewrite Hg in *.
    destruct (String.eqb_spec (fst x) (fst y)) as [E|NE].
    + cbn [check_groups List.length Nat.ltb Nat.leb]. discriminate.
    + cbn [check_groups List.length Nat.ltb Nat.leb]. intro H.
      change (map fst (x :: y :: l')) with (fst x :: map fst (y :: l')).
      constructor; [|exact (IH H)].
      intro Hin. apply in_map_iff in Hin. destruct Hin as (z & Hz & Hzin).
      apply NE.
      assert (Hxy : key_le x y) by (inversion Hx; assumption).
      assert (Hyz : key_le y z).
      { destruct Hzin as [<-|Hzin].
        - unfold key_le. destruct (String.leb_total (fst y) (fst y)); assumption.
        - inversion Hl as [|? ? _ Hy]; subst.
          rewrite Forall_forall in Hy. now apply Hy. }
      unfold key_le in *. apply string_leb_antisym; [exact Hxy|].
      rewrite <- Hz. exact Hyz.
Qed.

Lemma count_occ_twice_not_nodup (l : list string) (k : string) :
  (2 <= count_occ string_dec l k)%nat -> ~ NoDup l.
Proof.
  intros H Hnd. rewrite (NoDup_count_occ string_dec) in Hnd.
  specialize (Hnd k). lia.
Qed.

(** The end of [flatten_schema]: sorting [items], checking the groups and
    building the dict. *)
Lemma sort_and_check (items : list item) :
  (~ NoDup (map fst items) ->
   exists k, check_groups (groupby (sorted_by_key items)) =
             Raise (duplicate_column_error k) /\
             (2 <= count_occ string_dec (map fst items) k)%nat) /\
  (NoDup (map fst items) ->
   check_groups (groupby (sorted_by_key items)) = Ok tt /\
   dict_of_items (sorted_by_key items) = sorted_by_key items).
Proof.
  pose proof (sorted_by_key_perm items) as Hperm.
  pose proof (sorted_by_key_sorted items) as Hsorted.
  assert (Hkeys : Permutation (map fst (sorted_by_key items)) (map fst items))
    by now apply Permutation_map.
  destruct (check_groups (groupby (sorted_by_key items))) as [[]|e] eqn:Hcheck.
  - pose proof (check_groups_ok _ Hsorted Hcheck) as Hnd.
    split.
    + intro Hdup. exfalso. apply Hdup.
      eapply Permutation_NoDup; eassumption.
    + intros _. split; [reflexivity|]. now apply dict_of_items_nodup.
  - destruct (check_groups_raise _ _ Hcheck) as (k & -> & Hk).
    rewrite (Permutation_count_occ string_dec) in Hkeys.
    rewrite Hkeys in Hk.
    split.
    + intros _. exists k. split; [reflexivity|exact Hk].
    + intro Hnd. exfalso. exact (count_occ_twice_not_nodup _ _ Hk Hnd).
Qed.

(* ----------------------------------------------------------------- *)
(** ** [flatten_schema] *)

(** The loop calls [self] only one level down, and only below [max_level]. *)
Lemma flatten_properties_ext (self1 self2 : flattener)
    (parent_key : list string) (sep : string) (level max_level : Z) (properties : dict) :
  ((level < max_level)%Z ->
   forall v pk, self1 v pk sep (level + 1)%Z max_level = self2 v pk sep (level + 1)%Z max_level) ->
  flatten_properties self1 parent_key sep level max_level properties =
  flatten_properties self2 parent_key sep level max_level properties.
Proof.
  intro Hself. induction properties as [|[k v] properties IH]; [reflexivity|].
  cbn [flatten_properties]. rewrite IH. f_equal.
  unfold flatten_property.
  destruct (as_dict "keys" v) as [v_dict|e]; [|reflexivity]. cbn [bind].
  destruct (dict_has "type" v_dict); [|reflexivity].
  destruct (dict_item "type" v_dict) as [ty|e]; [|reflexivity]. cbn [bind].
  unfold and_then.
  destruct (py_in "object" ty) as [[|]|e]; cbn [bind]; try reflexivity.
  destruct (dict_has "properties" v_dict); cbn [andb]; [|reflexivity].
  destruct (Z.ltb_spec level max_level) as [Hlt|_]; [|reflexivity].
  now apply Hself.
Qed.

(** [flatten_schema] satisfies the recursive equation of the source. *)
Lemma flatten_schema_unfold (d : dict) (parent_key : list string) (sep : string)
    (level max_level : Z) :
  flatten_schema d parent_key sep level max_level =
  flatten_schema_body flatten_schema d parent_key sep level max_level.
Proof.
  unfold flatten_schema at 1.
  destruct (Z.to_nat (max_level - level)) as [|n] eqn:En;
    cbn [flatten_schema_depth]; unfold flatten_schema_body;
    destruct (dict_get "properties" d) as [properties|]; try reflexivity;
    destruct (as_dict "items" properties) as [props|e]; try reflexivity;
    cbn [bind]; f_equal; apply flatten_properties_ext; intros Hlt v pk.
  - lia.
  - unfold flatten_schema. f_equal. lia.
Qed.

Lemma flattened_columns_unfold (d : dict) (parent_key : list string) (sep : string)
    (level max_level : Z) :
  flattened_columns d parent_key sep level max_level =
  flattened_columns_body flattened_columns d parent_key sep level max_level.
Proof.
  unfold flattened_columns at 1.
  destruct (Z.to_nat (max_level - level)) as [|n] eqn:En;
    cbn [flattened_columns_depth]; unfold flattened_columns_body;
    destruct (dict_get "properties" d) as [properties|]; try reflexivity;
    destruct (as_dict "items" properties) as [props|e]; try reflexivity;
    cbn [bind]; apply flatten_properties_ext; intros Hlt v pk.
  - lia.
  - unfold flattened_columns. f_equal. lia.
Qed.

Lemma bind_ok {A B : Type} (m : result A) (k : A -> result B) (b : B) :
  bind m k = Ok b -> exists a, m = Ok a /\ k a = Ok b.
Proof. destruct m as [a|e]; cbn; [eauto|discriminate]. Qed.

Lemma names_two_app_l (k : string) (l r : list item) :
  names_two k l -> names_two k (l ++ r)%list.
Proof. unfold names_two. rewrite map_app, count_occ_app. lia. Qed.

Lemma names_two_app_r (k : string) (l r : list item) :
  names_two k r -> names_two k (l ++ r)%list.
Proof. unfold names_two. rewrite map_app, count_occ_app. lia. Qed.

Lemma names_two_perm (k : string) (l l' : list item) :
  Permutation l l' -> names_two k l -> names_two k l'.
Proof.
  unfold names_two. intros Hp.
  apply (Permutation_map fst) in Hp.
  rewrite (Permutation_count_occ string_dec) in Hp. now rewrite Hp.
Qed.

Lemma flatten_agrees_collides (r : result dict) (columns : list item) :
  flatten_agrees r columns -> collides_or_collects r columns.
Proof.
  intros [Hdup Hnodup].
  destruct (ListDec.NoDup_dec string_dec (map fst columns)) as [Hnd|Hnd].
  - right. destruct (Hnodup Hnd) as (mapping & -> & Hperm & _). eauto.
  - left. exact (Hdup Hnd).
Qed.

(** The traversal collected the columns as they are. *)
Ltac collected := right; eexists; split; reflexivity.

Section Traversals.

(** Two traversals of the same schema: [self1] collects the columns,
    [self2] also checks each nested object for collisions. *)
Variables self1 self2 : flattener.
Variables (sep : string) (level max_level : Z).
Hypothesis selves :
  forall v pk columns,
    self1 v pk sep (level + 1)%Z max_level = Ok columns ->
    collides_or_collects (self2 v pk sep (level + 1)%Z max_level) columns.

Lemma flatten_property_rel (parent_key : list string) (kv : string * json)
    (columns : list item) :
  flatten_property self1 parent_key sep level max_level kv = Ok columns ->
  collides_or_collects (flatten_property self2 parent_key sep level max_level kv) columns.
Proof.
  destruct kv as [k v]. unfold flatten_property.
  destruct (as_dict "keys" v) as [v_dict|e]; [|discriminate]. cbn [bind].
  destruct (dict_has "type" v_dict).
  - destruct (dict_item "type" v_dict) as [ty|e]; [|discriminate]. cbn [bind].
    destruct (and_then _ _) as [[|]|e]; cbn [bind]; try discriminate.
    + apply selves.
    + intro H. rewrite H. collected.
  - intro H. rewrite H. collected.
Qed.

Lemma flatten_properties_rel (parent_key : list string) (properties : dict) :
  forall columns : list item,
    flatten_properties self1 parent_key sep level max_level properties = Ok columns ->
    collides_or_collects
      (flatten_properties self2 parent_key sep level max_level properties) columns.
Proof.
  induction properties as [|kv properties IH]; intros columns H.
  - injection H as <-. collected.
  - cbn [flatten_properties] in *.
    apply bind_ok in H. destruct H as (here & Hhere & H).
    apply bind_ok in H. destruct H as (rest & Hrest & H).
    injection H as <-.
    destruct (flatten_property_rel _ _ _ Hhere)
      as [(k & -> & Hk)|(here' & -> & Hperm)]; cbn [bind].
    + left. exists k. split; [reflexivity|now apply names_two_app_l].
    + destruct (IH _ Hrest) as [(k & -> & Hk)|(rest' & -> & Hperm')]; cbn [bind].
      * left. exists k. split; [reflexivity|now apply names_two_app_r].
      * right. exists (here' ++ rest')%list. split; [reflexivity|].
        now apply Permutation_app.
Qed.

Lemma flatten_schema_body_agrees (d : dict) (parent_key : list string)
    (columns : list item) :
  flattened_columns_body self1 d parent_key sep level max_level = Ok columns ->
  flatten_agrees (flatten_schema_body self2 d parent_key sep level max_level) columns.
Proof.
  unfold flattened_columns_body, flatten_schema_body.
  destruct (dict_get "properties" d) as [properties|].
  - destruct (as_dict "items" properties) as [props|e]; [|discriminate].
    cbn [bind]. intro H.
    destruct (flatten_properties_rel _ _ _ H)
      as [(k & -> & Hk)|(items & -> & Hperm)]; cbn [bind].
    + split.
      * intros _. eauto.
      * intro Hnd. exfalso. exact (count_occ_twice_not_nodup _ _ Hk Hnd).
    + destruct (sort_and_check items) as [Hdup Hnodup].
      assert (Hkeys : Permutation (map fst items) (map fst columns))
        by now apply Permutation_map.
      split.
      * intro Hnd.
        destruct Hdup as (k & -> & Hk).
        { intro Hnd'. apply Hnd. eapply Permutation_NoDup; eassumption. }
        cbn [bind]. exists k. split; [reflexivity|].
        now apply (names_two_perm k items).
      * intro Hnd.
        destruct Hnodup as [-> ->].
        { eapply Permutation_NoDup; [symmetry|]; eassumption. }
        cbn [bind]. exists (sorted_by_key items). split; [reflexivity|]. split.
        -- now rewrite sorted_by_key_perm.
        -- apply sorted_by_key_sorted.
  - intro H. injection H as <-. split.
    + intro Hnd. exfalso. apply Hnd. constructor.
    + intros _. exists []. repeat split; constructor.
Qed.

End Traversals.

Lemma flatten_schema_depth_agrees (depth : nat) :
  forall (d : dict) (parent_key : list string) (sep : string) (level max_level : Z)
         (columns : list item),
    flattened_columns_depth depth d parent_key sep level max_level = Ok columns ->
    flatten_agrees (flatten_schema_depth depth d parent_key sep level max_level) columns.
Proof.
  induction depth as [|depth IH]; intros d parent_key sep level max_level columns;
    cbn [flattened_columns_depth flatten_schema_depth];
    apply flatten_schema_body_agrees.
  - intros v pk cols H. injection H as <-. collected.
  - intros v pk cols H. apply flatten_agrees_collides. now apply IH.
Qed.

(** *** The traversal against the columns of the specification *)

Lemma schema_columns_cons (depth : nat) (parent_key : list string) (sep : string)
    (kv : string * json) (properties : dict) :
  schema_columns depth parent_key sep (kv :: properties) =
  (schema_columns depth parent_key sep [kv] ++
   schema_columns depth parent_key sep properties)%list.
Proof. destruct depth; cbn [schema_columns flat_map]; now rewrite app_nil_r. Qed.

Lemma well_formed_properties_cons (depth : nat) (kv : string * json) (properties : dict) :
  well_formed_properties depth (kv :: properties) =
  well_formed_properties depth [kv] && well_formed_properties depth properties.
Proof. destruct depth; cbn [well_formed_properties forallb]; now rewrite andb_true_r. Qed.

(** The branch of the loop for a descriptor without a type returns the
    column of the union when the union is well formed, and raises
    otherwise. *)
Lemma flatten_untyped_union (new_key : string) (descriptor : dict) :
  (well_formed_union descriptor = true ->
   flatten_untyped new_key descriptor = Ok (union_column new_key descriptor)) /\
  (well_formed_union descriptor = false ->
   exists e, flatten_untyped new_key descriptor = Raise e).
Proof.
  unfold flatten_untyped, well_formed_union, union_column, union_alternative.
  destruct descriptor as [|[k0 first_value] rest]; [split; [reflexivity|discriminate]|].
  destruct first_value as [| | |[|c s]|[|[| | | | |alternative] l]|kvs];
    cbn [subscript_zero subscript_key bind];
    try (split; [discriminate|intros _; eauto]).
  unfold dict_has, dict_item.
  destruct (dict_get "type" alternative) as [ty|]; cbn [bind];
    [|split; [discriminate|intros _; eauto]].
  split; [intros _|discriminate].
  destruct ty as [| | |t| |]; try reflexivity.
  cbn [json_is_str nullable_types existsb set_nullable_type].
  destruct (String.eqb_spec t "string") as [->|_]; [reflexivity|].
  destruct (String.eqb_spec t "array") as [->|_]; [reflexivity|].
  destruct (String.eqb_spec t "object") as [->|_]; reflexivity.
Qed.

Section AgainstTheSpecification.

Variable self : flattener.
Variables (depth : nat) (sep : string) (level max_level : Z).
Hypothesis below :
  (level <? max_level)%Z = match depth with O => false | S _ => true end.
Hypothesis nested_columns :
  forall depth' descriptor pk nested,
    depth = S depth' ->
    dict_get "properties" descriptor = Some nested ->
    match nested with
    | JObj nested =>
        (well_formed_properties depth' nested = true ->
         self descriptor pk sep (level + 1)%Z max_level =
         Ok (schema_columns depth' pk sep nested)) /\
        (well_formed_properties depth' nested = false ->
         exists e, self descriptor pk sep (level + 1)%Z max_level = Raise e)
    | _ => exists e, self descriptor pk sep (level + 1)%Z max_level = Raise e
    end.

Lemma flatten_property_columns (parent_key : list string) (kv : string * json) :
  (well_formed_properties depth [kv] = true ->
   flatten_property self parent_key sep level max_level kv =
   Ok (schema_columns depth parent_key sep [kv])) /\
  (well_formed_properties depth [kv] = false ->
   exists e, flatten_property self parent_key sep level max_level kv = Raise e).
Proof.
  destruct kv as [k v].
  assert (Hwf : well_formed_properties depth [(k, v)] =
                match v with
                | JObj descriptor =>
                    match dict_get "type" descriptor with
                    | Some ty =>
                        is_container ty &&
                        (if type_includes "object" ty && dict_has "properties" descriptor
                         then match depth with
                              | S depth' =>
                                  match dict_get "properties" descriptor with
                                  | Some (JObj nested) => well_formed_properties depth' nested
                                  | _ => false
                                  end
                              | O => true
                              end
                         else true)
                    | None => well_formed_union descriptor
                    end
                | _ => false
                end)
    by (destruct depth; cbn [well_formed_properties forallb snd];
        now rewrite andb_true_r).
  assert (Hcols : schema_columns depth parent_key sep [(k, v)] =
                  match v with
                  | JObj descriptor =>
                      match dict_get "type" descriptor with
                      | Some ty =>
                          match depth, dict_get "properties" descriptor with
                          | S depth', Some (JObj nested) =>
                              if type_includes "object" ty
                              then schema_columns depth' (parent_key ++ [k])%list sep nested
                              else [(flatten_key k parent_key sep, v)]
                          | _, _ => [(flatten_key k parent_key sep, v)]
                          end
                      | None => union_column (flatten_key k parent_key sep) descriptor
                      end
                  | _ => []
                  end)
    by (destruct depth; cbn [schema_columns flat_map snd fst];
        now rewrite app_nil_r).
  rewrite Hwf, Hcols. clear Hwf Hcols.
  unfold flatten_property.
  destruct v as [| | | | |descriptor]; cbn [as_dict bind];
    try (split; [discriminate|intros _; eauto]).
  unfold dict_has.
  destruct (dict_get "type" descriptor) as [ty|] eqn:Hty;
    [|apply flatten_untyped_union].
  unfold dict_item. rewrite Hty. cbn [bind]. unfold and_then.
  destruct (is_container ty) eqn:Hc; cbn [andb].
  - rewrite (py_in_container _ _ Hc). cbn [bind].
    destruct (type_includes "object" ty); cbn [andb bind].
    + destruct (dict_get "properties" descriptor) as [nested|] eqn:Hnested;
        cbn [andb bind]; rewrite ?below.
      * destruct depth as [|depth'] eqn:Hdepth; cbn [bind].
        -- split; [reflexivity|discriminate].
        -- pose proof (nested_columns depth' descriptor (parent_key ++ [k])%list nested
                         eq_refl Hnested) as Hself.
           destruct nested as [| | | | |nested_properties];
             try (split; [discriminate|intros _; exact Hself]).
           exact Hself.
      * destruct depth; split; try reflexivity; discriminate.
    + destruct depth as [|depth']; [split; [reflexivity|discriminate]|].
      destruct (dict_get "properties" descriptor) as [[| | | | |nested]|];
        split; try reflexivity; discriminate.
  - split; [discriminate|intros _].
    destruct ty; try discriminate Hc; cbn [py_in bind]; eauto.
Qed.

Lemma flatten_properties_columns (parent_key : list string) (properties : dict) :
  (well_formed_properties depth properties = true ->
   flatten_properties self parent_key sep level max_level properties =
   Ok (schema_columns depth parent_key sep properties)) /\
  (well_formed_properties depth properties = false ->
   exists e, flatten_properties self parent_key sep level max_level properties = Raise e).
Proof.
  induction properties as [|kv properties [IHok IHraise]].
  - split; [intros _; destruct depth; reflexivity|].
    destruct depth; discriminate.
  - rewrite well_formed_properties_cons, schema_columns_cons.
    cbn [flatten_properties].
    destruct (flatten_property_columns parent_key kv) as [Hok Hraise].
    destruct (well_formed_properties depth [kv]); cbn [andb].
    + rewrite (Hok eq_refl). cbn [bind]. split.
      * intro H. rewrite (IHok H). reflexivity.
      * intro H. destruct (IHraise H) as [e ->]. cbn [bind]. eauto.
    + split; [discriminate|intros _].
      destruct (Hraise eq_refl) as [e ->]. cbn [bind]. eauto.
Qed.

End AgainstTheSpecification.

Lemma below_the_limit (depth : nat) (level max_level : Z) :
  depth = Z.to_nat (max_level - level) ->
  (level <? max_level)%Z = match depth with O => false | S _ => true end.
Proof.
  intros ->. destruct (Z.ltb_spec level max_level) as [Hlt|Hge].
  - destruct (Z.to_nat (max_level - level)) eqn:E; [lia|reflexivity].
  - replace (Z.to_nat (max_level - level)) with 0%nat by lia. reflexivity.
Qed.

(** The traversal gives the columns of the specification on well-formed
    properties, and raises on the others. *)
Lemma flattened_columns_depth_spec (depth : nat) :
  forall (d : dict) (parent_key : list string) (sep : string) (level max_level : Z)
         (properties : dict),
    depth = Z.to_nat (max_level - level) ->
    dict_get "properties" d = Some (JObj properties) ->
    (well_formed_properties depth properties = true ->
     flattened_columns_depth depth d parent_key sep level max_level =
     Ok (schema_columns depth parent_key sep properties)) /\
    (well_formed_properties depth properties = false ->
     exists e, flattened_columns_depth depth d parent_key sep level max_level = Raise e).
Proof.
  induction depth as [|depth IH];
    intros d parent_key sep level max_level properties Hdepth Hproperties;
    cbn [flattened_columns_depth]; unfold flattened_columns_body;
    rewrite Hproperties; cbn [as_dict bind];
    apply flatten_properties_columns;
    try exact (below_the_limit _ _ _ Hdepth).
  - intros depth' descriptor pk nested H. discriminate H.
  - intros depth' descriptor pk nested H Hnested. injection H as <-.
    destruct nested as [| | | | |nested_properties];
      try solve [destruct depth; cbn [flattened_columns_depth];
                 unfold flattened_columns_body; rewrite Hnested; cbn [as_dict bind];
                 eauto].
    apply IH; [lia|exact Hnested].
Qed.

Section RaisingTraversals.

(** Where the traversal that collects the columns raises, so does the one
    that also checks the nested objects. *)
Variables self1 self2 : flattener.
Variables (sep : string) (level max_level : Z).
Hypothesis raises :
  forall v pk e,
    self1 v pk sep (level + 1)%Z max_level = Raise e ->
    exists e', self2 v pk sep (level + 1)%Z max_level = Raise e'.

Lemma flatten_property_raises (parent_key : list string) (kv : string * json) (e : exn) :
  flatten_property self1 parent_key sep level max_level kv = Raise e ->
  exists e', flatten_property self2 parent_key sep level max_level kv = Raise e'.
Proof.
  destruct kv as [k v]. unfold flatten_property.
  destruct (as_dict "keys" v) as [v_dict|e0]; cbn [bind]; [|eauto].
  destruct (dict_has "type" v_dict); [|eauto].
  destruct (dict_item "type" v_dict) as [ty|e0]; cbn [bind]; [|eauto].
  destruct (and_then _ _) as [[|]|e0]; cbn [bind]; eauto.
Qed.

Lemma flatten_properties_raises (parent_key : list string) (properties : dict) :
  forall e,
    flatten_properties self1 parent_key sep level max_level properties = Raise e ->
    exists e', flatten_properties self2 parent_key sep level max_level properties = Raise e'.
Proof.
  induction properties as [|kv properties IH]; intros e; cbn [flatten_properties];
    [discriminate|].
  destruct (flatten_property self1 parent_key sep level max_level kv) as [here|e0] eqn:Hhere;
    cbn [bind].
  - destruct (flatten_properties self1 parent_key sep level max_level properties)
      as [rest|e1]; cbn [bind]; [discriminate|].
    intros _. destruct (IH e1 eq_refl) as [e' He'].
    destruct (flatten_property self2 parent_key sep level max_level kv); cbn [bind];
      [rewrite He'; cbn [bind]|]; eauto.
  - intros _. destruct (flatten_property_raises _ _ _ Hhere) as [e' ->].
    cbn [bind]. eauto.
Qed.

Lemma flatten_schema_body_raises (d : dict) (parent_key : list string) (e : exn) :
  flattened_columns_body self1 d parent_key sep level max_level = Raise e ->
  exists e', flatten_schema_body self2 d parent_key sep level max_level = Raise e'.
Proof.
  unfold flattened_columns_body, flatten_schema_body.
  destruct (dict_get "properties" d) as [properties|]; [|discriminate].
  destruct (as_dict "items" properties) as [props|e0]; cbn [bind]; [|eauto].
  intro H. destruct (flatten_properties_raises _ _ _ H) as [e' ->].
  cbn [bind]. eauto.
Qed.

End RaisingTraversals.

Lemma flatten_schema_depth_raises (depth : nat) :
  forall (d : dict) (parent_key : list string) (sep : string) (level max_level : Z)
         (e : exn),
    flattened_columns_depth depth d parent_key sep level max_level = Raise e ->
    exists e', flatten_schema_depth depth d parent_key sep level max_level = Raise e'.
Proof.
  induction depth as [|depth IH]; intros d parent_key sep level max_level e;
    cbn [flattened_columns_depth flatten_schema_depth];
    apply flatten_schema_body_raises.
  - intros v pk e0 H. discriminate H.
  - intros v pk e0 H. exact (IH _ _ _ _ _ _ H).
Qed.

(** C1, as stated: a schema in which nothing collides would always give
    its mapping.  A schema with the single property [a], a reference and
    not a type or a list of alternatives, has nothing that could collide,
    yet [flatten_schema] raises, and the error is not the schema-conflict
    one: it is the [TypeError] of [list(v.values())[0][0]['type']]. *)
Lemma flatten_schema_raises_without_collision :
  flatten_schema [("properties", JObj [("a", JObj [("$ref", JStr "#/definitions/a")])])]
    [] "__" 0%Z 0%Z = Raise TypeError.
Proof. reflexivity. Qed.

(** C1, amended: for every schema, [flatten_schema] is decided by the
    columns of its properties ([schema_columns]: a leaf for each typed
    property, the columns of the nested properties for an object that is
    flattened, the first alternative made nullable for a union of string,
    array or object, and no column for any other union).
    - Without ['properties'] the mapping is empty.
    - With well-formed properties: if two of the columns have the same
      name, [flatten_schema] raises the duplicate-column error, and the
      key it names is the name of at least two columns; if no two have
      the same name, it returns a mapping that holds every one of the
      columns, sorted by name.
    - With properties that are not well formed it raises, and returns no
      mapping. *)
Theorem flatten_schema_raises_on_collision
    (d : dict) (parent_key : list string) (sep : string) (level max_level : Z) :
  match dict_get "properties" d with
  | None => flatten_schema d parent_key sep level max_level = Ok []
  | Some (JObj properties) =>
      let depth := Z.to_nat (max_level - level) in
      let columns := schema_columns depth parent_key sep properties in
      if well_formed_properties depth properties then
        (~ NoDup (map fst columns) ->
         exists k,
           flatten_schema d parent_key sep level max_level =
           Raise (ValueError ("Duplicate column name produced in schema: " ++ k)) /\
           (2 <= count_occ string_dec (map fst columns) k)%nat) /\
        (NoDup (map fst columns) ->
         exists mapping,
           flatten_schema d parent_key sep level max_level = Ok mapping /\
           Permutation mapping columns /\
           StronglySorted key_le mapping)
      else exists e, flatten_schema d parent_key sep level max_level = Raise e
  | Some _ =>
      flatten_schema d parent_key sep level max_level = Raise (AttributeError "items")
  end.
Proof.
  destruct (dict_get "properties" d) as [properties|] eqn:Hproperties.
  - destruct properties as [| | | | |properties];
      try (rewrite flatten_schema_unfold; unfold flatten_schema_body;
           rewrite Hproperties; reflexivity).
    cbv zeta.
    destruct (flattened_columns_depth_spec (Z.to_nat (max_level - level))
                d parent_key sep level max_level properties eq_refl Hproperties)
      as [Hok Hraise].
    destruct (well_formed_properties (Z.to_nat (max_level - level)) properties).
    + exact (flatten_schema_depth_agrees _ _ _ _ _ _ _ (Hok eq_refl)).
    + destruct (Hraise eq_refl) as [e He].
      exact (flatten_schema_depth_raises _ _ _ _ _ _ _ He).
  - rewrite flatten_schema_unfold. unfold flatten_schema_body.
    rewrite Hproperties. reflexivity.
Qed.

(** The colliding schema raises, naming [a__b]. *)
Lemma flatten_schema_raises_on_collision_witness :
  exists k,
    flatten_schema colliding_schema [] "__" 0%Z 1%Z =
    Raise (ValueError ("Duplicate column name produced in schema: " ++ k)) /\
    (2 <= count_occ string_dec (map fst colliding_columns) k)%nat.
Proof.
  apply (proj1 (flatten_schema_raises_on_collision colliding_schema [] "__" 0%Z 1%Z)).
  intro H. inversion H as [|x l Hin _]. apply Hin. left. reflexivity.
Defined.

(** A union whose first alternative is an integer gets no column, and no
    error: the property is left out of the mapping. *)
Example flatten_schema_leaves_out_a_union :
  flatten_schema
    [("properties",
      JObj [("a", JObj [("anyOf", JArr [JObj [("type", JStr "integer")];
                                        JObj [("type", JStr "null")]])]);
            ("b", JObj [("type", JArr [JStr "string"])])])]
    [] "__" 0%Z 0%Z
  = Ok [("b", JObj [("type", JArr [JStr "string"])])].
Proof. reflexivity. Qed.

(* ----------------------------------------------------------------- *)
(** ** [update_columns] *)

Section Reconciler.

Import DbSync.

Variable catalog : list string -> list column.
Variable strftime : nat -> string.

Lemma bindM_lift_ok {A B : Type} (a : A) (k : A -> M B) :
  bindM (lift (Ok a)) k = k a.
Proof. unfold bindM, lift. destruct (k a). reflexivity. Qed.

Lemma bindM_ret {A B : Type} (a : A) (k : A -> M B) :
  bindM (ret a) k = k a.
Proof. unfold bindM, ret. destruct (k a). reflexivity. Qed.

Lemma bindM_ok {A B : Type} (trace : list action) (a : A) (k : A -> M B) :
  bindM (trace, Ok a) k = ((trace ++ fst (k a))%list, snd (k a)).
Proof. unfold bindM. destruct (k a). reflexivity. Qed.

Lemma table_name_ok (self : t) (stream_name : string) (is_temporary without_schema : bool) :
  exists table, table_name self stream_name is_temporary without_schema = Ok table.
Proof.
  unfold table_name.
  destruct (stream_name =? ""); [eauto|].
  unfold stream_name_to_dict. cbn [py_split bind].
  destruct (List.length _ =? 2)%nat; destruct (2 <? List.length _)%nat;
    cbn [bind]; destruct without_schema; eauto.
Qed.

Lemma table_name_the_table (self : t) (without_schema : bool) :
  table_name self (stream self) false without_schema = Ok (the_table self without_schema).
Proof.
  unfold the_table.
  destruct (table_name_ok self (stream self) false without_schema) as [table ->].
  reflexivity.
Qed.

Lemma add_column_run (self : t) (column : string) :
  add_column self column (stream self) =
  ([Query (add_column_sql (the_table self false) column)], Ok tt).
Proof.
  unfold add_column. rewrite table_name_the_table, bindM_lift_ok. reflexivity.
Qed.

Lemma version_column_run (self : t) (n : nat) (column_name : string) :
  version_column strftime self n column_name (stream self) =
  ([Query (version_column_sql (the_table self false) column_name (strftime n))], Ok tt).
Proof.
  unfold version_column. rewrite table_name_the_table, bindM_lift_ok. reflexivity.
Qed.

(** The statements of the loop over [columns_to_add]. *)
Lemma add_columns_run (self : t) (columns : list string) :
  for_each (fun column => add_column self column (stream self)) columns =
  (map (fun column => Query (add_column_sql (the_table self false) column)) columns,
   Ok tt).
Proof.
  induction columns as [|column columns IH]; [reflexivity|].
  cbn [for_each map]. rewrite add_column_run, bindM_ok, IH. reflexivity.
Qed.

Lemma replace_columns_run (self : t) (pairs : list (string * string)) (n : nat) :
  replace_columns strftime self (stream self) n pairs = (replace_trace strftime self n pairs, Ok tt).
Proof.
  revert n. induction pairs as [|[column_name column] pairs IH]; intro n; [reflexivity|].
  cbn [replace_columns replace_trace].
  rewrite version_column_run, bindM_ok, add_column_run, bindM_ok, IH. reflexivity.
Qed.



(** A comprehension whose element expression never raises. *)
Lemma comprehension_total {A B : Type} (f : A -> result (option B)) (l : list A) :
  Forall (fun a => exists o, f a = Ok o) l ->
  exists bs, comprehension f l = Ok bs /\
    (forall b, In b bs <-> exists a, In a l /\ f a = Ok (Some b)) /\
    (forall a b, In a l -> f a = Ok (Some b) ->
                 exists before after', bs = (before ++ b :: after')%list).
Proof.
  induction 1 as [|a l [o Ho] Hl (bs & Hbs & Hin & Hsplit)].
  - exists []. split; [reflexivity|]. split.
    + intro b. split; [intros []|intros (a & [] & _)].
    + intros a b [].
  - cbn [comprehension]. rewrite Ho, Hbs. cbn [bind].
    eexists. split; [reflexivity|]. split.
    + intro b. split.
      * intro Hb. destruct o as [b'|].
        -- destruct Hb as [<-|Hb]; [exists a; split; [now left|exact Ho]|].
           apply Hin in Hb. destruct Hb as (a' & Ha' & Hf). exists a'. split; [now right|exact Hf].
        -- apply Hin in Hb. destruct Hb as (a' & Ha' & Hf). exists a'. split; [now right|exact Hf].
      * intros (a' & [<-|Ha'] & Hf).
        -- rewrite Ho in Hf. injection Hf as ->. now left.
        -- assert (Hb : In b bs) by (apply Hin; eauto).
           destruct o; [now right|exact Hb].
    + intros a' b [<-|Ha'] Hf.
      * rewrite Ho in Hf. injection Hf as ->. exists [], bs. reflexivity.
      * destruct (Hsplit a' b Ha' Hf) as (before & after' & ->).
        destruct o as [b'|].
        -- exists (b' :: before), after'. reflexivity.
        -- exists before, after'. reflexivity.
Qed.


Lemma column_type_values (schema_property : dict) (ty : string) :
  column_type schema_property = Ok ty -> In ty column_types.
Proof.
  unfold column_type, or_else, and_then.
  destruct (dict_item "type" schema_property) as [property_type|e]; [|discriminate].
  cbn [bind].
  destruct (py_in "object" property_type) as [[|]|e]; cbn [bind];
    try discriminate; [intro H; injection H as <-; cbn; auto|].
  destruct (py_in "array" property_type) as [[|]|e]; cbn [bind];
    try discriminate; [intro H; injection H as <-; cbn; auto|].
  repeat match goal with
         | |- context [if ?c then _ else _] => destruct c
         end; try (intro H; injection H as <-; cbn; tauto).
  destruct (py_in "number" property_type) as [[|]|e]; cbn [bind];
    try discriminate; [intro H; injection H as <-; cbn; tauto|].
  destruct (py_in "integer" property_type) as [[|]|e]; cbn [bind];
    try discriminate.
  - destruct (py_in "string" property_type) as [[|]|e]; cbn [bind];
      try discriminate; intro H; injection H as <-; cbn; tauto.
  - destruct (py_in "boolean" property_type) as [[|]|e]; cbn [bind];
      try discriminate; intro H; injection H as <-; cbn; tauto.
Qed.

(** Among the column types, upper case tells TIMESTAMP_NTZ apart. *)
Lemma upper_is_timestamp_ntz (ty : string) :
  In ty column_types -> (py_upper ty =? "TIMESTAMP_NTZ") = (ty =? "timestamp_ntz").
Proof.
  cbn [column_types In].
  intros [<-|[<-|[<-|[<-|[<-|[<-|[<-|[<-|[]]]]]]]]]; reflexivity.
Qed.

Lemma to_add_spec (columns_dict : list (string * column)) (name : string)
    (property : dict) (ty : string) :
  column_type property = Ok ty ->
  to_add columns_dict (name, property) =
  Ok (if dict_has (py_upper name) columns_dict then None
      else Some (safe_column_name name ++ " " ++ ty)).
Proof.
  intro Hty. unfold to_add, column_clause. rewrite Hty.
  destruct (dict_has (py_upper name) columns_dict); reflexivity.
Qed.

Lemma to_replace_spec (columns_dict : list (string * column)) (name : string)
    (property : dict) (ty : string) :
  column_type property = Ok ty ->
  to_replace columns_dict (name, property) =
  Ok (match dict_get (py_upper name) columns_dict with
      | None => None
      | Some live =>
          if negb (py_upper (DATA_TYPE live) =? py_upper ty) &&
             negb (ty =? "timestamp_ntz")
          then Some (safe_column_name name, safe_column_name name ++ " " ++ ty)
          else None
      end).
Proof.
  intro Hty. unfold to_replace, column_clause. rewrite Hty.
  destruct (dict_get (py_upper name) columns_dict) as [live|]; [|reflexivity].
  cbn [bind].
  rewrite (upper_is_timestamp_ntz ty (column_type_values _ _ Hty)).
  destruct (py_upper (DATA_TYPE live) =? py_upper ty); cbn [negb andb]; [reflexivity|].
  destruct (ty =? "timestamp_ntz"); reflexivity.
Qed.


End Reconciler.



Lemma str_map_app (f : ascii -> ascii) (a b : string) :
  str_map f (a ++ b) = str_map f a ++ str_map f b.
Proof. induction a as [|c a IH]; cbn; [reflexivity|now rewrite IH]. Qed.

Lemma safe_column_name_quoted (name : string) :
  safe_column_name name = String dquote (py_upper name ++ String dquote "").
Proof.
  unfold safe_column_name, py_upper. cbn [append str_map].
  rewrite str_map_app. reflexivity.
Qed.

Lemma str_filter_app (f : ascii -> bool) (a b : string) :
  str_filter f (a ++ b) = str_filter f a ++ str_filter f b.
Proof.
  induction a as [|c a IH]; cbn [append str_filter]; [reflexivity|].
  destruct (f c); cbn [append]; now rewrite IH.
Qed.

(** Replacing every occurrence of one character by nothing leaves the
    text without that character. *)
Lemma replace_char_is_filter (c : ascii) (s : string) :
  py_replace (String c "") "" s = without_char c s.
Proof.
  unfold py_replace, without_char. induction s as [|x s IH]; [reflexivity|].
  cbn [replace_from prefix String.length Nat.sub str_filter].
  destruct (ascii_dec c x) as [->|Hne].
  - rewrite prefix_nil, Ascii.eqb_refl. cbn [negb append]. exact IH.
  - assert (E : Ascii.eqb x c = false) by (apply Ascii.eqb_neq; congruence).
    rewrite E. cbn [negb]. now rewrite IH.
Qed.














(** The run of [update_columns] on that stream: the missing column is
    added, the changed one renamed and added again, the date-time one
    left alone, and the cache refreshed. *)
Example update_columns_orders :
  fst (DbSync.update_columns no_catalog noon orders_sync) =
  [ add_statement orders_sync "note" "text";
    rename_statement orders_sync "id" "20240102_1200";
    add_statement orders_sync "id" "number";
    DbSync.GetTableColumns ["sales"] ].
Proof. reflexivity. Qed.

(* ----------------------------------------------------------------- *)
(** ** Further properties *)

(** Two rejections, then an accepted submission, under the limit of 5. *)
Lemma submit_accepted_stops_witness :
  attempts (fst (DbSync.submit_loop (repeat false 2 ++ true :: [false; false])%list
                   (JNum 5) (DbSync._increment_value true))) = 3%nat /\
  snd (DbSync.submit_loop (repeat false 2 ++ true :: [false; false])%list
         (JNum 5) (DbSync._increment_value true)) = Some (Ok tt).
Proof.
  apply (submit_accepted_stops 2 5 [false; false] (DbSync._increment_value true)).
  left. reflexivity.
Defined.

(** X2: the waits between submissions are powers of two whose exponents are
    the Fibonacci numbers 1, 2, 3, 5, 8, ...: the exponent of the [n]-th
    wait is what the [n]-th polling wait adds to its 30 seconds. *)
Theorem submit_waits_are_powers_of_two (n : nat) :
  nth_wait true n = (2 ^ (nth_wait false n - 30))%Z /\
  (nth_wait false (S (S n)) - 30 =
   (nth_wait false (S n) - 30) + (nth_wait false n - 30))%Z.
Proof.
  rewrite !nth_wait_linear_mode.
  unfold nth_wait, DbSync.next. rewrite advance_exponentially. cbn [fst DbSync.exponentially DbSync._increment_value].
  destruct (advance_mode n) as [-> ->].
  destruct (advance_frame (S n) (DbSync._increment_value false)) as [Hp2 Hc2].
  destruct (advance_frame n (DbSync._increment_value false)) as [Hp1 Hc1].
  rewrite Hp2, Hc2, Hp1, Hc1.
  split; [f_equal; lia|lia].
Qed.

(** The stream [app-events] with one level of flattening: the schema
    flattens to the columns [id] (number) and [payload__x] (text), named
    ["ID"] and ["PAYLOAD__X"] in the warehouse, and the record to a value
    for each of them. *)
Example app_events_scenario :
  flatten_schema app_events_schema [] "__" 0%Z 1%Z =
  Ok [("id", JObj [("type", JArr [JStr "integer"])]);
      ("payload__x", JObj [("type", JArr [JStr "string"])])] /\
  column_type [("type", JArr [JStr "integer"])] = Ok "number" /\
  column_type [("type", JArr [JStr "string"])] = Ok "text" /\
  safe_column_name "id" = String dquote "ID" ++ String dquote "" /\
  safe_column_name "payload__x" = String dquote "PAYLOAD__X" ++ String dquote "" /\
  flatten_record app_events_record None [] "__" 0%Z 1%Z =
  Ok [("id", JNum 7); ("payload__x", JStr "a")].
Proof. repeat split. Qed.

(** Below the top level [flatten_record] looks the value's own key up in
    the flattened schema, not the name of its column: the entry of the
    column [a__b] is not consulted for the value under [a], [b], while an
    entry of a top-level column [b] is. *)
Example flatten_record_looks_up_the_raw_key :
  flatten_record [("a", JObj [("b", JNum 5)])]
    (Some [("a__b", JObj [("type", JArr [JStr "null"; JStr "object"; JStr "array"])])])
    [] "__" 0%Z 1%Z
  = Ok [("a__b", JNum 5)] /\
  flatten_record [("a", JObj [("b", JNum 5)])]
    (Some [("a__b", JObj [("type", JArr [JStr "integer"])]);
           ("b", JObj [("type", JArr [JStr "null"; JStr "object"; JStr "array"])])])
    [] "__" 0%Z 1%Z
  = Ok [("a__b", JStr "5")].
Proof. split; reflexivity. Qed.

(** [str.split] refuses an empty separator, and so does
    [stream_name_to_dict]. *)
Example stream_name_to_dict_empty_separator :
  stream_name_to_dict "sales-orders" "" = Raise (ValueError "empty separator").
Proof. reflexivity. Qed.

(* ================================================================= *)
(** * Part III. Further properties of the code *)
(* ================================================================= *)

(* ----------------------------------------------------------------- *)
(** ** The result of [flatten_schema] *)

Lemma dict_get_set_same {V : Type} (k : string) (v : V) (d : list (string * V)) :
  dict_get k (dict_set k v d) = Some v.
Proof.
  induction d as [|[k' v'] d IH]; cbn [dict_set dict_get].
  - now rewrite String.eqb_refl.
  - destruct (k' =? k) eqn:E; cbn [dict_get]; rewrite E; [reflexivity|exact IH].
Qed.

(** A descriptor whose type is a string, a list or a dict is accepted by
    the type mapper. *)
Lemma column_type_of_container (property : dict) (ty : json) :
  dict_get "type" property = Some ty -> is_container ty = true ->
  typed_column (JObj property).
Proof.
  intros Hget Hc.
  assert (Htype : exists t, column_type property = Ok t).
  { unfold column_type, or_else, and_then.
    rewrite (dict_item_get Hget). cbn [bind].
    rewrite !(py_in_container _ _ Hc). cbn [bind].
    repeat match goal with
           | |- context [if ?c then _ else _] => destruct c; cbn [bind]
           end; eauto. }
  assert (Htrans : exists t, column_trans property = Ok t).
  { unfold column_trans, or_else.
    rewrite (dict_item_get Hget). cbn [bind].
    rewrite !(py_in_container _ _ Hc). cbn [bind].
    repeat match goal with
           | |- context [if ?c then _ else _] => destruct c; cbn [bind]
           end; eauto. }
  destruct Htype as [t Ht]. destruct Htrans as [tr Htr].
  exists property, t, tr. repeat split; try assumption.
  exact (column_type_values _ _ Ht).
Qed.

Lemma set_nullable_type_typed (t : string) (kvs : dict) :
  typed_column (set_nullable_type t (JObj kvs)).
Proof.
  cbn [set_nullable_type].
  eapply column_type_of_container; [apply dict_get_set_same|reflexivity].
Qed.

Section TypedTraversal.

Variable self : flattener.
Hypothesis self_typed :
  forall v pk sep level max_level items,
    self v pk sep level max_level = Ok items ->
    Forall (fun kv : item => typed_column (snd kv)) items.

Lemma flatten_property_typed (parent_key : list string) (sep : string)
    (level max_level : Z) (kv : string * json) (items : list item) :
  flatten_property self parent_key sep level max_level kv = Ok items ->
  Forall (fun kv : item => typed_column (snd kv)) items.
Proof.
  destruct kv as [k v]. unfold flatten_property.
  destruct v as [| | | | |v_dict]; try discriminate.
  cbn [as_dict bind]. unfold dict_has, dict_item.
  destruct (dict_get "type" v_dict) as [ty|] eqn:Hty.
  - cbn [bind]. unfold and_then.
    destruct ty as [| | |s|l|kvs]; try discriminate;
      cbn [py_in bind];
      match goal with
      | |- context [if ?c then _ else _] => destruct c
      end;
      try match goal with
      | |- context [match dict_get "properties" v_dict with _ => _ end] =>
          destruct (dict_get "properties" v_dict)
      end; cbn [andb];
      try match goal with
      | |- context [(level <? max_level)%Z] => destruct (level <? max_level)%Z
      end; cbn [bind];
      try (intro H; exact (self_typed _ _ _ _ _ _ H));
      intro H; injection H as <-; constructor; try constructor; cbn [snd];
      (eapply column_type_of_container; [exact Hty|reflexivity]).
  - unfold flatten_untyped.
    destruct v_dict as [|[k0 first_value] rest];
      [intro H; injection H as <-; constructor|].
    destruct (subscript_zero first_value) as [first_alternative|e]; [|discriminate].
    cbn [bind].
    destruct first_alternative as [| | | | |kvs]; try discriminate.
    cbn [subscript_key].
    destruct (dict_item "type" kvs) as [ty|e]; [|discriminate].
    cbn [bind].
    repeat match goal with
           | |- context [if ?c then _ else _] => destruct c
           end;
      intro H; injection H as <-; repeat constructor; cbn [snd];
      apply set_nullable_type_typed.
Qed.

Lemma flatten_properties_typed (parent_key : list string) (sep : string)
    (level max_level : Z) (properties : dict) :
  forall items,
    flatten_properties self parent_key sep level max_level properties = Ok items ->
    Forall (fun kv : item => typed_column (snd kv)) items.
Proof.
  induction properties as [|kv properties IH]; intros items; cbn [flatten_properties].
  - intro H. injection H as <-. constructor.
  - intro H. apply bind_ok in H. destruct H as (here & Hhere & H).
    apply bind_ok in H. destruct H as (rest & Hrest & H). injection H as <-.
    apply Forall_app. split.
    + exact (flatten_property_typed _ _ _ _ _ _ Hhere).
    + exact (IH _ Hrest).
Qed.

(** What the body of [flatten_schema] returns: the columns sorted by
    name, no name twice, each accepted by the type mapper. *)
Lemma flatten_schema_body_layout (d : dict) (parent_key : list string) (sep : string)
    (level max_level : Z) (mapping : dict) :
  flatten_schema_body self d parent_key sep level max_level = Ok mapping ->
  NoDup (map fst mapping) /\ StronglySorted key_le mapping /\
  Forall (fun kv : item => typed_column (snd kv)) mapping.
Proof.
  unfold flatten_schema_body.
  destruct (dict_get "properties" d) as [properties|].
  - intro H. apply bind_ok in H. destruct H as (props & _ & H).
    apply bind_ok in H. destruct H as (items & Hitems & H).
    apply bind_ok in H. destruct H as ([] & Hcheck & H). injection H as <-.
    pose proof (check_groups_ok _ (sorted_by_key_sorted items) Hcheck) as Hnd.
    rewrite (dict_of_items_nodup _ Hnd).
    split; [exact Hnd|]. split; [apply sorted_by_key_sorted|].
    eapply Permutation_Forall.
    + apply Permutation_sym, sorted_by_key_perm.
    + exact (flatten_properties_typed _ _ _ _ _ _ Hitems).
  - intro H. injection H as <-. repeat constructor.
Qed.

End TypedTraversal.

Lemma flatten_schema_depth_layout (depth : nat) :
  forall (d : dict) (parent_key : list string) (sep : string) (level max_level : Z)
         (mapping : dict),
    flatten_schema_depth depth d parent_key sep level max_level = Ok mapping ->
    NoDup (map fst mapping) /\ StronglySorted key_le mapping /\
    Forall (fun kv : item => typed_column (snd kv)) mapping.
Proof.
  induction depth as [|depth IH]; intros d parent_key sep level max_level mapping;
    cbn [flatten_schema_depth]; apply flatten_schema_body_layout.
  - intros v pk s l m items H. injection H as <-. constructor.
  - intros v pk s l m items H. exact (proj2 (proj2 (IH _ _ _ _ _ _ H))).
Qed.

(** X3: whatever schema it is given, a mapping [flatten_schema] returns
    has its columns in the order of their names and no name twice. *)
Theorem flatten_schema_columns_are_sorted
    (d : dict) (parent_key : list string) (sep : string) (level max_level : Z)
    (mapping : dict) :
  flatten_schema d parent_key sep level max_level = Ok mapping ->
  NoDup (map fst mapping) /\ StronglySorted key_le mapping.
Proof.
  intro H. apply flatten_schema_depth_layout in H. tauto.
Qed.

Lemma flatten_schema_columns_are_sorted_witness :
  NoDup (map fst [("id", JObj [("type", JArr [JStr "integer"])]);
                  ("payload__x", JObj [("type", JArr [JStr "string"])])]) /\
  StronglySorted key_le [("id", JObj [("type", JArr [JStr "integer"])]);
                         ("payload__x", JObj [("type", JArr [JStr "string"])])].
Proof.
  apply (flatten_schema_columns_are_sorted app_events_schema [] "__" 0%Z 1%Z).
  reflexivity.
Defined.

(** X4: every column of a mapping [flatten_schema] returns is a
    descriptor the type mapper accepts: [column_type] gives it one of the
    eight column types and [column_trans] a transform, neither raises.
    A schema that flattens can always be turned into a table. *)
Theorem flatten_schema_columns_have_types
    (d : dict) (parent_key : list string) (sep : string) (level max_level : Z)
    (mapping : dict) :
  flatten_schema d parent_key sep level max_level = Ok mapping ->
  Forall (fun kv : item => typed_column (snd kv)) mapping.
Proof.
  intro H. apply flatten_schema_depth_layout in H. tauto.
Qed.

Lemma flatten_schema_columns_have_types_witness :
  Forall (fun kv : item => typed_column (snd kv))
         [("id", JObj [("type", JArr [JStr "integer"])]);
          ("payload__x", JObj [("type", JArr [JStr "string"])])].
Proof.
  apply (flatten_schema_columns_have_types app_events_schema [] "__" 0%Z 1%Z).
  reflexivity.
Defined.

(* ----------------------------------------------------------------- *)
(** ** The result of [flatten_record], and [record_to_csv_line] *)

Lemma dict_set_values {V : Type} (Q : V -> Prop) (k : string) (v : V)
    (d : list (string * V)) :
  Q v -> Forall (fun kv => Q (snd kv)) d ->
  Forall (fun kv => Q (snd kv)) (dict_set k v d).
Proof.
  intros Hv. induction 1 as [|[k' v'] d Hk Hd IH]; cbn [dict_set].
  - repeat constructor. exact Hv.
  - destruct (k' =? k); constructor; assumption.
Qed.

Lemma dict_of_items_values {V : Type} (Q : V -> Prop) (items : list (string * V)) :
  Forall (fun kv => Q (snd kv)) items ->
  Forall (fun kv => Q (snd kv)) (dict_of_items items).
Proof.
  unfold dict_of_items.
  assert (H : forall acc,
             Forall (fun kv => Q (snd kv)) acc ->
             Forall (fun kv => Q (snd kv)) items ->
             Forall (fun kv => Q (snd kv))
                    (fold_left (fun d kv => dict_set (fst kv) (snd kv) d) items acc)).
  { induction items as [|kv items IH]; intros acc Hacc Hitems; cbn [fold_left].
    - exact Hacc.
    - inversion Hitems as [|? ? Hkv Hrest]; subst.
      apply IH; [|exact Hrest]. now apply dict_set_values. }
  intro Hitems. apply H; [constructor|exact Hitems].
Qed.

Section ScalarTraversal.

Variable self : record_flattener.
Variable flatten_schema : option dict.
Hypothesis readable : readable_schema flatten_schema = true.
Hypothesis self_scalar :
  forall v pk sep level max_level,
  exists items, self v flatten_schema pk sep level max_level = Ok items /\
                Forall scalar_value items.

Lemma flatten_record_item_scalar (parent_key : list string) (sep : string)
    (level max_level : Z) (kv : string * json) :
  exists items,
    flatten_record_item self flatten_schema parent_key sep level max_level kv = Ok items /\
    Forall scalar_value items.
Proof.
  destruct kv as [k v]. unfold flatten_record_item.
  assert (Hleaf : exists items,
             (dump <- _should_json_dump_value k v flatten_schema ;;
              Ok [(flatten_key k parent_key sep,
                   if dump then JStr (json_dumps v) else v)]) = Ok items /\
             Forall scalar_value items).
  { rewrite (should_json_dump_value_spec k v flatten_schema readable). cbn [bind].
    eexists. split; [reflexivity|]. repeat constructor. unfold scalar_value. cbn [snd].
    destruct (is_dict_or_list v) eqn:E; cbn [orb]; [reflexivity|].
    destruct (declares_null_object_array flatten_schema k); [reflexivity|exact E]. }
  destruct v; try exact Hleaf.
  destruct (level <? max_level)%Z; [apply self_scalar|exact Hleaf].
Qed.

Lemma flatten_record_items_scalar (parent_key : list string) (sep : string)
    (level max_level : Z) (d : dict) :
  exists items,
    flatten_record_items self flatten_schema parent_key sep level max_level d = Ok items /\
    Forall scalar_value items.
Proof.
  induction d as [|kv d (rest & Hrest & Hscalar)]; cbn [flatten_record_items].
  - exists []. split; [reflexivity|constructor].
  - destruct (flatten_record_item_scalar parent_key sep level max_level kv)
      as (here & Hhere & Hh).
    rewrite Hhere, Hrest. cbn [bind]. eexists. split; [reflexivity|].
    apply Forall_app. split; assumption.
Qed.

Lemma flatten_record_body_scalar (d : dict) (parent_key : list string) (sep : string)
    (level max_level : Z) :
  exists flatten,
    flatten_record_body self d flatten_schema parent_key sep level max_level = Ok flatten /\
    Forall scalar_value flatten.
Proof.
  unfold flatten_record_body.
  destruct (flatten_record_items_scalar parent_key sep level max_level d)
    as (items & -> & Hitems).
  cbn [bind]. eexists. split; [reflexivity|].
  exact (dict_of_items_values (fun v => is_dict_or_list v = false) items Hitems).
Qed.

End ScalarTraversal.

Lemma flatten_record_depth_scalar (flatten_schema : option dict) (depth : nat) :
  readable_schema flatten_schema = true ->
  forall (d : dict) (parent_key : list string) (sep : string) (level max_level : Z),
  exists flatten,
    flatten_record_depth depth d flatten_schema parent_key sep level max_level = Ok flatten /\
    Forall scalar_value flatten.
Proof.
  intro Hr. induction depth as [|depth IH]; intros d parent_key sep level max_level;
    cbn [flatten_record_depth]; apply flatten_record_body_scalar; try exact Hr.
  - intros. exists []. split; [reflexivity|constructor].
  - intros. apply IH.
Qed.

(** X5: with a flattened schema whose declared types can be read as sets
    (or with no schema), [flatten_record] never raises, whatever the
    record, the parent key and the levels; and no value of the record it
    returns is a dict or a list: each has been descended into or
    serialized. *)
Theorem flatten_record_returns_scalars
    (d : dict) (flatten_schema : option dict) (parent_key : list string) (sep : string)
    (level max_level : Z) :
  readable_schema flatten_schema = true ->
  exists flatten,
    flatten_record d flatten_schema parent_key sep level max_level = Ok flatten /\
    Forall scalar_value flatten.
Proof.
  intro Hr. unfold flatten_record. now apply flatten_record_depth_scalar.
Qed.

Lemma flatten_record_returns_scalars_witness :
  exists flatten,
    flatten_record app_events_record None [] "__" 0%Z 1%Z = Ok flatten /\
    Forall scalar_value flatten.
Proof.
  apply (flatten_record_returns_scalars app_events_record None [] "__" 0%Z 1%Z).
  reflexivity.
Defined.

Lemma uint_to_string_nonempty (d : Decimal.uint) :
  d <> Decimal.Nil -> NilEmpty.string_of_uint d <> "".
Proof. destruct d; cbn; congruence. Qed.

Lemma Z_to_string_nonempty (z : Z) : Z_to_string z <> "".
Proof.
  unfold Z_to_string, NilZero.string_of_int.
  destruct (Z.to_int z) as [d|d]; [|cbn; discriminate].
  unfold NilZero.string_of_uint. destruct d; cbn; discriminate.
Qed.

Lemma json_dumps_unicode_nonempty (j : json) : json_dumps_unicode j <> "".
Proof.
  destruct j as [|[|]|n|s|l|kvs]; cbn [json_dumps_unicode]; try discriminate.
  apply Z_to_string_nonempty.
Qed.

Lemma dict_get_in {V : Type} (k : string) (d : list (string * V)) (v : V) :
  dict_get k d = Some v -> In (k, v) d.
Proof.
  induction d as [|[k' v'] d IH]; cbn [dict_get]; [discriminate|].
  destruct (String.eqb_spec k' k) as [->|_].
  - intro H. injection H as ->. now left.
  - intro H. right. now apply IH.
Qed.

(** The field of a column is empty exactly when the flattened record has
    nothing to load under the column's name. *)
Lemma csv_field_empty (flatten : dict) (name : string) :
  Forall scalar_value flatten ->
  DbSync.csv_field flatten name = "" <-> nothing_to_load name flatten.
Proof.
  intro Hscalar. unfold DbSync.csv_field, nothing_to_load.
  destruct (dict_get name flatten) as [value|] eqn:Hget; [|tauto].
  apply dict_get_in in Hget.
  rewrite Forall_forall in Hscalar. specialize (Hscalar _ Hget).
  unfold scalar_value in Hscalar. cbn [snd] in Hscalar.
  pose proof (json_dumps_unicode_nonempty value) as Hne.
  destruct value as [|[|]|n|s|l|kvs]; try discriminate Hscalar;
    cbn [equals_zero truthy orb negb] in *.
  - tauto.
  - split; [intro H; contradiction|intros [H|[H|H]]; discriminate].
  - split; [intro H; contradiction|intros [H|[H|H]]; discriminate].
  - assert (Hc : ((n =? 0)%Z || negb (n =? 0)%Z) = true) by (destruct (n =? 0)%Z; reflexivity).
    rewrite Hc. split; [intro H; contradiction|intros [H|[H|H]]; discriminate].
  - destruct (String.eqb_spec s "") as [->|Hs]; cbn [negb].
    + tauto.
    + split; [intro H; contradiction|].
      intros [H|[H|H]]; try discriminate. injection H as ->. contradiction.
Qed.

(** X6: with a flattened schema whose declared types can be read as sets,
    [record_to_csv_line] never raises: it returns one field per column of
    the schema, in the order of the schema, joined by commas; and the
    field of a column is empty exactly when the flattened record has no
    value under the column's name, or [None], or the empty string (a
    zero, a [False], an empty list are written). *)
Theorem record_to_csv_line_fields
    (self : DbSync.t) (data_flattening_max_level : Z) (record : dict) :
  readable_schema (Some (DbSync.schema_as_dict self)) = true ->
  exists flatten,
    flatten_record record (Some (DbSync.schema_as_dict self)) [] "__" 0%Z
      data_flattening_max_level = Ok flatten /\
    DbSync.record_to_csv_line self data_flattening_max_level record =
    Ok (py_join "," (map (fun entry => DbSync.csv_field flatten (fst entry))
                         (DbSync.flatten_schema self))) /\
    forall name, DbSync.csv_field flatten name = "" <-> nothing_to_load name flatten.
Proof.
  intro Hr.
  destruct (flatten_record_depth_scalar _ (Z.to_nat (data_flattening_max_level - 0)) Hr
              record [] "__" 0%Z data_flattening_max_level)
    as (flatten & Hflatten & Hscalar).
  exists flatten. split; [exact Hflatten|]. split.
  - unfold DbSync.record_to_csv_line, flatten_record. rewrite Hflatten. reflexivity.
  - intro name. now apply csv_field_empty.
Qed.

(* ----------------------------------------------------------------- *)
(** ** Names: columns, streams, tables, stage keys *)

Lemma str_app_inv_tail (a b c : string) : a ++ c = b ++ c -> a = b.
Proof.
  revert b. induction a as [|x a IH]; intros [|y b] H; cbn [append] in H.
  - reflexivity.
  - exfalso. apply (f_equal String.length) in H. cbn [String.length] in H.
    rewrite str_length_app in H. lia.
  - exfalso. apply (f_equal String.length) in H. cbn [String.length] in H.
    rewrite str_length_app in H. lia.
  - injection H as -> H. f_equal. now apply IH.
Qed.

(** X7: the name of a column in the warehouse ignores the case of the
    name in the schema: two names give the same column name exactly when
    they are equal in upper case. *)
Theorem safe_column_name_ignores_case (a b : string) :
  safe_column_name a = safe_column_name b <-> py_upper a = py_upper b.
Proof.
  rewrite !safe_column_name_quoted. split.
  - intro H. injection H as H. now apply str_app_inv_tail in H.
  - intros ->. reflexivity.
Qed.

Lemma prefix_empty_hay (sep : string) : sep <> "" -> prefix sep "" = false.
Proof. destruct sep; [congruence|reflexivity]. Qed.

Lemma split_without_separator (sep : string) :
  sep <> "" ->
  forall s cur, py_contains sep s = false -> split_from sep 0 cur s = [cur ++ s].
Proof.
  intro Hsep. induction s as [|c s IH]; intros cur H.
  - cbn. now rewrite str_app_nil_r.
  - destruct (py_contains_false _ _ _ H) as [Hp Hc].
    cbn [split_from]. rewrite Hp, IH by exact Hc.
    now rewrite str_app_assoc.
Qed.

Lemma split_with_separator (sep : string) :
  sep <> "" ->
  forall s cur, py_contains sep s = true ->
                (2 <= List.length (split_from sep 0 cur s))%nat.
Proof.
  intro Hsep. induction s as [|c s IH]; intros cur H.
  - cbn [py_contains] in H. rewrite (prefix_empty_hay sep Hsep) in H. discriminate.
  - cbn [split_from]. cbn [py_contains] in H.
    destruct (prefix sep (String c s)) eqn:Hp.
    + cbn [List.length].
      pose proof (split_from_nonempty sep (String.length sep - 1) "" s) as Hne.
      destruct (split_from sep (String.length sep - 1) "" s); [congruence|cbn; lia].
    + cbn [orb] in H. now apply IH.
Qed.

(** X8: a stream name in which the separator does not occur is a table
    name without schema or catalog, and only such a name is: as soon as
    the separator occurs, [stream_name_to_dict] gives a schema. *)
Theorem stream_name_to_dict_without_separator (stream_name separator : string) :
  separator <> "" ->
  py_contains separator stream_name = false <->
  stream_name_to_dict stream_name separator =
  Ok {| catalog_name := None; schema_name := None; table_name := stream_name |}.
Proof.
  intro Hsep. unfold stream_name_to_dict, py_split.
  destruct separator as [|c sep']; [congruence|]. cbn [bind].
  destruct (py_contains (String c sep') stream_name) eqn:Hc.
  - pose proof (split_with_separator _ Hsep stream_name "" Hc) as Hlen.
    split; [discriminate|].
    destruct (split_from (String c sep') 0 "" stream_name) as [|a [|b [|x rest]]];
      cbn in Hlen; try lia; cbn; discriminate.
  - rewrite (split_without_separator _ Hsep stream_name "" Hc). cbn.
    split; reflexivity.
Qed.

Lemma stream_name_to_dict_without_separator_witness :
  py_contains "-" "orders" = false <->
  stream_name_to_dict "orders" "-" =
  Ok {| catalog_name := None; schema_name := None; table_name := "orders" |}.
Proof.
  apply (stream_name_to_dict_without_separator "orders" "-"). discriminate.
Defined.

Lemma has_char_app (c : ascii) (a b : string) :
  has_char c (a ++ b) = has_char c a || has_char c b.
Proof.
  induction a as [|x a IH]; cbn [append has_char]; [reflexivity|].
  rewrite IH. now rewrite orb_assoc.
Qed.

Lemma has_char_str_map (f : ascii -> ascii) (c : ascii) (s : string) :
  (forall x, Ascii.eqb (f x) c = Ascii.eqb x c) ->
  has_char c (str_map f s) = has_char c s.
Proof.
  intro Hf. induction s as [|x s IH]; cbn [str_map has_char]; [reflexivity|].
  now rewrite Hf, IH.
Qed.

(** Replacing leaves a character out that neither the text nor the
    replacement has. *)
Lemma replace_from_keeps_free (c : ascii) (old new : string) :
  has_char c new = false ->
  forall s skip, has_char c s = false ->
                 has_char c (replace_from old new skip s) = false.
Proof.
  intro Hnew. induction s as [|x s IH]; intros skip Hs; [reflexivity|].
  cbn [has_char] in Hs. apply orb_false_iff in Hs. destruct Hs as [Hx Hs].
  cbn [replace_from]. destruct skip as [|k]; [|now apply IH].
  destruct (prefix old (String x s)).
  - rewrite has_char_app, Hnew. now apply IH.
  - cbn [has_char]. rewrite Hx. now apply IH.
Qed.

(** Replacing every occurrence of one character removes it. *)
Lemma replace_char_removes (c : ascii) (new : string) (s : string) :
  has_char c new = false ->
  has_char c (py_replace (String c "") new s) = false.
Proof.
  intro Hnew. unfold py_replace. induction s as [|x s IH]; [reflexivity|].
  cbn [replace_from prefix String.length Nat.sub].
  destruct (ascii_dec c x) as [->|Hne].
  - rewrite prefix_nil, has_char_app, Hnew. exact IH.
  - cbn [has_char]. rewrite IH, orb_false_r.
    apply Ascii.eqb_neq. congruence.
Qed.

Lemma upper_char_dot (x : ascii) : Ascii.eqb (upper_char x) "."%char = Ascii.eqb x "."%char.
Proof. destruct x as [[] [] [] [] [] [] [] []]; reflexivity. Qed.
Lemma upper_char_dash (x : ascii) : Ascii.eqb (upper_char x) "-"%char = Ascii.eqb x "-"%char.
Proof. destruct x as [[] [] [] [] [] [] [] []]; reflexivity. Qed.
Lemma lower_char_dot (x : ascii) : Ascii.eqb (lower_char x) "."%char = Ascii.eqb x "."%char.
Proof. destruct x as [[] [] [] [] [] [] [] []]; reflexivity. Qed.
Lemma lower_char_dash (x : ascii) : Ascii.eqb (lower_char x) "-"%char = Ascii.eqb x "-"%char.
Proof. destruct x as [[] [] [] [] [] [] [] []]; reflexivity. Qed.
Lemma lower_char_quote (x : ascii) : Ascii.eqb (lower_char x) dquote = Ascii.eqb x dquote.
Proof. destruct x as [[] [] [] [] [] [] [] []]; reflexivity. Qed.

Lemma upper_char_idempotent (x : ascii) : upper_char (upper_char x) = upper_char x.
Proof. destruct x as [[] [] [] [] [] [] [] []]; reflexivity. Qed.
Lemma lower_char_idempotent (x : ascii) : lower_char (lower_char x) = lower_char x.
Proof. destruct x as [[] [] [] [] [] [] [] []]; reflexivity. Qed.

Lemma py_upper_idempotent (s : string) : py_upper (py_upper s) = py_upper s.
Proof.
  unfold py_upper. induction s as [|x s IH]; cbn [str_map]; [reflexivity|].
  now rewrite upper_char_idempotent, IH.
Qed.

Lemma py_lower_idempotent (s : string) : py_lower (py_lower s) = py_lower s.
Proof.
  unfold py_lower. induction s as [|x s IH]; cbn [str_map]; [reflexivity|].
  now rewrite lower_char_idempotent, IH.
Qed.

Lemma stream_name_to_dict_total (stream_name separator : string) :
  separator <> "" ->
  exists stream_dict, stream_name_to_dict stream_name separator = Ok stream_dict.
Proof.
  intro Hsep. unfold stream_name_to_dict, py_split.
  destruct separator; [congruence|]. cbn [bind].
  destruct (List.length _ =? 2)%nat; destruct (2 <? List.length _)%nat; eauto.
Qed.

(** The name between the quotes: upper case, no dot, no dash. *)
Lemma identifier_shape (table : string) :
  has_char "." (py_upper (py_lower (py_replace "-" "_" (py_replace "." "_" table)))) = false /\
  has_char "-" (py_upper (py_lower (py_replace "-" "_" (py_replace "." "_" table)))) = false /\
  py_upper (py_upper (py_lower (py_replace "-" "_" (py_replace "." "_" table)))) =
  py_upper (py_lower (py_replace "-" "_" (py_replace "." "_" table))).
Proof.
  split; [|split].
  - unfold py_upper, py_lower.
    rewrite (has_char_str_map _ _ _ upper_char_dot).
    rewrite (has_char_str_map _ _ _ lower_char_dot).
    apply replace_from_keeps_free; [reflexivity|].
    now apply replace_char_removes.
  - unfold py_upper, py_lower.
    rewrite (has_char_str_map _ _ _ upper_char_dash).
    rewrite (has_char_str_map _ _ _ lower_char_dash).
    now apply replace_char_removes.
  - apply py_upper_idempotent.
Qed.

(** The table of a stream, with its schema. *)
Lemma table_name_of_stream (self : DbSync.t) (stream_name : string) :
  stream_name <> "" ->
  exists name,
    DbSync.table_name self stream_name false false =
    Ok (Some (DbSync.schema_name self ++ "." ++
              String dquote name ++ String dquote "")) /\
    has_char "." name = false /\ has_char "-" name = false /\
    py_upper name = name.
Proof.
  intro Hne. unfold DbSync.table_name.
  apply String.eqb_neq in Hne. rewrite Hne.
  destruct (stream_name_to_dict_total stream_name "-") as [stream_dict ->];
    [discriminate|].
  cbn [bind]. eexists. split; [reflexivity|]. apply identifier_shape.
Qed.

(** X9: the table of a stream is always a quoted identifier: for a
    non-empty stream name [table_name] returns the configured schema (if
    asked for), a dot, and between double quotes a name in upper case
    that has no dot and no dash, followed by [_TEMP] for the temporary
    table.  For an empty stream name it returns [None]. *)
Theorem table_name_is_a_quoted_identifier
    (self : DbSync.t) (stream_name : string) (is_temporary without_schema : bool) :
  (stream_name = "" ->
   DbSync.table_name self stream_name is_temporary without_schema = Ok None) /\
  (stream_name <> "" ->
   exists name,
     DbSync.table_name self stream_name is_temporary without_schema =
     Ok (Some ((if without_schema then "" else DbSync.schema_name self ++ ".") ++
               String dquote (name ++ (if is_temporary then "_TEMP" else "")) ++
               String dquote "")) /\
     has_char "." name = false /\ has_char "-" name = false /\
     py_upper name = name).
Proof.
  unfold DbSync.table_name. split.
  - intros ->. reflexivity.
  - intro Hne. apply String.eqb_neq in Hne. rewrite Hne.
    destruct (stream_name_to_dict_total stream_name "-") as [stream_dict ->];
      [discriminate|].
    cbn [bind].
    exists (py_upper (py_lower (py_replace "-" "_"
                                  (py_replace "." "_" (table_name stream_dict))))).
    split; [|apply identifier_shape].
    destruct is_temporary, without_schema; cbn [append];
      unfold py_upper; rewrite ?str_map_app, ?str_app_assoc, ?str_app_nil_r;
      reflexivity.
Qed.

Lemma table_name_is_a_quoted_identifier_witness :
  exists name,
    DbSync.table_name orders_sync "sales-orders" true false =
    Ok (Some ((DbSync.schema_name orders_sync ++ ".") ++
              String dquote (name ++ "_TEMP") ++ String dquote "")) /\
    has_char "." name = false /\ has_char "-" name = false /\
    py_upper name = name.
Proof.
  apply (proj2 (table_name_is_a_quoted_identifier orders_sync "sales-orders" true false)).
  discriminate.
Defined.

Lemma replace_char_app (c : ascii) (new a b : string) :
  py_replace (String c "") new (a ++ b) =
  py_replace (String c "") new a ++ py_replace (String c "") new b.
Proof.
  unfold py_replace. induction a as [|x a IH]; [reflexivity|].
  cbn [append replace_from prefix String.length Nat.sub].
  destruct (ascii_dec c x) as [->|Hne].
  - rewrite !prefix_nil, IH. now rewrite str_app_assoc.
  - rewrite IH. reflexivity.
Qed.

Lemma replace_char_absent (c : ascii) (new s : string) :
  has_char c s = false -> py_replace (String c "") new s = s.
Proof.
  unfold py_replace. induction s as [|x s IH]; [reflexivity|].
  cbn [has_char replace_from prefix String.length Nat.sub].
  intro H. apply orb_false_iff in H. destruct H as [Hx Hs].
  destruct (ascii_dec c x) as [->|Hne].
  - rewrite Ascii.eqb_refl in Hx. discriminate.
  - now rewrite IH.
Qed.

Lemma has_char_filter (c : ascii) (f : ascii -> bool) (s : string) :
  has_char c s = false -> has_char c (str_filter f s) = false.
Proof.
  induction s as [|x s IH]; cbn [has_char str_filter]; [reflexivity|].
  intro H. apply orb_false_iff in H. destruct H as [Hx Hs].
  destruct (f x); cbn [has_char]; rewrite ?Hx; now apply IH.
Qed.

(** The table of a stream as the key prefix has it: lower case, no
    quotes, the dot between schema and table doubled into underscores. *)
Lemma table_key (schema name : string) :
  has_char "." name = false ->
  py_replace "." "__"
    (py_replace (String dquote "") "" (py_lower (schema ++ "." ++ quoted name))) =
  py_replace "." "__" (without_char dquote (py_lower schema)) ++ "__" ++
  without_char dquote (py_lower name).
Proof.
  intro Hdot. rewrite replace_char_is_filter.
  assert (Hlower : py_lower (schema ++ "." ++ quoted name) =
                   py_lower schema ++ "." ++ quoted (py_lower name)).
  { unfold py_lower, quoted. rewrite str_map_app. cbn [append str_map].
    rewrite str_map_app. reflexivity. }
  rewrite Hlower. unfold without_char at 1. rewrite str_filter_app.
  fold (without_char dquote (py_lower schema)).
  assert (Hquoted : str_filter (fun x => negb (Ascii.eqb x dquote))
                      ("." ++ quoted (py_lower name)) =
                    "." ++ without_char dquote (py_lower name)).
  { unfold quoted, without_char. cbn [append str_filter].
    change (Ascii.eqb "." dquote) with false. rewrite Ascii.eqb_refl. cbn [negb].
    rewrite str_filter_app. cbn [str_filter]. rewrite Ascii.eqb_refl. cbn [negb].
    now rewrite str_app_nil_r. }
  rewrite Hquoted, !replace_char_app.
  change (py_replace "." "__" ".") with "__".
  rewrite (replace_char_absent "." "__" (without_char dquote (py_lower name))).
  - reflexivity.
  - apply has_char_filter. unfold py_lower.
    now rewrite (has_char_str_map _ _ _ lower_char_dot).
Qed.

Lemma key_of_parts (prefix table : string) (use_snowpipe : bool) :
  py_join ""
    (if use_snowpipe
     then [(prefix ++ "/")%string; (table ++ "/")%string]
     else [(prefix ++ "/")%string]) =
  prefix ++ "/" ++ (if use_snowpipe then table ++ "/" else "").
Proof.
  destruct use_snowpipe; cbn [py_join String.concat append];
    rewrite ?str_app_assoc; reflexivity.
Qed.

(** X10: the key prefix of a staged file.  [_generate_s3_key_prefix]
    returns exactly when the configured ['s3_key_prefix'] is a string (or
    absent) and the stream name is not empty; an empty stream name raises
    even when the table is not used.  What it returns is the configured
    prefix (empty when absent) without its slashes, closed by one slash;
    for the managed ingestion there follow the target schema in lower
    case, without quotes and with its dots doubled into underscores, two
    underscores, the name [table_name] puts between quotes for the
    stream, in lower case and without quotes, and a closing slash. *)
Theorem s3_key_prefix_is_one_segment
    (connection_config : dict) (self : DbSync.t) (stream : string) (use_snowpipe : bool) :
  (forall key,
      DbSync._generate_s3_key_prefix connection_config self stream use_snowpipe = Ok key ->
      exists prefix name,
        (dict_get "s3_key_prefix" connection_config = Some (JStr prefix) \/
         dict_get "s3_key_prefix" connection_config = None /\ prefix = "") /\
        DbSync.table_name self stream false false =
        Ok (Some (DbSync.schema_name self ++ "." ++ quoted name)) /\
        has_char "." name = false /\
        key = without_char "/" prefix ++ "/" ++
              (if use_snowpipe
               then py_replace "." "__"
                      (without_char dquote (py_lower (DbSync.schema_name self))) ++
                    "__" ++ without_char dquote (py_lower name) ++ "/"
               else "")) /\
  ((exists key,
       DbSync._generate_s3_key_prefix connection_config self stream use_snowpipe = Ok key) <->
   (dict_get "s3_key_prefix" connection_config = None \/
    exists s, dict_get "s3_key_prefix" connection_config = Some (JStr s)) /\
   stream <> "").
Proof.
  unfold DbSync._generate_s3_key_prefix, DbSync.s3_key_prefix_of.
  assert (Hempty : stream = "" -> DbSync.table_name self stream false false = Ok None)
    by (intros ->; reflexivity).
  pose proof (table_name_of_stream self stream) as Hname.
  destruct (dict_get "s3_key_prefix" connection_config) as [[| | |s| |]|]; cbn [bind];
    try (split; [discriminate|];
         split; [intros [key H]; discriminate|];
         intros [[H|[s H]] _]; discriminate).
  - destruct (String.eqb_spec stream "") as [E|NE].
    + rewrite (Hempty E). cbn [bind]. split; [discriminate|].
      split; [intros [key H]; discriminate|tauto].
    + destruct (Hname NE) as (name & Htable & Hdot & _). rewrite Htable. cbn [bind].
      split.
      * intros key H. injection H as <-. exists s, name.
        split; [left; reflexivity|]. split; [reflexivity|]. split; [exact Hdot|].
        cbv zeta. cbn [app].
        change (String "." (String dquote (name ++ String dquote "")))
          with ("." ++ quoted name).
        rewrite key_of_parts, (table_key (DbSync.schema_name self) name Hdot).
        rewrite replace_char_is_filter, !str_app_assoc. reflexivity.
      * split; [intros _; split; [right; eauto|exact NE]|intros _; eauto].
  - destruct (String.eqb_spec stream "") as [E|NE].
    + rewrite (Hempty E). cbn [bind]. split; [discriminate|].
      split; [intros [key H]; discriminate|tauto].
    + destruct (Hname NE) as (name & Htable & Hdot & _). rewrite Htable. cbn [bind].
      split.
      * intros key H. injection H as <-. exists "", name.
        split; [right; split; reflexivity|]. split; [reflexivity|]. split; [exact Hdot|].
        cbv zeta. cbn [app].
        change (String "." (String dquote (name ++ String dquote "")))
          with ("." ++ quoted name).
        rewrite (table_key (DbSync.schema_name self) name Hdot).
        destruct use_snowpipe; cbn [py_join String.concat without_char str_filter append];
          rewrite ?str_app_assoc; reflexivity.
      * split; [intros _; split; [left; reflexivity|exact NE]|intros _; eauto].
Qed.

(** *** Sample runs *)

Lemma record_to_csv_line_fields_witness :
  exists flatten,
    flatten_record [("id", JNum 0); ("note", JStr "")]
      (Some (DbSync.schema_as_dict orders_sync)) [] "__" 0%Z 0%Z = Ok flatten /\
    DbSync.record_to_csv_line orders_sync 0%Z [("id", JNum 0); ("note", JStr "")] =
    Ok (py_join "," (map (fun entry => DbSync.csv_field flatten (fst entry))
                         (DbSync.flatten_schema orders_sync))) /\
    forall name, DbSync.csv_field flatten name = "" <-> nothing_to_load name flatten.
Proof.
  apply (record_to_csv_line_fields orders_sync 0%Z [("id", JNum 0); ("note", JStr "")]).
  reflexivity.
Defined.

(* ----------------------------------------------------------------- *)
(** ** The type mapper and the configuration *)

(** X11: [column_type] and [column_trans] fail together and alike.  A
    descriptor without a type raises [KeyError] in both; a type that is
    not a string, a list or a dict raises [TypeError] in both; every
    other descriptor gets one of the eight column types and a
    transform. *)
Theorem column_type_fails_with_column_trans (schema_property : dict) :
  match dict_get "type" schema_property with
  | None =>
      column_type schema_property = Raise (KeyError "type") /\
      column_trans schema_property = Raise (KeyError "type")
  | Some ty =>
      if is_container ty then typed_column (JObj schema_property)
      else column_type schema_property = Raise TypeError /\
           column_trans schema_property = Raise TypeError
  end.
Proof.
  destruct (dict_get "type" schema_property) as [ty|] eqn:Hty.
  - destruct (is_container ty) eqn:Hc.
    + exact (column_type_of_container _ _ Hty Hc).
    + unfold column_type, column_trans, or_else.
      rewrite (dict_item_get Hty). cbn [bind].
      destruct ty; try discriminate Hc; split; reflexivity.
  - unfold column_type, column_trans, dict_item. rewrite Hty. split; reflexivity.
Qed.

Lemma missing_key_error_inj (k k' : string) :
  missing_key_error k = missing_key_error k' -> k = k'.
Proof.
  unfold missing_key_error. intro H.
  apply str_app_inv_head in H. now apply str_app_inv_tail in H.
Qed.

Lemma in_missing (config : dict) (keys : list string) (k : string) :
  In (missing_key_error k)
     (map missing_key_error (filter (fun k => negb (get_truthy k config)) keys)) <->
  In k keys /\ get_truthy k config = false.
Proof.
  rewrite in_map_iff. split.
  - intros (k' & Hk & Hin). apply missing_key_error_inj in Hk. subst k'.
    apply filter_In in Hin. destruct Hin as [Hin Hf].
    split; [exact Hin|]. now apply negb_true_iff.
  - intros [Hin Hf]. exists k. split; [reflexivity|].
    apply filter_In. split; [exact Hin|]. now apply negb_true_iff.
Qed.

(** X12: the missing-key messages of [validate_config] are exactly those
    of the required keys of the selected staging mode that have no truthy
    value: the keys of the external stage when both ['s3_bucket'] and
    ['stage'] are set, the keys of the table stage when neither is.  With
    only one of the two set, no missing key is reported at all. *)
Theorem validate_config_reports_missing_keys (config : dict) (k : string) :
  In (missing_key_error k) (validate_config config) <->
  get_truthy k config = false /\
  ((get_truthy "s3_bucket" config = true /\ get_truthy "stage" config = true /\
    In k s3_required_config_keys) \/
   (get_truthy "s3_bucket" config = false /\ get_truthy "stage" config = false /\
    In k snowflake_required_config_keys)).
Proof.
  rewrite validate_config_messages. rewrite in_app_iff.
  assert (Hother : In (missing_key_error k)
                      (if negb (get_truthy "default_target_schema" config) &&
                          negb (get_truthy "schema_mapping" config)
                       then [no_target_schema_error] else []) <-> False).
  { destruct (negb (get_truthy "default_target_schema" config) &&
              negb (get_truthy "schema_mapping" config)); cbn [In]; [|tauto].
    split; [intros [H|[]]; discriminate H|tauto]. }
  rewrite Hother.
  destruct (get_truthy "s3_bucket" config), (get_truthy "stage" config);
    cbn [andb negb]; rewrite ?in_missing.
  - intuition discriminate.
  - cbn [In]. split; [intros [[H|[]]|[]]; discriminate H|].
    intros (_ & [(_ & H & _)|(H & _)]); discriminate H.
  - cbn [In]. split; [intros [[H|[]]|[]]; discriminate H|].
    intros (_ & [(H & _)|(_ & H & _)]); discriminate H.
  - intuition discriminate.
Qed.

(* ----------------------------------------------------------------- *)
(** ** [__init__] *)

Lemma stream_name_to_dict_plain (stream_name separator : string) :
  separator <> "" -> py_contains separator stream_name = false ->
  stream_name_to_dict stream_name separator =
  Ok {| catalog_name := None; schema_name := None; table_name := stream_name |}.
Proof.
  intros Hsep Hc. unfold stream_name_to_dict, py_split.
  destruct separator as [|c sep']; [congruence|]. cbn [bind].
  rewrite (split_without_separator _ Hsep stream_name "" Hc). reflexivity.
Qed.

(** X13: a named stage has to be qualified.  With a configuration that
    [validate_config] accepts, a stage name without a dot makes
    [__init__] exit with code 1, with or without a stream. *)
Theorem init_exits_on_unqualified_stage
    (connection_config : dict) (stage : string) (stream_schema_message : option string) :
  validate_config connection_config = [] ->
  dict_get "stage" connection_config = Some (JStr stage) ->
  stage <> "" ->
  py_contains "." stage = false ->
  DbSync.__init__ connection_config stream_schema_message = DbSync.Exits 1.
Proof.
  intros Hvalid Hstage Hne Hdot. unfold DbSync.__init__.
  rewrite Hvalid. cbn [DbSync.nonempty].
  unfold DbSync.stage_has_schema. rewrite Hstage. cbn [truthy].
  apply String.eqb_neq in Hne. rewrite Hne. cbn [negb].
  unfold stream_schema_name.
  rewrite (stream_name_to_dict_plain stage "." ltac:(discriminate) Hdot).
  reflexivity.
Qed.

Lemma init_exits_on_unqualified_stage_witness :
  DbSync.__init__ (mapped_config "my_stage" []) (Some "sales-orders") = DbSync.Exits 1.
Proof.
  apply (init_exits_on_unqualified_stage
           (mapped_config "my_stage" []) "my_stage" (Some "sales-orders")).
  - reflexivity.
  - reflexivity.
  - discriminate.
  - reflexivity.
Defined.

(** X14: the mapping of a stream's schema shadows the default target
    schema.  When ['schema_mapping'] has an entry for the schema part of
    the stream name, the target schema is what the entry gives under
    ['target_schema'] and nothing else: an entry without a (truthy)
    target schema makes [__init__] raise, even though a default target
    schema is configured.  The grantees fall back on the default ones. *)
Theorem init_mapping_shadows_default
    (connection_config : dict) (stream_name schema default : string)
    (mapping entry : dict) :
  validate_config connection_config = [] ->
  DbSync.stage_has_schema connection_config = Ok true ->
  DbSync.default_target_schema connection_config = Ok default ->
  dict_get "schema_mapping" connection_config = Some (JObj mapping) ->
  stream_schema_name stream_name "-" = Ok (Some schema) ->
  dict_get schema mapping = Some (JObj entry) ->
  DbSync.__init__ connection_config (Some stream_name) =
  if DbSync.truthy_opt (dict_get "target_schema" entry)
  then DbSync.Initialised
         (dict_get "target_schema" entry)
         (match dict_get "target_schema_select_permissions" entry with
          | Some grantees => Some grantees
          | None => dict_get "default_target_schema_select_permissions" connection_config
          end)
  else DbSync.RaisesException (DbSync.undefined_target_schema stream_name).
Proof.
  intros Hvalid Hstage Hdefault Hmapping Hschema Hentry.
  unfold DbSync.__init__. rewrite Hvalid, Hstage. cbn [DbSync.nonempty].
  unfold DbSync.target_schema, DbSync.grantees_of.
  rewrite Hdefault, Hmapping, Hschema. cbn [bind].
  unfold DbSync.in_schema_mapping, DbSync.mapping_has, DbSync.mapping_entry,
    dict_has, dict_item.
  assert (Ht : truthy (JObj mapping) = true)
    by (destruct mapping; [discriminate Hentry|reflexivity]).
  rewrite Ht, Hentry. cbn [bind DbSync.entry_get].
  destruct (DbSync.truthy_opt (dict_get "target_schema" entry)); reflexivity.
Qed.

Lemma init_mapping_shadows_default_witness :
  DbSync.__init__ (mapped_config "ext.stage" [("target_schema_select_permissions", JStr "r")])
    (Some "sales-orders") =
  DbSync.RaisesException (DbSync.undefined_target_schema "sales-orders").
Proof.
  apply (init_mapping_shadows_default
           (mapped_config "ext.stage" [("target_schema_select_permissions", JStr "r")])
           "sales-orders" "sales" "landing"
           [("sales", JObj [("target_schema_select_permissions", JStr "r")])]
           [("target_schema_select_permissions", JStr "r")]);
    reflexivity.
Defined.

Lemma stream_schema_name_total (stream_name separator : string) :
  separator <> "" -> exists schema, stream_schema_name stream_name separator = Ok schema.
Proof.
  intro Hsep. unfold stream_schema_name.
  destruct (stream_name_to_dict_total stream_name separator Hsep) as [d ->].
  cbn [bind]. eauto.
Qed.

(** X15: a blank default target schema passes [validate_config] and
    fails in [__init__].  For a configuration without error and without
    ['schema_mapping'], whose ['default_target_schema'] is a string of
    white space only, [__init__] raises the exception that no target
    schema is defined, for every stream. *)
Theorem init_rejects_blank_default_schema
    (connection_config : dict) (default stream_name : string) :
  validate_config connection_config = [] ->
  DbSync.stage_has_schema connection_config = Ok true ->
  dict_get "schema_mapping" connection_config = None ->
  dict_get "default_target_schema" connection_config = Some (JStr default) ->
  py_strip default = "" ->
  DbSync.__init__ connection_config (Some stream_name) =
  DbSync.RaisesException (DbSync.undefined_target_schema stream_name).
Proof.
  intros Hvalid Hstage Hmapping Hdefault Hblank.
  unfold DbSync.__init__. rewrite Hvalid, Hstage. cbn [DbSync.nonempty].
  unfold DbSync.target_schema, DbSync.default_target_schema.
  rewrite Hdefault, Hmapping, Hblank. cbn [bind].
  destruct (stream_schema_name_total stream_name "-") as [schema ->]; [discriminate|].
  reflexivity.
Qed.

Lemma init_rejects_blank_default_schema_witness :
  DbSync.__init__ blank_schema_config (Some "sales-orders") =
  DbSync.RaisesException (DbSync.undefined_target_schema "sales-orders").
Proof.
  apply (init_rejects_blank_default_schema blank_schema_config "  " "sales-orders");
    reflexivity.
Defined.

(** X16: what an initialised instance can rely on.  When [__init__]
    returns, the configuration has no error; without a stream there is no
    target schema and there are no grantees; with a stream the target
    schema is truthy, and it is either the default target schema, without
    the white space around it, or a value of the schema mapping. *)
Theorem init_gives_a_target_schema
    (connection_config : dict) (stream_schema_message : option string)
    (schema_name grantees : option json) :
  DbSync.__init__ connection_config stream_schema_message =
  DbSync.Initialised schema_name grantees ->
  validate_config connection_config = [] /\
  match stream_schema_message with
  | None => schema_name = None /\ grantees = None
  | Some stream_name =>
      DbSync.truthy_opt schema_name = true /\
      ((exists default,
           dict_get "default_target_schema" connection_config = Some (JStr default) /\
           schema_name = Some (JStr (py_strip default))) \/
       (exists mapping key entry,
           dict_get "schema_mapping" connection_config = Some (JObj mapping) /\
           dict_get key mapping = Some (JObj entry) /\
           schema_name = dict_get "target_schema" entry))
  end.
Proof.
  unfold DbSync.__init__.
  destruct (validate_config connection_config) as [|e errors]; [|discriminate].
  cbn [DbSync.nonempty].
  destruct (DbSync.stage_has_schema connection_config) as [[|]|e]; try discriminate.
  destruct stream_schema_message as [stream_name|].
  - destruct (DbSync.target_schema connection_config stream_name) as [schema|e] eqn:Hts;
      [|discriminate].
    destruct (DbSync.truthy_opt schema) eqn:Htruthy; cbn [negb]; [|discriminate].
    destruct (DbSync.grantees_of connection_config stream_name) as [g|e]; [|discriminate].
    intro H. injection H as <- <-. split; [reflexivity|]. split; [exact Htruthy|].
    unfold DbSync.target_schema, DbSync.default_target_schema in Hts.
    destruct (dict_get "default_target_schema" connection_config) as [[| | |default| |]|]
      eqn:Hdefault; try discriminate Hts; cbn [bind] in Hts.
    + apply bind_ok in Hts. destruct Hts as (stream_schema & _ & Hts).
      apply bind_ok in Hts. destruct Hts as (mapped & Hmapped & Hts).
      destruct mapped.
      * right. apply bind_ok in Hts. destruct Hts as (entry & Hentry & Hget).
        unfold DbSync.mapping_entry in Hentry.
        destruct (dict_get "schema_mapping" connection_config) as [[| | | | |mapping]|];
          try discriminate Hentry.
        -- destruct stream_schema as [key|]; [|discriminate Hentry].
           unfold dict_item in Hentry.
           destruct (dict_get key mapping) as [v|] eqn:Hkey; [|discriminate Hentry].
           injection Hentry as ->.
           destruct entry as [| | | | |entry]; try discriminate Hget.
           cbn [DbSync.entry_get] in Hget. injection Hget as <-.
           exists mapping, key, entry. repeat split; assumption.
        -- destruct stream_schema; cbn in Hentry; discriminate Hentry.
      * left. exists default. split; [reflexivity|].
        destruct (py_strip default =? ""); cbn [negb] in Hts.
        -- injection Hts as <-. discriminate Htruthy.
        -- injection Hts as <-. reflexivity.
    + apply bind_ok in Hts. destruct Hts as (stream_schema & _ & Hts).
      apply bind_ok in Hts. destruct Hts as (mapped & Hmapped & Hts).
      destruct mapped.
      * right. apply bind_ok in Hts. destruct Hts as (entry & Hentry & Hget).
        unfold DbSync.mapping_entry in Hentry.
        destruct (dict_get "schema_mapping" connection_config) as [[| | | | |mapping]|];
          try discriminate Hentry.
        -- destruct stream_schema as [key|]; [|discriminate Hentry].
           unfold dict_item in Hentry.
           destruct (dict_get key mapping) as [v|] eqn:Hkey; [|discriminate Hentry].
           injection Hentry as ->.
           destruct entry as [| | | | |entry]; try discriminate Hget.
           cbn [DbSync.entry_get] in Hget. injection Hget as <-.
           exists mapping, key, entry. repeat split; assumption.
        -- destruct stream_schema; cbn in Hentry; discriminate Hentry.
      * cbn in Hts. injection Hts as <-. discriminate Htruthy.
  - intro H. injection H as <- <-. repeat split.
Qed.

Lemma init_gives_a_target_schema_witness :
  validate_config (mapped_config "ext.stage" [("target_schema", JStr "sales_dw")]) = [] /\
  DbSync.truthy_opt (Some (JStr "sales_dw")) = true /\
  ((exists default,
       dict_get "default_target_schema"
         (mapped_config "ext.stage" [("target_schema", JStr "sales_dw")]) =
       Some (JStr default) /\
       Some (JStr "sales_dw") = Some (JStr (py_strip default))) \/
   (exists mapping key entry,
       dict_get "schema_mapping"
         (mapped_config "ext.stage" [("target_schema", JStr "sales_dw")]) =
       Some (JObj mapping) /\
       dict_get key mapping = Some (JObj entry) /\
       Some (JStr "sales_dw") = dict_get "target_schema" entry)).
Proof.
  apply (init_gives_a_target_schema
           (mapped_config "ext.stage" [("target_schema", JStr "sales_dw")])
           (Some "sales-orders") (Some (JStr "sales_dw")) None).
  reflexivity.
Defined.

(* ----------------------------------------------------------------- *)
(** ** The ingestion loops, for every script of the service *)

Section Loops.

Import DbSync.

Lemma submit_loop_rejected (responses : list bool) (retries : json) (g : generator) :
  submit_loop (false :: responses) retries g =
  after IngestFiles
    (after (Sleep (fst (next g)))
       (match decrement retries with
        | Raise e => ([], Some (Raise e))
        | Ok retries =>
            if negb (truthy retries) then ([], Some (Raise (AttributeError "critcal")))
            else submit_loop responses retries (snd (next g))
        end)).
Proof.
  cbn [submit_loop].
  unfold logging.
  change (logger "debug") with (@Ok unit tt).
  change (logger "error") with (@Ok unit tt).
  change (logger "critcal") with (@Raise unit (AttributeError "critcal")).
  cbv iota. destruct (next g) as [seconds g']. cbn [fst snd].
  destruct (decrement retries) as [r|e]; [|reflexivity].
  destruct (negb (truthy r)); reflexivity.
Qed.

Lemma in_after (a b : action) (r : run) :
  In a (fst (after b r)) <-> a = b \/ In a (fst r).
Proof. destruct r as [trace o]. cbn. intuition congruence. Qed.

Lemma submit_loop_ends (responses : list bool) :
  forall (retries : json) (g : generator),
    snd (submit_loop responses retries g) = None \/
    snd (submit_loop responses retries g) = Some (Ok tt) \/
    snd (submit_loop responses retries g) = Some (Raise (AttributeError "critcal")) \/
    snd (submit_loop responses retries g) = Some (Raise TypeError).
Proof.
  induction responses as [|[|] responses IH]; intros retries g.
  - left. reflexivity.
  - right. left. reflexivity.
  - rewrite submit_loop_rejected, !snd_after.
    destruct retries as [|b|n|s|l|kvs]; cbn [decrement]; auto;
      match goal with
      | |- context [if ?c then _ else _] => destruct c; cbn [snd]; auto
      end.
Qed.

Lemma submit_loop_no_query (responses : list bool) :
  forall (retries : json) (g : generator) (a : action),
    In a (fst (submit_loop responses retries g)) ->
    a = IngestFiles \/ exists seconds, a = Sleep seconds.
Proof.
  induction responses as [|[|] responses IH]; intros retries g a.
  - intros [].
  - cbn. intros [<-|[]]. now left.
  - rewrite submit_loop_rejected, !in_after.
    intros [->|[->|H]]; [now left|right; eauto|].
    destruct (decrement retries) as [r|e]; [|destruct H].
    destruct (negb (truthy r)); [destruct H|]. exact (IH _ _ _ H).
Qed.

Lemma submit_loop_accepted (responses : list bool) :
  forall (retries : json) (g : generator),
    snd (submit_loop responses retries g) = Some (Ok tt) -> In true responses.
Proof.
  induction responses as [|[|] responses IH]; intros retries g.
  - discriminate.
  - intros _. now left.
  - rewrite submit_loop_rejected, !snd_after. intro H. right.
    destruct (decrement retries) as [r|e]; [|discriminate H].
    destruct (negb (truthy r)); [discriminate H|]. exact (IH _ _ H).
Qed.

Lemma poll_loop_found (drop_pipe_sql : string) (files : nat) (histories : list nat)
    (g : generator) :
  poll_loop drop_pipe_sql (S files :: histories) g =
  ([GetHistory; Query drop_pipe_sql], Some (Ok tt)).
Proof. reflexivity. Qed.

(** A statement of the polling loop: only the one that drops the pipe,
    and only when a history with files ends the loop. *)
Lemma poll_loop_queries (drop_pipe_sql : string) (histories : list nat) :
  forall (g : generator) (a : action),
    In a (fst (poll_loop drop_pipe_sql histories g)) ->
    (a = GetHistory \/ exists seconds, a = Sleep seconds) \/
    (a = Query drop_pipe_sql /\
     existsb (fun files => (0 <? files)%nat) histories = true /\
     snd (poll_loop drop_pipe_sql histories g) = Some (Ok tt)).
Proof.
  induction histories as [|[|files] histories IH]; intros g a.
  - intros [].
  - rewrite poll_loop_empty, !in_after, !snd_after. cbn [existsb Nat.ltb Nat.leb orb].
    intros [->|[->|H]]; [left; now left|left; right; eauto|].
    exact (IH _ _ H).
  - rewrite poll_loop_found. cbn [fst snd In existsb Nat.ltb Nat.leb orb].
    intros [<-|[<-|[]]]; [left; now left|right; repeat split].
Qed.

Lemma poll_loop_outcome (drop_pipe_sql : string) (histories : list nat) :
  forall g : generator,
    snd (poll_loop drop_pipe_sql histories g) = None \/
    snd (poll_loop drop_pipe_sql histories g) = Some (Ok tt).
Proof.
  induction histories as [|[|files] histories IH]; intro g.
  - left. reflexivity.
  - rewrite poll_loop_empty, !snd_after. apply IH.
  - right. reflexivity.
Qed.

Lemma fst_after (a : action) (r : run) : fst (after a r) = a :: fst r.
Proof. destruct r as [trace o]. reflexivity. Qed.

(** The rounds of the polling loop taken from the second value of the
    generator on. *)
Lemma rounds_shift (g : generator) (k : nat) :
  forall a : nat,
    flat_map (fun i => [GetHistory; Sleep (fst (next (advance i (snd (next g)))))])
             (seq a k) =
    flat_map (fun i => [GetHistory; Sleep (fst (next (advance i g)))]) (seq (S a) k).
Proof.
  induction k as [|k IH]; intro a; cbn [seq flat_map]; [reflexivity|].
  rewrite IH. cbn [advance]. now rewrite advance_shift.
Qed.

End Loops.

(** X17: [sys.exit(1)] is never reached.  However the service answers
    and whatever ['max_retry'] holds, the submission loop does not end
    with an exit: where the exhaustion of the retries is detected, the
    call of the misspelt [self.logger.critcal] comes first and raises.
    Nor does [load_via_snowpipe], from the submission on, end with an
    exit: it has no other one. *)
Theorem submit_loop_never_exits
    (responses : list bool) (retries : json) (g : DbSync.generator) :
  (forall code,
      snd (DbSync.submit_loop responses retries g) <> Some (Raise (SystemExit code))) /\
  (forall connection_config pipe_name histories code,
      snd (DbSync.load_via_snowpipe connection_config pipe_name responses histories) <>
      Some (Raise (SystemExit code))).
Proof.
  split.
  - intros code Hexit.
    destruct (submit_loop_ends responses retries g) as [H|[H|[H|H]]];
      rewrite Hexit in H; discriminate H.
  - intros connection_config pipe_name histories code.
    unfold DbSync.load_via_snowpipe.
    pose proof (submit_loop_ends responses (DbSync.configured_retries connection_config)
                  (DbSync._increment_value true)) as Hsubmit.
    destruct (DbSync.submit_loop responses (DbSync.configured_retries connection_config)
                (DbSync._increment_value true)) as [trace [[[]|e]|]]; cbn [snd] in *.
    + pose proof (poll_loop_outcome ("drop pipe if exists " ++ pipe_name ++ ";") histories
                    (DbSync._increment_value false)) as Hpoll.
      destruct (DbSync.poll_loop ("drop pipe if exists " ++ pipe_name ++ ";") histories
                  (DbSync._increment_value false)) as [trace' r]; cbn [snd] in *.
      destruct Hpoll as [-> | ->]; discriminate.
    + destruct Hsubmit as [H|[H|[H|H]]]; congruence.
    + discriminate.
Qed.

(** X18: with a limit of at least one, the submission loop never makes
    more attempts than the limit, whatever the service answers; and when
    it ends on the exhaustion of its retries, it has made exactly as many
    attempts as the limit says. *)
Theorem submit_attempts_are_bounded
    (responses : list bool) (z : Z) (g : DbSync.generator) :
  (1 <= z)%Z ->
  (attempts (fst (DbSync.submit_loop responses (JNum z) g)) <= Z.to_nat z)%nat /\
  (snd (DbSync.submit_loop responses (JNum z) g) = Some (Raise (AttributeError "critcal")) ->
   attempts (fst (DbSync.submit_loop responses (JNum z) g)) = Z.to_nat z).
Proof.
  revert z g. induction responses as [|[|] responses IH]; intros z g Hz.
  - cbn. split; [lia|discriminate].
  - rewrite submit_loop_success. cbn. split; [lia|discriminate].
  - rewrite submit_loop_failure.
    rewrite attempts_after_ingest, attempts_after_sleep, !snd_after.
    destruct (Z.eqb_spec (z - 1) 0) as [E|NE].
    + cbn [fst attempts]. split; [lia|]. intros _. lia.
    + destruct (IH (z - 1)%Z (snd (DbSync.next g))) as [Hle Heq]; [lia|].
      split; [lia|]. intro H. rewrite (Heq H). lia.
Qed.

Lemma submit_attempts_are_bounded_witness :
  (attempts (fst (DbSync.submit_loop [false; false; true; false] (JNum 3)
                    (DbSync._increment_value true))) <= Z.to_nat 3)%nat /\
  (snd (DbSync.submit_loop [false; false; true; false] (JNum 3)
          (DbSync._increment_value true)) = Some (Raise (AttributeError "critcal")) ->
   attempts (fst (DbSync.submit_loop [false; false; true; false] (JNum 3)
                    (DbSync._increment_value true))) = Z.to_nat 3).
Proof.
  apply (submit_attempts_are_bounded [false; false; true; false] 3
           (DbSync._increment_value true)).
  lia.
Defined.

(** X19: the actions of the polling loop, in a run in which the service
    answers every poll with a history that has the fields the loop
    reads, every wait returns and the warehouse takes the statement.  After [k] empty histories and
    then one with files, the loop has made [k] rounds of a poll followed
    by a wait, one more poll, and last the statement that drops the
    pipe, its only statement; what the service would answer later plays
    no part.  While the histories are empty the loop only polls and
    waits. *)
Theorem poll_loop_drops_the_pipe_last
    (drop_pipe_sql : string) (k : nat) (g : DbSync.generator) :
  (forall (files : nat) (rest : list nat),
      fst (DbSync.poll_loop drop_pipe_sql (repeat O k ++ S files :: rest)%list g) =
      (flat_map (fun i => [DbSync.GetHistory;
                           DbSync.Sleep (fst (DbSync.next (advance i g)))]) (seq 0 k) ++
       [DbSync.GetHistory; DbSync.Query drop_pipe_sql])%list) /\
  fst (DbSync.poll_loop drop_pipe_sql (repeat O k) g) =
  flat_map (fun i => [DbSync.GetHistory;
                      DbSync.Sleep (fst (DbSync.next (advance i g)))]) (seq 0 k).
Proof.
  revert g. induction k as [|k IH]; intro g.
  - split; [intros files rest; cbn [repeat app]; now rewrite poll_loop_found|reflexivity].
  - destruct (IH (snd (DbSync.next g))) as [IHfound IHempty].
    cbn [repeat app seq flat_map advance]. split.
    + intros files rest.
      rewrite poll_loop_empty, !fst_after, IHfound, rounds_shift. reflexivity.
    + rewrite poll_loop_empty, !fst_after, IHempty, rounds_shift. reflexivity.
Qed.

(** X20: [load_via_snowpipe] drops the pipe only after the transfer.  If
    a statement is issued at all, from the submission on, it is the one
    that drops the pipe, a submission had been accepted and a history
    with files had come back.  In particular a run whose submissions all
    fail leaves the pipe in place. *)
Theorem load_via_snowpipe_drops_after_transfer
    (connection_config : dict) (pipe_name : string)
    (responses : list bool) (histories : list nat) (sql : string) :
  In (DbSync.Query sql)
     (fst (DbSync.load_via_snowpipe connection_config pipe_name responses histories)) ->
  sql = "drop pipe if exists " ++ pipe_name ++ ";" /\
  In true responses /\
  existsb (fun files => (0 <? files)%nat) histories = true.
Proof.
  unfold DbSync.load_via_snowpipe.
  pose proof (submit_loop_no_query responses (DbSync.configured_retries connection_config)
                (DbSync._increment_value true) (DbSync.Query sql)) as Hno.
  pose proof (submit_loop_accepted responses (DbSync.configured_retries connection_config)
                (DbSync._increment_value true)) as Hacc.
  destruct (DbSync.submit_loop responses (DbSync.configured_retries connection_config)
              (DbSync._increment_value true)) as [trace [[[]|e]|]];
    cbn [fst snd] in *;
    try (intro H; destruct (Hno H) as [Hq|[s Hq]]; discriminate Hq).
  pose proof (poll_loop_queries ("drop pipe if exists " ++ pipe_name ++ ";") histories
                (DbSync._increment_value false) (DbSync.Query sql)) as Hpoll.
  destruct (DbSync.poll_loop ("drop pipe if exists " ++ pipe_name ++ ";") histories
              (DbSync._increment_value false)) as [trace' r].
  cbn [fst snd] in *. intro H.
  apply in_app_or in H. destruct H as [H|H];
    [destruct (Hno H) as [Hq|[s Hq]]; discriminate Hq|].
  destruct (Hpoll H) as [[Hq|[s Hq]]|(Hq & He & Hs)]; try discriminate Hq.
  injection Hq as ->. repeat split; auto.
Qed.

Lemma load_via_snowpipe_drops_after_transfer_witness :
  "drop pipe if exists db.s.t_s3_pipe;" = "drop pipe if exists " ++ "db.s.t_s3_pipe" ++ ";" /\
  In true [false; true] /\
  existsb (fun files => (0 <? files)%nat) [0%nat; 2%nat] = true.
Proof.
  apply (load_via_snowpipe_drops_after_transfer [] "db.s.t_s3_pipe" [false; true]
           [0%nat; 2%nat] "drop pipe if exists db.s.t_s3_pipe;").
  cbn. right. right. right. right. right. right. left. reflexivity.
Defined.

(* ----------------------------------------------------------------- *)
(** ** [update_columns] and [create_table_query] *)

Lemma comprehension_map {A B : Type} (f : A -> result (option B)) (g : A -> option B)
    (l : list A) :
  Forall (fun a => f a = Ok (g a)) l ->
  DbSync.comprehension f l =
  Ok (flat_map (fun a => match g a with Some b => [b] | None => [] end) l).
Proof.
  induction 1 as [|a l Ha Hl IH]; [reflexivity|].
  cbn [DbSync.comprehension flat_map]. rewrite Ha, IH. cbn [bind].
  destruct (g a); reflexivity.
Qed.

Lemma flat_map_nil {A B : Type} (f : A -> list B) (l : list A) :
  Forall (fun a => f a = []) l -> flat_map f l = [].
Proof.
  induction 1 as [|a l Ha Hl IH]; [reflexivity|].
  cbn [flat_map]. now rewrite Ha, IH.
Qed.

(** [update_columns], given the two comprehensions. *)
Lemma update_columns_exact
    (catalog : list string -> list DbSync.column) (strftime : nat -> string)
    (self : DbSync.t) (adds : list string) (pairs : list (string * string)) :
  DbSync.comprehension (DbSync.to_add (DbSync.columns_dict_of (live_columns catalog self)))
                (DbSync.flatten_schema self) = Ok adds ->
  DbSync.comprehension (DbSync.to_replace (DbSync.columns_dict_of (live_columns catalog self)))
                (DbSync.flatten_schema self) = Ok pairs ->
  DbSync.update_columns catalog strftime self =
  ((fetch_columns self ++
    map (fun column => DbSync.Query (DbSync.add_column_sql (the_table self false) column))
        adds ++
    replace_trace strftime self 0 pairs ++
    refresh_cache self ((0 <? List.length adds)%nat || DbSync.nonempty pairs))%list,
   Ok (if DbSync.nonempty (DbSync.table_cache self) &&
          ((0 <? List.length adds)%nat || DbSync.nonempty pairs)
       then DbSync.set_table_cache self (catalog [DbSync.schema_name self])
       else self)).
Proof.
  intros Hadds Hpairs. unfold DbSync.update_columns.
  rewrite table_name_the_table, bindM_lift_ok.
  unfold live_columns in Hadds, Hpairs.
  unfold fetch_columns, refresh_cache.
  destruct (DbSync.nonempty (DbSync.table_cache self)) eqn:Hcache.
  - rewrite bindM_ret.
    rewrite Hadds, bindM_lift_ok, add_columns_run, bindM_ok.
    rewrite Hpairs, bindM_lift_ok, (replace_columns_run strftime), bindM_ok.
    cbn [fst snd andb].
    destruct ((0 <? List.length adds)%nat || DbSync.nonempty pairs); reflexivity.
  - unfold DbSync.get_table_columns, DbSync.perform, DbSync.ret.
    cbn [DbSync.bindM app].
    rewrite Hadds, bindM_lift_ok, add_columns_run, bindM_ok.
    rewrite Hpairs, bindM_lift_ok, (replace_columns_run strftime), bindM_ok.
    cbn [fst snd andb app]. rewrite !app_nil_r. reflexivity.
Qed.

(** X21: a table that already matches the schema is left alone.  When
    every column of the flattened schema is in the table with the type it
    maps to (or maps to a timestamp), [update_columns] issues no
    statement: it looks at the catalog once if it has no cache, and
    returns [self] with its cache as it was. *)
Theorem update_columns_leaves_matching_table
    (catalog : list string -> list DbSync.column) (strftime : nat -> string)
    (self : DbSync.t) :
  Forall (column_matches catalog self) (DbSync.flatten_schema self) ->
  DbSync.update_columns catalog strftime self = (fetch_columns self, Ok self).
Proof.
  intro Hmatch.
  set (columns_dict := DbSync.columns_dict_of (live_columns catalog self)).
  assert (Hadds : DbSync.comprehension (DbSync.to_add columns_dict)
                    (DbSync.flatten_schema self) = Ok []).
  { rewrite (comprehension_map _ (fun _ => None)).
    - f_equal. apply flat_map_nil. apply Forall_forall. reflexivity.
    - eapply Forall_impl; [|exact Hmatch].
      intros [name property] (ty & live & Hty & Hlive & _). cbn [fst snd] in *.
      rewrite (to_add_spec _ _ _ _ Hty). unfold dict_has.
      unfold live_column in Hlive. fold columns_dict in Hlive. now rewrite Hlive. }
  assert (Hpairs : DbSync.comprehension (DbSync.to_replace columns_dict)
                     (DbSync.flatten_schema self) = Ok []).
  { rewrite (comprehension_map _ (fun _ => None)).
    - f_equal. apply flat_map_nil. apply Forall_forall. reflexivity.
    - eapply Forall_impl; [|exact Hmatch].
      intros [name property] (ty & live & Hty & Hlive & Hsame). cbn [fst snd] in *.
      rewrite (to_replace_spec _ _ _ _ Hty).
      unfold live_column in Hlive. fold columns_dict in Hlive. rewrite Hlive.
      destruct Hsame as [Hsame| ->].
      + rewrite Hsame, String.eqb_refl. reflexivity.
      + cbn [String.eqb negb]. now rewrite andb_false_r. }
  rewrite (update_columns_exact catalog strftime self [] [] Hadds Hpairs).
  unfold refresh_cache. cbn [List.length Nat.ltb Nat.leb DbSync.nonempty orb map replace_trace app].
  rewrite !andb_false_r, !app_nil_r. reflexivity.
Qed.

Lemma update_columns_leaves_matching_table_witness :
  DbSync.update_columns no_catalog noon settled_sync =
  (fetch_columns settled_sync, Ok settled_sync).
Proof.
  apply (update_columns_leaves_matching_table no_catalog noon settled_sync).
  repeat constructor.
  exists "number",
    {| DbSync.SCHEMA_NAME := "SALES"; DbSync.TABLE_NAME := "ORDERS";
       DbSync.COLUMN_NAME := "ID"; DbSync.DATA_TYPE := "NUMBER" |}.
  split; [reflexivity|]. split; [reflexivity|]. left. reflexivity.
Defined.

Lemma column_clauses_comprehension (flatten_schema : list (string * dict)) :
  Forall (fun entry => exists ty, column_type (snd entry) = Ok ty) flatten_schema ->
  DbSync.comprehension
    (fun entry => clause <- column_clause (fst entry) (snd entry) ;; Ok (Some clause))
    flatten_schema = Ok (column_clauses flatten_schema).
Proof.
  induction 1 as [|entry l [ty Hty] Hl IH]; [reflexivity|].
  cbn [DbSync.comprehension column_clauses flat_map]. rewrite IH.
  unfold column_clause. rewrite Hty. reflexivity.
Qed.

(** X22: a new table and a table without columns get the same columns.
    For a flattened schema whose columns all have a type,
    [create_table_query] never raises and lists the column clauses of the
    schema, in its order, followed by the primary key when there are key
    properties; and on a table that has no column yet, [update_columns]
    adds exactly these clauses, one statement each, in the same order,
    and renames nothing. *)
Theorem create_and_update_agree_on_columns
    (catalog : list string -> list DbSync.column) (strftime : nat -> string)
    (self : DbSync.t) (key_properties : list string) (is_temporary : bool) :
  Forall (fun entry => exists ty, column_type (snd entry) = Ok ty)
         (DbSync.flatten_schema self) ->
  (exists table,
      DbSync.table_name self (DbSync.stream self) is_temporary false = Ok table /\
      DbSync.create_table_query self key_properties is_temporary =
      Ok ("CREATE " ++ (if is_temporary then "TEMP " else "") ++ "TABLE IF NOT EXISTS " ++
          DbSync.format_opt table ++ " (" ++
          py_join ", "
            (column_clauses (DbSync.flatten_schema self) ++
             (if DbSync.nonempty key_properties
              then [("PRIMARY KEY (" ++
                     py_join ", " (map safe_column_name key_properties) ++ ")")%string]
              else []))%list ++ ") " ++
          (if is_temporary then "data_retention_time_in_days = 0 "
           else "data_retention_time_in_days = 1 "))) /\
  (live_columns catalog self = [] ->
   exists self',
     DbSync.update_columns catalog strftime self =
     ((fetch_columns self ++
       map (fun clause =>
              DbSync.Query (DbSync.add_column_sql (the_table self false) clause))
           (column_clauses (DbSync.flatten_schema self)) ++
       refresh_cache self (DbSync.nonempty (DbSync.flatten_schema self)))%list,
      Ok self')).
Proof.
  intro Htyped. split.
  - destruct (table_name_ok self (DbSync.stream self) is_temporary false) as [table Htable].
    exists table. split; [exact Htable|].
    unfold DbSync.create_table_query.
    rewrite (column_clauses_comprehension _ Htyped), Htable. reflexivity.
  - intro Hlive.
    assert (Hadds : DbSync.comprehension
                      (DbSync.to_add (DbSync.columns_dict_of (live_columns catalog self)))
                      (DbSync.flatten_schema self) =
                    Ok (column_clauses (DbSync.flatten_schema self))).
    { rewrite Hlive. clear Hlive.
      induction Htyped as [|[name property] l [ty Hty] Hl IH]; [reflexivity|].
      cbn [DbSync.comprehension column_clauses flat_map fst snd] in *.
      rewrite IH. rewrite (to_add_spec _ _ _ _ Hty).
      unfold column_clause. rewrite Hty. reflexivity. }
    assert (Hpairs : DbSync.comprehension
                       (DbSync.to_replace (DbSync.columns_dict_of (live_columns catalog self)))
                       (DbSync.flatten_schema self) = Ok []).
    { rewrite Hlive. clear Hlive Hadds.
      induction Htyped as [|[name property] l [ty Hty] Hl IH]; [reflexivity|].
      cbn [DbSync.comprehension]. rewrite IH. reflexivity. }
    rewrite (update_columns_exact catalog strftime self _ _ Hadds Hpairs).
    eexists. cbn [replace_trace app DbSync.nonempty]. rewrite orb_false_r.
    assert (Hlen : (0 <? List.length (column_clauses (DbSync.flatten_schema self)))%nat =
                   DbSync.nonempty (DbSync.flatten_schema self)).
    { destruct Htyped as [|[name property] l [ty Hty] Hl]; [reflexivity|].
      cbn [snd] in Hty.
      cbn [column_clauses flat_map fst snd]. unfold column_clause. rewrite Hty.
      reflexivity. }
    rewrite Hlen. reflexivity.
Qed.

Lemma create_and_update_agree_on_columns_witness :
  (exists table,
      DbSync.table_name fresh_sync (DbSync.stream fresh_sync) false false = Ok table /\
      DbSync.create_table_query fresh_sync ["id"] false =
      Ok ("CREATE " ++ "" ++ "TABLE IF NOT EXISTS " ++
          DbSync.format_opt table ++ " (" ++
          py_join ", "
            (column_clauses (DbSync.flatten_schema fresh_sync) ++
             (if DbSync.nonempty ["id"]
              then [("PRIMARY KEY (" ++
                     py_join ", " (map safe_column_name ["id"]) ++ ")")%string]
              else []))%list ++ ") " ++
          "data_retention_time_in_days = 1 ")) /\
  (live_columns no_catalog fresh_sync = [] ->
   exists self',
     DbSync.update_columns no_catalog noon fresh_sync =
     ((fetch_columns fresh_sync ++
       map (fun clause =>
              DbSync.Query (DbSync.add_column_sql (the_table fresh_sync false) clause))
           (column_clauses (DbSync.flatten_schema fresh_sync)) ++
       refresh_cache fresh_sync (DbSync.nonempty (DbSync.flatten_schema fresh_sync)))%list,
      Ok self')).
Proof.
  apply (create_and_update_agree_on_columns no_catalog noon fresh_sync ["id"] false).
  repeat constructor; cbn [snd]; eexists; reflexivity.
Defined.

(* ----------------------------------------------------------------- *)
(** ** The pipe of a stream; names that differ by case *)

Lemma replace_from_keeps_upper (old new : string) :
  py_upper new = new ->
  forall s skip, py_upper s = s ->
                 py_upper (replace_from old new skip s) = replace_from old new skip s.
Proof.
  intro Hnew. unfold py_upper in *.
  induction s as [|x s IH]; intros skip Hs; [reflexivity|].
  cbn [str_map] in Hs. injection Hs as Hx Hs.
  cbn [replace_from]. destruct skip as [|k]; [|now apply IH].
  destruct (prefix old (String x s)).
  - rewrite str_map_app, Hnew. f_equal. now apply IH.
  - cbn [str_map]. rewrite Hx. f_equal. now apply IH.
Qed.

(** X23: the pipe of a stream.  For a non-empty stream name the pipe
    that [load_via_snowpipe] creates and drops is named by the database,
    the target schema and the table, separated by dots and followed by
    [_s3_pipe], all without double quotes; the table part is in upper
    case and has no dot and no dash. *)
Theorem pipe_name_of_a_stream (dbname : string) (self : DbSync.t) (stream : string) :
  stream <> "" ->
  exists schema_table_name name,
    DbSync.table_name self stream false false = Ok (Some schema_table_name) /\
    DbSync._generate_pipe_name dbname schema_table_name =
    py_replace (String dquote "") "" dbname ++ "." ++
    py_replace (String dquote "") "" (DbSync.schema_name self) ++ "." ++
    name ++ "_s3_pipe" /\
    has_char dquote (DbSync._generate_pipe_name dbname schema_table_name) = false /\
    has_char "." name = false /\ has_char "-" name = false /\ py_upper name = name.
Proof.
  intro Hne.
  destruct (table_name_of_stream self stream Hne)
    as (name & Htable & Hdot & Hdash & Hupper).
  eexists. exists (py_replace (String dquote "") "" name).
  split; [exact Htable|].
  assert (Hpipe : DbSync._generate_pipe_name dbname
                    (DbSync.schema_name self ++ "." ++
                     String dquote name ++ String dquote "") =
                  py_replace (String dquote "") "" dbname ++ "." ++
                  py_replace (String dquote "") "" (DbSync.schema_name self) ++ "." ++
                  py_replace (String dquote "") "" name ++ "_s3_pipe").
  { unfold DbSync._generate_pipe_name. f_equal. f_equal.
    change (String dquote name) with (String dquote "" ++ name).
    rewrite !replace_char_app.
    change (py_replace (String dquote "") "" (String dquote "")) with "".
    change (py_replace (String dquote "") "" ".") with ".".
    cbn [append]. rewrite str_app_nil_r, !str_app_assoc. reflexivity. }
  split; [exact Hpipe|]. split; [|split; [|split]].
  - rewrite Hpipe. rewrite !has_char_app.
    rewrite !replace_char_removes by reflexivity. reflexivity.
  - apply replace_from_keeps_free; [reflexivity|exact Hdot].
  - apply replace_from_keeps_free; [reflexivity|exact Hdash].
  - apply replace_from_keeps_upper; [reflexivity|exact Hupper].
Qed.

Lemma pipe_name_of_a_stream_witness :
  exists schema_table_name name,
    DbSync.table_name orders_sync "sales-orders" false false = Ok (Some schema_table_name) /\
    DbSync._generate_pipe_name "analytics" schema_table_name =
    py_replace (String dquote "") "" "analytics" ++ "." ++
    py_replace (String dquote "") "" (DbSync.schema_name orders_sync) ++ "." ++
    name ++ "_s3_pipe" /\
    has_char dquote (DbSync._generate_pipe_name "analytics" schema_table_name) = false /\
    has_char "." name = false /\ has_char "-" name = false /\ py_upper name = name.
Proof.
  apply (pipe_name_of_a_stream "analytics" orders_sync "sales-orders").
  discriminate.
Defined.

(** X24: the check for duplicate columns compares the names as they are
    written, the warehouse compares them in upper case.  A schema with
    two properties whose names differ only by case is flattened without
    complaint, to two columns, though both have the same column name. *)
Theorem flatten_schema_accepts_case_collisions
    (k1 k2 : string) (v1 v2 : dict) (ty1 ty2 : json) (sep : string) :
  k1 <> k2 -> py_upper k1 = py_upper k2 ->
  (String.length k1 < 255)%nat -> (String.length k2 < 255)%nat ->
  dict_get "type" v1 = Some ty1 -> is_container ty1 = true ->
  dict_get "type" v2 = Some ty2 -> is_container ty2 = true ->
  exists mapping,
    flatten_schema [("properties", JObj [(k1, JObj v1); (k2, JObj v2)])] [] sep 0%Z 0%Z =
    Ok mapping /\
    Permutation mapping [(k1, JObj v1); (k2, JObj v2)] /\
    safe_column_name k1 = safe_column_name k2.
Proof.
  intros Hne Hupper Hlen1 Hlen2 Hty1 Hc1 Hty2 Hc2.
  assert (Hprop : forall k v ty,
             (String.length k < 255)%nat ->
             dict_get "type" v = Some ty -> is_container ty = true ->
             flatten_property (fun _ _ _ _ _ => Ok []) [] sep 0%Z 0%Z (k, JObj v) =
             Ok [(k, JObj v)]).
  { intros k v ty Hlen Hty Hc. unfold flatten_property. cbn [as_dict bind].
    unfold dict_has, and_then. rewrite Hty, (dict_item_get Hty). cbn [bind].
    rewrite (py_in_container _ _ Hc). cbn [bind].
    rewrite andb_false_r.
    rewrite (flatten_key_short k [] sep) by (cbn; exact Hlen).
    destruct (type_includes "object" ty); reflexivity. }
  assert (Hcolumns : flattened_columns
                       [("properties", JObj [(k1, JObj v1); (k2, JObj v2)])] [] sep 0%Z 0%Z =
                     Ok [(k1, JObj v1); (k2, JObj v2)]).
  { unfold flattened_columns. change (Z.to_nat (0 - 0)) with 0%nat.
    cbn [flattened_columns_depth].
    unfold flattened_columns_body.
    change (dict_get "properties"
              [("properties", JObj [(k1, JObj v1); (k2, JObj v2)])])
      with (Some (JObj [(k1, JObj v1); (k2, JObj v2)])).
    cbn [as_dict bind flatten_properties].
    rewrite (Hprop k1 v1 ty1 Hlen1 Hty1 Hc1), (Hprop k2 v2 ty2 Hlen2 Hty2 Hc2).
    reflexivity. }
  destruct (flatten_schema_depth_agrees _ _ _ _ _ _ _ Hcolumns) as [_ Hnodup].
  destruct Hnodup as (mapping & Hmapping & Hperm & _).
  { cbn [map fst]. constructor; [|constructor; [|constructor]]; cbn [In]; intuition. }
  exists mapping. split; [exact Hmapping|]. split; [exact Hperm|].
  rewrite !safe_column_name_quoted, Hupper. reflexivity.
Qed.

Lemma flatten_schema_accepts_case_collisions_witness :
  exists mapping,
    flatten_schema
      [("properties", JObj [("Id", JObj [("type", JArr [JStr "integer"])]);
                            ("id", JObj [("type", JArr [JStr "string"])])])]
      [] "__" 0%Z 0%Z = Ok mapping /\
    Permutation mapping [("Id", JObj [("type", JArr [JStr "integer"])]);
                         ("id", JObj [("type", JArr [JStr "string"])])] /\
    safe_column_name "Id" = safe_column_name "id".
Proof.
  apply (flatten_schema_accepts_case_collisions "Id" "id"
           [("type", JArr [JStr "integer"])] [("type", JArr [JStr "string"])]
           (JArr [JStr "integer"]) (JArr [JStr "string"]) "__").
  - discriminate.
  - reflexivity.
  - cbn. lia.
  - cbn. lia.
  - reflexivity.
  - reflexivity.
  - reflexivity.
  - reflexivity.
Defined.

(* ----------------------------------------------------------------- *)
(** ** From the schema to the column clauses *)

Lemma descriptors_typed (mapping : dict) :
  Forall (fun kv : item => typed_column (snd kv)) mapping ->
  map fst (descriptors mapping) = map fst mapping /\
  Forall (fun entry => exists ty, column_type (snd entry) = Ok ty) (descriptors mapping).
Proof.
  induction 1 as [|[k v] mapping (property & ty & trans & Hv & Hty & _) Hm [IHk IHt]].
  - split; [reflexivity|constructor].
  - cbn [snd] in Hv. subst v. cbn [descriptors flat_map fst snd app map].
    fold (descriptors mapping). split.
    + now rewrite IHk.
    + constructor; [eauto|exact IHt].
Qed.

Lemma column_clauses_length (flatten_schema : list (string * dict)) :
  Forall (fun entry => exists ty, column_type (snd entry) = Ok ty) flatten_schema ->
  List.length (column_clauses flatten_schema) = List.length flatten_schema.
Proof.
  induction 1 as [|entry l [ty Hty] Hl IH]; [reflexivity|].
  cbn [column_clauses flat_map]. fold (column_clauses l).
  unfold column_clause. rewrite Hty. cbn [bind app List.length]. now rewrite IH.
Qed.

(** X25: a schema that flattens gives the table its columns.  When
    [flatten_schema] returns a mapping and the instance holds it, every
    column of the mapping is kept with its descriptor and has its column
    clause; [create_table_query] builds its statement without raising,
    whatever the key properties; and the two comparisons that
    [update_columns] makes with the columns of the table, for the columns
    to add and for the columns to replace, are computed without raising,
    whatever columns the table has. *)
Theorem flattened_schema_gives_column_clauses
    (self : DbSync.t) (d : dict) (max_level : Z) (mapping : dict)
    (key_properties : list string) (is_temporary : bool) :
  flatten_schema d [] "__" 0%Z max_level = Ok mapping ->
  DbSync.flatten_schema self = descriptors mapping ->
  map fst (DbSync.flatten_schema self) = map fst mapping /\
  List.length (column_clauses (DbSync.flatten_schema self)) = List.length mapping /\
  (exists sql, DbSync.create_table_query self key_properties is_temporary = Ok sql) /\
  (forall columns_dict : list (string * DbSync.column),
      exists adds pairs,
        DbSync.comprehension (DbSync.to_add columns_dict) (DbSync.flatten_schema self) =
        Ok adds /\
        DbSync.comprehension (DbSync.to_replace columns_dict) (DbSync.flatten_schema self) =
        Ok pairs).
Proof.
  intros Hflatten Hself.
  apply flatten_schema_depth_layout in Hflatten.
  destruct Hflatten as (_ & _ & Htyped).
  destruct (descriptors_typed mapping Htyped) as [Hkeys Hcolumns].
  rewrite <- Hself in Hkeys, Hcolumns.
  split; [exact Hkeys|]. split; [|split].
  - rewrite (column_clauses_length _ Hcolumns).
    rewrite <- (length_map fst), Hkeys. apply length_map.
  - unfold DbSync.create_table_query.
    rewrite (column_clauses_comprehension _ Hcolumns).
    destruct (table_name_ok self (DbSync.stream self) is_temporary false) as [table ->].
    cbn [bind]. eauto.
  - intro columns_dict.
    destruct (comprehension_total (DbSync.to_add columns_dict) (DbSync.flatten_schema self))
      as (adds & Hadds & _).
    { eapply Forall_impl; [|exact Hcolumns].
      intros [name property] [ty Hty]. rewrite (to_add_spec _ _ _ _ Hty). eauto. }
    destruct (comprehension_total (DbSync.to_replace columns_dict) (DbSync.flatten_schema self))
      as (pairs & Hpairs & _).
    { eapply Forall_impl; [|exact Hcolumns].
      intros [name property] [ty Hty]. rewrite (to_replace_spec _ _ _ _ Hty). eauto. }
    eauto.
Qed.

Lemma flattened_schema_gives_column_clauses_witness :
  map fst (DbSync.flatten_schema fresh_sync) =
  map fst [("id", JObj [("type", JArr [JStr "integer"])]);
           ("note", JObj [("type", JArr [JStr "null"; JStr "string"])])] /\
  List.length (column_clauses (DbSync.flatten_schema fresh_sync)) =
  List.length [("id", JObj [("type", JArr [JStr "integer"])]);
               ("note", JObj [("type", JArr [JStr "null"; JStr "string"])])] /\
  (exists sql, DbSync.create_table_query fresh_sync ["id"] false = Ok sql) /\
  (forall columns_dict : list (string * DbSync.column),
      exists adds pairs,
        DbSync.comprehension (DbSync.to_add columns_dict)
          (DbSync.flatten_schema fresh_sync) = Ok adds /\
        DbSync.comprehension (DbSync.to_replace columns_dict)
          (DbSync.flatten_schema fresh_sync) = Ok pairs).
Proof.
  apply (flattened_schema_gives_column_clauses fresh_sync
           [("properties",
             JObj [("note", JObj [("type", JArr [JStr "null"; JStr "string"])]);
                   ("id", JObj [("type", JArr [JStr "integer"])])])]
           0%Z
           [("id", JObj [("type", JArr [JStr "integer"])]);
            ("note", JObj [("type", JArr [JStr "null"; JStr "string"])])]
           ["id"] false).
  - reflexivity.
  - reflexivity.
Defined.
